(** * MLK archive scripts: scraper, downloader and index generator

    A shallow embedding of the three scripts of the repository
    ([scrape_mlk_records.py], [download_to_s3.py], [generate_index.py])
    and the properties their description states about them.

    Conventions of the embedding.
    - A Python [str] is a [string]; a character is identified with its code
      point, below 256.  [lower] and [isspace] are Python's on that range.
    - A [dict] used as a map is a [gmap]; [d.get(k, v)] is [default v (d !! k)].
    - Python integers are unbounded: [Z].
    - Logging and printing are left out; every other effect (HTTP calls,
      bucket calls, files written, counters) is explicit state.
    - Library calls whose result the scripts only pass along ([urljoin],
      [urlparse(..).path], the HTML parser, the web server, the bucket
      service, the clock) are parameters; each returns or raises.
    - The tasks of the downloader's worker pool are run one after the other,
      in the order they are submitted. *)

From Stdlib Require Import ZArith Ascii String List Bool Lia.
From Stdlib Require Import Numbers.DecimalString.
From stdpp Require Import base option list gmap strings.

Set Warnings "-register-all".

Local Open Scope string_scope.
Local Open Scope Z_scope.

(* ===================================================================== *)
(** * Python strings *)
(* ===================================================================== *)

Module PyStr.

(** Characters that need a code to be written. *)
Definition LF : ascii := ascii_of_nat 10.
Definition CR : ascii := ascii_of_nat 13.
Definition DQUOTE : ascii := ascii_of_nat 34.
Definition BACKSLASH : ascii := ascii_of_nat 92.

Definition chr (c : ascii) : string := String c EmptyString.

(** [len(s)] *)
Definition len (s : string) : Z := Z.of_nat (String.length s).

(** [c.lower()] on code points below 256: A-Z, and the Latin-1 capitals
    U+00C0..U+00DE but U+00D7. *)
Definition lower_char (c : ascii) : ascii :=
  let n := nat_of_ascii c in
  if ((65 <=? n) && (n <=? 90))%nat then ascii_of_nat (n + 32)
  else if ((192 <=? n) && (n <=? 222) && negb (n =? 215))%nat then ascii_of_nat (n + 32)
  else c.

(** [s.lower()] *)
Fixpoint lower (s : string) : string :=
  match s with
  | EmptyString => EmptyString
  | String c s' => String (lower_char c) (lower s')
  end.

(** [c.isspace()] on code points below 256. *)
Definition isspace (c : ascii) : bool :=
  let n := nat_of_ascii c in
  (((9 <=? n) && (n <=? 13)) || ((28 <=? n) && (n <=? 32)) || (n =? 133) || (n =? 160))%nat.

Fixpoint lstrip (s : string) : string :=
  match s with
  | EmptyString => EmptyString
  | String c s' => if isspace c then lstrip s' else s
  end.

(** [s.rstrip()]: a character is kept when something after it is kept, or
    when it is no white space. *)
Fixpoint rstrip (s : string) : string :=
  match s with
  | EmptyString => EmptyString
  | String c s' =>
      match rstrip s' with
      | EmptyString => if isspace c then EmptyString else chr c
      | r => String c r
      end
  end.

(** [s.strip()] *)
Definition strip (s : string) : string := rstrip (lstrip s).

(** [s.startswith(p)] *)
Fixpoint startswith (p s : string) : bool :=
  match p, s with
  | EmptyString, _ => true
  | String _ _, EmptyString => false
  | String a p', String b s' => Ascii.eqb a b && startswith p' s'
  end.

(** [sub in s] *)
Fixpoint contains (sub s : string) : bool :=
  startswith sub s ||
  match s with
  | EmptyString => false
  | String _ s' => contains sub s'
  end.

(** Some character of [s] satisfies [p]. *)
Fixpoint has_char (p : ascii -> bool) (s : string) : bool :=
  match s with
  | EmptyString => false
  | String c s' => p c || has_char p s'
  end.

(** [s.endswith(suf)]: some tail of [s] is [suf]. *)
Fixpoint endswith (suf s : string) : bool :=
  String.eqb s suf ||
  match s with
  | EmptyString => false
  | String _ s' => endswith suf s'
  end.

(** [s.rfind(c)] for a one-character [c]: the index of the last occurrence,
    or -1.  [i] is the index of the head of [s], [last] the answer so far. *)
Fixpoint rfind_from (c : ascii) (s : string) (i last : Z) : Z :=
  match s with
  | EmptyString => last
  | String a s' => rfind_from c s' (i + 1) (if Ascii.eqb a c then i else last)
  end.

Definition rfind (c : ascii) (s : string) : Z := rfind_from c s 0 (-1).

(** [s[i:]] and [s[:i]] for [0 <= i]. *)
Fixpoint drop_n (n : nat) (s : string) : string :=
  match n, s with
  | O, _ => s
  | S _, EmptyString => EmptyString
  | S n', String _ s' => drop_n n' s'
  end.

Fixpoint take_n (n : nat) (s : string) : string :=
  match n, s with
  | O, _ => EmptyString
  | S _, EmptyString => EmptyString
  | S n', String c s' => String c (take_n n' s')
  end.

Definition slice_from (i : Z) (s : string) : string := drop_n (Z.to_nat i) s.
Definition slice_to (i : Z) (s : string) : string := take_n (Z.to_nat i) s.

(** [s[i:i+1]] *)
Definition slice1 (i : Z) (s : string) : string := take_n 1 (slice_from i s).

(** Cutting [s] at every character that [sep] accepts; [s.split(c)] is
    [split (Ascii.eqb c) s]. *)
Fixpoint split (sep : ascii -> bool) (s : string) : list string :=
  match s with
  | EmptyString => [EmptyString]
  | String c s' =>
      if sep c then EmptyString :: split sep s'
      else match split sep s' with
           | [] => [chr c]
           | w :: ws => String c w :: ws
           end
  end.

Definition is_digit (c : ascii) : bool :=
  ((48 <=? nat_of_ascii c) && (nat_of_ascii c <=? 57))%nat.

(** The white space [int] skips at both ends of its argument: the six
    characters of C's [isspace], and U+0085 and U+00A0, which it turns into
    spaces first.  U+001C..U+001F, white space for [str.strip], are not
    skipped. *)
Definition int_space (c : ascii) : bool :=
  let n := nat_of_ascii c in
  (((9 <=? n) && (n <=? 13)) || (n =? 32) || (n =? 133) || (n =? 160))%nat.

Fixpoint skip_int_space (s : string) : string :=
  match s with
  | EmptyString => EmptyString
  | String c s' => if int_space c then skip_int_space s' else s
  end.

Fixpoint only_int_space (s : string) : bool :=
  match s with
  | EmptyString => true
  | String c s' => int_space c && only_int_space s'
  end.

(** The digits of an integer literal, single underscores between digits
    allowed, white space after the last digit skipped; [prev_digit] tells
    whether the character before was a digit.  The result is the value and
    the number of digits read. *)
Fixpoint int_digits (s : string) (acc : Z) (digits : nat) (prev_digit : bool)
    : option (Z * nat) :=
  match s with
  | EmptyString => if prev_digit then Some (acc, digits) else None
  | String c s' =>
      if is_digit c then
        int_digits s' (10 * acc + (Z.of_nat (nat_of_ascii c) - 48)) (S digits) true
      else if Ascii.eqb c "_" && prev_digit then
        match s' with
        | EmptyString => None
        | String d _ => if is_digit d then int_digits s' acc digits false else None
        end
      else if prev_digit && only_int_space s then Some (acc, digits)
      else None
  end.

(** [int(s)] for a string, base ten: [None] is [ValueError].
    [max_str_digits] is [sys.get_int_max_str_digits()]: 0 for no limit,
    4300 unless the interpreter was told otherwise; a literal of more than
    640 digits that exceeds the limit is refused. *)
Definition int_of_str (max_str_digits : nat) (s : string) : option Z :=
  let s := skip_int_space s in
  let '(negative, literal) :=
    match s with
    | String "-" s' => (true, s')
    | String "+" s' => (false, s')
    | _ => (false, s)
    end in
  match int_digits literal 0 0 false with
  | None => None
  | Some (v, digits) =>
      if ((640 <? digits) && (0 <? max_str_digits) && (max_str_digits <? digits))%nat
      then None
      else Some (if negative then - v else v)
  end.

(** ["".join(l)] and [sep.join(l)] *)
Fixpoint concat (l : list string) : string :=
  match l with
  | [] => EmptyString
  | s :: l' => s ++ concat l'
  end.

Fixpoint join (sep : string) (l : list string) : string :=
  match l with
  | [] => EmptyString
  | [s] => s
  | s :: l' => s ++ sep ++ join sep l'
  end.

(** [str(n)] for an integer.  The scripts apply it to the length of a
    buffer, below 2^63, and [raise_for_status] to a status between 400 and
    599: the limit on the digits of a conversion
    ([sys.get_int_max_str_digits()], 640 or more) is out of their reach. *)
Definition str_of_Z (n : Z) : string := NilZero.string_of_int (Z.to_int n).

End PyStr.

(* ===================================================================== *)
(** * [os.path] (posixpath) *)
(* ===================================================================== *)

Module OsPath.
Import PyStr.

(** [posixpath.basename]: [i = p.rfind('/') + 1; return p[i:]] *)
Definition basename (p : string) : string :=
  let i := rfind "/" p + 1 in
  slice_from i p.

(** The loop of [genericpath._splitext] that skips leading dots: [n] bounds
    the iterations left, [dotIndex - filenameIndex]. *)
Fixpoint splitext_scan (p : string) (filenameIndex : Z) (n : nat) : bool :=
  match n with
  | O => false
  | S n' =>
      if negb (String.eqb (slice1 filenameIndex p) ".") then true
      else splitext_scan p (filenameIndex + 1) n'
  end.

(** [posixpath.splitext] *)
Definition splitext (p : string) : string * string :=
  let sepIndex := rfind "/" p in
  let dotIndex := rfind "." p in
  if (sepIndex <? dotIndex)
     && splitext_scan p (sepIndex + 1) (Z.to_nat (dotIndex - (sepIndex + 1)))
  then (slice_to dotIndex p, slice_from dotIndex p)
  else (p, EmptyString).

End OsPath.

(* ===================================================================== *)
(** * download_to_s3.py: content types *)
(* ===================================================================== *)

Module ContentType.
Import PyStr OsPath.

Definition content_types : gmap string string :=
  <[".pdf" := "application/pdf"]>
  (<[".mp3" := "audio/mpeg"]>
  (<[".txt" := "text/plain"]>
  (<[".json" := "application/json"]> ∅))).

(** [MLKArchiveDownloader.get_content_type] *)
Definition get_content_type (filename : string) : string :=
  let ext := lower (snd (splitext filename)) in
  default "application/octet-stream" (content_types !! ext).

End ContentType.

(* ===================================================================== *)
(** * Exceptions *)
(* ===================================================================== *)

Module Py.

(** The exception classes the scripts tell apart: [requests.RequestException]
    (connection errors, time-outs, [HTTPError] of [raise_for_status]),
    botocore's [ClientError] with its error code, and every other
    [Exception]. *)
Inductive exn :=
| RequestException (msg : string)
| ClientError (code : string) (msg : string)
| OtherException (msg : string).

(** [str(e)] *)
Definition str_exn (e : exn) : string :=
  match e with
  | RequestException msg => msg
  | ClientError _ msg => msg
  | OtherException msg => msg
  end.

(** A computation that returns or raises. *)
Definition result (A : Type) : Type := exn + A.

#[global] Instance result_ret : MRet result := fun A a => inr a.
#[global] Instance result_bind : MBind result :=
  fun A B k m => match m with inl e => inl e | inr a => k a end.

Definition raise {A} (e : exn) : result A := inl e.

(** A call of [urllib.parse] ([urlparse], [urljoin]) returns, or raises
    [ValueError] (a bracket without its match in the host part, a host that
    changes under NFKC normalisation): [inl] holds the text of the error. *)
Definition parsed (A : Type) : Type := (string + A)%type.

Definition value_error {A} (x : parsed A) : result A :=
  match x with
  | inl msg => raise (OtherException msg)
  | inr a => mret a
  end.

(** An HTTP response, as far as the scripts and [raise_for_status] read it:
    the status and its reason phrase, the URL that was answered, the
    Content-Length header when there is one, the body as the chunks
    [iter_content] yields. *)
Record Response := {
  status_code : Z;
  reason : string;
  response_url : string;
  content_length_header : option string;
  chunks : list string
}.

(** [response.content] *)
Definition content (r : Response) : string := PyStr.concat (chunks r).

(** [response.raise_for_status()]: [HTTPError], a [RequestException], on a
    4xx or 5xx status, with the text [requests] gives it. *)
Definition raise_for_status (r : Response) : result unit :=
  if (400 <=? status_code r) && (status_code r <? 500)
  then raise (RequestException
                (PyStr.str_of_Z (status_code r) ++ " Client Error: " ++ reason r
                 ++ " for url: " ++ response_url r))
  else if (500 <=? status_code r) && (status_code r <? 600)
  then raise (RequestException
                (PyStr.str_of_Z (status_code r) ++ " Server Error: " ++ reason r
                 ++ " for url: " ++ response_url r))
  else mret tt.

End Py.

(* ===================================================================== *)
(** * BeautifulSoup trees *)
(* ===================================================================== *)

Module Soup.
Import PyStr.

(** A parsed page: strings and tags.  Comments and the strings inside
    [script] and [style] elements, which [get_text] leaves out and no search
    returns, are not part of the tree. *)
Inductive node :=
| NavigableString (s : string)
| Tag (name : string) (attrs : gmap string string) (contents : list node).

(** [tag.descendants]: every node below [n], in document order. *)
Fixpoint descendants (n : node) : list node :=
  match n with
  | NavigableString _ => []
  | Tag _ _ cs =>
      (fix go (l : list node) : list node :=
         match l with
         | [] => []
         | c :: l' => c :: descendants c ++ go l'
         end) cs
  end.

(** [tag.get_text()]: the strings below [n], concatenated. *)
Fixpoint get_text (n : node) : string :=
  match n with
  | NavigableString s => s
  | Tag _ _ cs =>
      (fix go (l : list node) : string :=
         match l with
         | [] => EmptyString
         | c :: l' => get_text c ++ go l'
         end) cs
  end.

(** [tag.get(k)] *)
Definition attr (k : string) (n : node) : option string :=
  match n with
  | NavigableString _ => None
  | Tag _ attrs _ => attrs !! k
  end.

Definition is_tag_in (names : list string) (n : node) : bool :=
  match n with
  | NavigableString _ => false
  | Tag name _ _ => bool_decide (name ∈ names)
  end.

(** [tag.find_all(name)] and [tag.find_all([name1, name2])] *)
Definition find_all (names : list string) (n : node) : list node :=
  List.filter (is_tag_in names) (descendants n).

(** [tag.find_all(name, href=True)]: the attribute is present. *)
Definition find_all_href (names : list string) (n : node) : list node :=
  List.filter (fun x => is_tag_in names x && bool_decide (is_Some (attr "href" x)))
              (descendants n).

(** [tag.find(name, href=True)] *)
Definition find_href (names : list string) (n : node) : option node :=
  head (find_all_href names n).

(** [link['href']] for a link that [find_all_href] or [find_href] returned:
    the attribute is there (see [find_all_href_has_href]). *)
Definition href_of (link : node) : string := default EmptyString (attr "href" link).

End Soup.

(* ===================================================================== *)
(** * Files *)
(* ===================================================================== *)

Module Files.

(** The working directory: file name to contents. *)
Abbreviation fs := (gmap string string).

(** [open(name, 'w')]: the file is created or truncated. *)
Definition open_w (name : string) (f : fs) : fs := <[name := EmptyString]> f.

(** [file.write(data)] on the file opened as [name]. *)
Definition write (name data : string) (f : fs) : fs :=
  <[name := default EmptyString (f !! name) ++ data]> f.

End Files.

(* ===================================================================== *)
(** * scrape_mlk_records.py *)
(* ===================================================================== *)

Module Scraper.
Import PyStr OsPath Py Soup Files.

(** A record: the dict with keys [filename], [url], [release_date]. *)
Record record := { filename : string; url : string; release_date : string }.

(** [record[key]] for the three keys. *)
Definition getitem (r : record) (key : string) : string :=
  if String.eqb key "filename" then filename r
  else if String.eqb key "url" then url r
  else release_date r.

Definition base_url : string := "https://www.archives.gov".
Definition page_url : string := "https://www.archives.gov/research/mlk".

(** What the scraper calls and cannot see into. *)
Record Web := {
  session_get : string -> result Response;
  BeautifulSoup : string -> result node
}.

Section Scrape.

(** [urllib.parse.urljoin] and [urlparse(..).path]. *)
Variable urljoin : string -> string -> parsed string.
Variable urlparse_path : string -> parsed string.

(** Lines 35-41: the first table with both headers. *)
Fixpoint find_records_table (tables : list node) : option node :=
  match tables with
  | [] => None
  | t :: rest =>
      let headers := find_all ["th"] t in
      if (2 <=? length headers)%nat
         && (let header_text := map (fun th => strip (get_text th)) headers in
             bool_decide ("Record Number" ∈ header_text)
             && bool_decide ("NARA Release Date" ∈ header_text))
      then Some t
      else find_records_table rest
  end.

Definition is_pdf_link (link : node) : bool := contains ".pdf" (lower (href_of link)).

(** Lines 46-52: the first table with more than ten PDF links. *)
Fixpoint find_pdf_table (tables : list node) : option node :=
  match tables with
  | [] => None
  | t :: rest =>
      let links := find_all_href ["a"] t in
      let pdf_links := List.filter is_pdf_link links in
      if (10 <? length pdf_links)%nat then Some t else find_pdf_table rest
  end.

(** Lines 59-68: the loop over every link of the page.  [urlparse] is called
    only for a link with no text. *)
Fixpoint collect_links (all_links : list node) (pdf_links : list record)
    : result (list record) :=
  match all_links with
  | [] => mret pdf_links
  | link :: rest =>
      let href := href_of link in
      if contains ".pdf" (lower href) || contains ".mp3" (lower href) then
        full_url ← value_error (urljoin base_url href);
        let text := strip (get_text link) in
        filename ← (if String.eqb text EmptyString
                    then path ← value_error (urlparse_path href); mret (basename path)
                    else mret text);
        collect_links rest
          (pdf_links ++ [ {| filename := filename; url := full_url;
                             release_date := "Unknown" |} ])
      else collect_links rest pdf_links
  end.

(** Lines 84-103: the loop over the rows of the table. *)
Fixpoint extract_rows (rows : list node) (records : list record) : result (list record) :=
  match rows with
  | [] => mret records
  | row :: rest =>
      let cells := find_all ["td"; "th"] row in
      if (2 <=? length cells)%nat then
        match cells with
        | first_cell :: _ =>
            match find_href ["a"] first_cell with
            | Some link =>
                let href := href_of link in
                full_url ← value_error (urljoin base_url href);
                let filename := strip (get_text link) in
                let release_date :=
                  match cells !! 1%nat with
                  | Some c => if (1 <? length cells)%nat then strip (get_text c) else "Unknown"
                  | None => "Unknown"
                  end in
                extract_rows rest
                  (records ++ [ {| filename := filename; url := full_url;
                                   release_date := release_date |} ])
            | None => extract_rows rest records
            end
        | [] => extract_rows rest records
        end
      else extract_rows rest records
  end.

(** Lines 28-106: from the parsed page to the records; [inl] is an exception
    of [urljoin] or [urlparse]. *)
Definition scrape_page (soup : node) : result (list record) :=
  let tables := find_all ["table"] soup in
  let table := find_records_table tables in
  let table := match table with
               | None => find_pdf_table tables
               | Some t => Some t
               end in
  match table with
  | None =>
      let all_links := find_all_href ["a"] soup in
      pdf_links ← collect_links all_links [];
      match pdf_links with
      | [] => mret []
      | _ :: _ => mret pdf_links
      end
  | Some table =>
      let rows := find_all ["tr"] table in
      extract_rows (drop 1 rows) []
  end.

(** ** The selection, said in terms of the page

    The vocabulary of the statements about [scrape_page]: which tables
    qualify, and the record a row or a link gives. *)

Definition header_texts (t : node) : list string :=
  map (fun th => strip (get_text th)) (find_all ["th"] t).

Definition has_record_headers (t : node) : Prop :=
  "Record Number" ∈ header_texts t ∧ "NARA Release Date" ∈ header_texts t.

Definition has_many_pdf_links (t : node) : Prop :=
  (10 < length (List.filter is_pdf_link (find_all_href ["a"] t)))%nat.

Definition is_document_link (link : node) : bool :=
  contains ".pdf" (lower (href_of link)) || contains ".mp3" (lower (href_of link)).

(** [x] is the first element of [l] that satisfies [P]. *)
Definition first_such {A : Type} (P : A -> Prop) (l : list A) (x : A) : Prop :=
  ∃ l1 l2 : list A, l = (l1 ++ x :: l2)%list ∧ Forall (fun y => ¬ P y) l1 ∧ P x.

(** The record of a link of the page, when [urljoin] and, for a link with no
    text, [urlparse] accept its href. *)
Definition link_record (link : node) : result record :=
  full_url ← value_error (urljoin base_url (href_of link));
  let text := strip (get_text link) in
  filename ← (if String.eqb text EmptyString
              then path ← value_error (urlparse_path (href_of link)); mret (basename path)
              else mret text);
  mret {| filename := filename; url := full_url; release_date := "Unknown" |}.

(** The record of a row with two cells or more and a link in the first
    cell, when [urljoin] accepts the href; a row of another shape gives
    none. *)
Definition row_record (row : node) : option (result record) :=
  match find_all ["td"; "th"] row with
  | first_cell :: second_cell :: _ =>
      match find_href ["a"] first_cell with
      | Some link =>
          Some (full_url ← value_error (urljoin base_url (href_of link));
                mret {| filename := strip (get_text link);
                        url := full_url;
                        release_date := strip (get_text second_cell) |})
      | None => None
      end
  | _ => None
  end.

(** The values of a list of calls made one after the other, or the
    exception of the first that raises. *)
Fixpoint all_or_error {A : Type} (l : list (result A)) : result (list A) :=
  match l with
  | [] => mret []
  | x :: l' => a ← x; rest ← all_or_error l'; mret (a :: rest)
  end.


(** The records of the rows of a table but the first. *)
Definition table_records (t : node) : result (list record) :=
  all_or_error (omap row_record (drop 1 (find_all ["tr"] t))).

(** The records of the document links of the page. *)
Definition link_records (soup : node) : result (list record) :=
  all_or_error (map link_record (List.filter is_document_link (find_all_href ["a"] soup))).

(** The records of a computation, none when it raised. *)
Definition or_empty (body : result (list record)) : list record :=
  match body with
  | inr records => records
  | inl _ => []
  end.

(** The body of the [try]. *)
Definition scrape_try (W : Web) : result (list record) :=
  response ← session_get W page_url;
  _ ← raise_for_status response;
  soup ← BeautifulSoup W (content response);
  scrape_page soup.

(** [scrape_mlk_records] *)
Definition scrape_mlk_records (W : Web) : list record :=
  match scrape_try W with
  | inr records => records
  | inl (RequestException _) => []
  | inl _ => []
  end.

End Scrape.

(** ** [csv.DictWriter] with the default (excel) dialect *)

Definition csv_special (c : ascii) : bool :=
  Ascii.eqb c "," || Ascii.eqb c DQUOTE || Ascii.eqb c CR || Ascii.eqb c LF.

Fixpoint csv_needs_quotes (field : string) : bool :=
  match field with
  | EmptyString => false
  | String c s => csv_special c || csv_needs_quotes s
  end.

(** The quote character is doubled. *)
Fixpoint csv_double_quotes (field : string) : string :=
  match field with
  | EmptyString => EmptyString
  | String c s =>
      if Ascii.eqb c DQUOTE then String DQUOTE (String DQUOTE (csv_double_quotes s))
      else String c (csv_double_quotes s)
  end.

Definition csv_field (field : string) : string :=
  if csv_needs_quotes field
  then chr DQUOTE ++ csv_double_quotes field ++ chr DQUOTE
  else field.

Definition csv_lineterminator : string := String CR (String LF EmptyString).

(** [writer.writerow(fields)] for a row of two fields or more. *)
Definition csv_row (fields : list string) : string :=
  join "," (map csv_field fields) ++ csv_lineterminator.

Definition fieldnames : list string := ["filename"; "url"; "release_date"].

(** [DictWriter.writeheader] and [DictWriter.writerows]. *)
Definition csv_header : string := csv_row fieldnames.
Definition csv_record (r : record) : string := csv_row (map (getitem r) fieldnames).

(** ** [json.dump(records, f, indent=2, ensure_ascii=False)] *)

Definition hex_digit (n : nat) : ascii :=
  if (n <? 10)%nat then ascii_of_nat (48 + n) else ascii_of_nat (87 + n).

Definition json_escape_char (c : ascii) : string :=
  let n := nat_of_ascii c in
  if Ascii.eqb c DQUOTE then String BACKSLASH (chr DQUOTE)
  else if Ascii.eqb c BACKSLASH then String BACKSLASH (chr BACKSLASH)
  else if (n =? 10)%nat then String BACKSLASH "n"
  else if (n =? 13)%nat then String BACKSLASH "r"
  else if (n =? 9)%nat then String BACKSLASH "t"
  else if (n =? 8)%nat then String BACKSLASH "b"
  else if (n =? 12)%nat then String BACKSLASH "f"
  else if (n <? 32)%nat then
    String BACKSLASH ("u00" ++ String (hex_digit (n / 16)) (chr (hex_digit (n mod 16))))
  else chr c.

Fixpoint json_escape (s : string) : string :=
  match s with
  | EmptyString => EmptyString
  | String c s' => json_escape_char c ++ json_escape s'
  end.

Definition json_string (s : string) : string := chr DQUOTE ++ json_escape s ++ chr DQUOTE.

Definition json_item (r : record) (key : string) : string :=
  json_string key ++ ": " ++ json_string (getitem r key).

Definition json_record (r : record) : string :=
  "{" ++ String LF "    "
      ++ join ("," ++ String LF "    ") (map (json_item r) fieldnames)
      ++ String LF "  " ++ "}".

Definition json_dump (records : list record) : string :=
  match records with
  | [] => "[]"
  | _ :: _ =>
      "[" ++ String LF "  "
          ++ join ("," ++ String LF "  ") (map json_record records)
          ++ chr LF ++ "]"
  end.

(** ** [save_records] *)

(** Lines 143-144: one [write] for each record. *)
Fixpoint write_urls (urls_filename : string) (records : list record) (f : fs) : fs :=
  match records with
  | [] => f
  | record :: rest =>
      write_urls urls_filename rest (write urls_filename (url record ++ chr LF) f)
  end.

Fixpoint writerows (name : string) (records : list record) (f : fs) : fs :=
  match records with
  | [] => f
  | r :: rest => writerows name rest (write name (csv_record r) f)
  end.

(** [save_records(records, format)]; [timestamp] is what
    [time.strftime("%Y%m%d_%H%M%S")] returns. *)
Definition save_records (timestamp : string) (records : list record) (format : string)
    (f : fs) : fs :=
  match records with
  | [] => f
  | _ :: _ =>
      let f :=
        if String.eqb format "csv" then
          let filename := "mlk_records_" ++ timestamp ++ ".csv" in
          let f := open_w filename f in
          let f := write filename csv_header f in
          writerows filename records f
        else if String.eqb format "json" then
          let filename := "mlk_records_" ++ timestamp ++ ".json" in
          let f := open_w filename f in
          write filename (json_dump records) f
        else f in
      let urls_filename := "mlk_urls_" ++ timestamp ++ ".txt" in
      let f := open_w urls_filename f in
      write_urls urls_filename records f
  end.

End Scraper.

(* ===================================================================== *)
(** * Reading the files back *)
(* ===================================================================== *)

(** The readers of the two formats, [json.loads] and [csv.reader] of the
    library whose writers [save_records] calls.  The scripts do not call
    them: they say what it is for the records to be kept as JSON and as CSV.
    Each reads its text character by character. *)
Module ReadBack.
Import PyStr.

(** ** [json.loads]

    For texts made of strings, arrays and objects; a number or a literal is
    refused, and so is an escape for a code point above 255.  An object is
    the list of its members, in the order of the text. *)

Inductive json :=
| JString (s : string)
| JArray (items : list json)
| JObject (members : list (string * json)).

(** What a string is read for: a value, or the key of the next member of an
    object with these members so far. *)
Inductive purpose :=
| AsValue
| AsKey (members : list (string * json)).

(** A container that is being read: an array and its items so far; an
    object, its members so far and the key whose value is awaited. *)
Inductive frame :=
| ArrayFrame (items : list json)
| ObjectFrame (members : list (string * json)) (key : string).

(** Where the reader stands. *)
Inductive json_state :=
| Value                                    (* a value must begin *)
| ValueOrClose                             (* after [[]: a value, or []] *)
| KeyOrClose                               (* after [{]: a key, or [}] *)
| Key (members : list (string * json))     (* after a comma in an object *)
| Colon (members : list (string * json)) (key : string)
| Chars (acc : string) (p : purpose)       (* within a string *)
| Escape (acc : string) (p : purpose)      (* after a backslash *)
| Unicode (acc : string) (p : purpose) (hex : list nat)   (* after [\u] *)
| InArray (items : list json)              (* after an item: comma or []] *)
| InObject (members : list (string * json))   (* after a member: comma or [}] *)
| Finished (v : json)
| Rejected.

Definition config : Type := json_state * list frame.

Definition json_space (c : ascii) : bool :=
  Ascii.eqb c " " || Ascii.eqb c (ascii_of_nat 9) || Ascii.eqb c LF || Ascii.eqb c CR.

Definition hex_value (c : ascii) : option nat :=
  let n := nat_of_ascii c in
  if ((48 <=? n) && (n <=? 57))%nat then Some (n - 48)%nat
  else if ((97 <=? n) && (n <=? 102))%nat then Some (n - 87)%nat
  else if ((65 <=? n) && (n <=? 70))%nat then Some (n - 55)%nat
  else None.

(** A value is complete: it is the document, an item of the array, or the
    value of the awaited key. *)
Definition complete (v : json) (stack : list frame) : config :=
  match stack with
  | [] => (Finished v, [])
  | ArrayFrame items :: stack' => (InArray (items ++ [v])%list, stack')
  | ObjectFrame members key :: stack' => (InObject (members ++ [(key, v)])%list, stack')
  end.

Definition end_of_string (acc : string) (p : purpose) (stack : list frame) : config :=
  match p with
  | AsValue => complete (JString acc) stack
  | AsKey members => (Colon members acc, stack)
  end.

Definition start_value (c : ascii) (stack : list frame) : config :=
  if Ascii.eqb c DQUOTE then (Chars EmptyString AsValue, stack)
  else if Ascii.eqb c "[" then (ValueOrClose, stack)
  else if Ascii.eqb c "{" then (KeyOrClose, stack)
  else (Rejected, stack).

(** The character an escape stands for. *)
Definition unescape (c : ascii) : option ascii :=
  if Ascii.eqb c DQUOTE || Ascii.eqb c BACKSLASH || Ascii.eqb c "/" then Some c
  else if Ascii.eqb c "b" then Some (ascii_of_nat 8)
  else if Ascii.eqb c "f" then Some (ascii_of_nat 12)
  else if Ascii.eqb c "n" then Some LF
  else if Ascii.eqb c "r" then Some CR
  else if Ascii.eqb c "t" then Some (ascii_of_nat 9)
  else None.

Definition json_step (cfg : config) (c : ascii) : config :=
  let '(state, stack) := cfg in
  match state with
  | Value => if json_space c then cfg else start_value c stack
  | ValueOrClose =>
      if json_space c then cfg
      else if Ascii.eqb c "]" then complete (JArray []) stack
      else start_value c (ArrayFrame [] :: stack)
  | KeyOrClose =>
      if json_space c then cfg
      else if Ascii.eqb c "}" then complete (JObject []) stack
      else if Ascii.eqb c DQUOTE then (Chars EmptyString (AsKey []), stack)
      else (Rejected, stack)
  | Key members =>
      if json_space c then cfg
      else if Ascii.eqb c DQUOTE then (Chars EmptyString (AsKey members), stack)
      else (Rejected, stack)
  | Colon members key =>
      if json_space c then cfg
      else if Ascii.eqb c ":" then (Value, ObjectFrame members key :: stack)
      else (Rejected, stack)
  | Chars acc p =>
      if Ascii.eqb c DQUOTE then end_of_string acc p stack
      else if Ascii.eqb c BACKSLASH then (Escape acc p, stack)
      else if (nat_of_ascii c <? 32)%nat then (Rejected, stack)
      else (Chars (acc ++ chr c) p, stack)
  | Escape acc p =>
      if Ascii.eqb c "u" then (Unicode acc p [], stack)
      else match unescape c with
           | Some a => (Chars (acc ++ chr a) p, stack)
           | None => (Rejected, stack)
           end
  | Unicode acc p hex =>
      match hex_value c with
      | None => (Rejected, stack)
      | Some d =>
          match hex with
          | [x; y; z] =>
              let code := (((x * 16 + y) * 16 + z) * 16 + d)%nat in
              if (code <? 256)%nat then (Chars (acc ++ chr (ascii_of_nat code)) p, stack)
              else (Rejected, stack)
          | _ => (Unicode acc p (hex ++ [d])%list, stack)
          end
      end
  | InArray items =>
      if json_space c then cfg
      else if Ascii.eqb c "," then (Value, ArrayFrame items :: stack)
      else if Ascii.eqb c "]" then complete (JArray items) stack
      else (Rejected, stack)
  | InObject members =>
      if json_space c then cfg
      else if Ascii.eqb c "," then (Key members, stack)
      else if Ascii.eqb c "}" then complete (JObject members) stack
      else (Rejected, stack)
  | Finished v => if json_space c then cfg else (Rejected, stack)
  | Rejected => cfg
  end.

Fixpoint json_feed (cfg : config) (text : string) : config :=
  match text with
  | EmptyString => cfg
  | String c text' => json_feed (json_step cfg c) text'
  end.

(** [json.loads(text)]; [None] is [JSONDecodeError]. *)
Definition json_loads (text : string) : option json :=
  match json_feed (Value, []) text with
  | (Finished v, _) => Some v
  | _ => None
  end.

(** ** [csv.reader] with the default (excel) dialect

    Over the lines of a file opened with [newline=''], as the [csv] module
    asks: a line ends after a LF, and after a CR that no LF follows.  Every
    character goes through the reader's [parse_process_char], and so does
    the end of every line; a record is complete when the end of a line
    leaves the reader at the start of a record. *)

Inductive csv_state :=
| START_RECORD | START_FIELD | IN_FIELD | IN_QUOTED_FIELD | QUOTE_IN_QUOTED_FIELD
| EAT_CRNL | FAILED.

Record Reader := {
  state : csv_state;
  fields : list string;          (* the fields of the record being read *)
  field : string;                (* the field being read *)
  rows : list (list string);     (* the records read so far *)
  after_cr : bool;               (* the last character was a CR *)
  in_line : bool                 (* characters were read since the last end of line *)
}.

Definition set_state (s : csv_state) (R : Reader) : Reader :=
  {| state := s; fields := fields R; field := field R; rows := rows R;
     after_cr := after_cr R; in_line := in_line R |}.

(** [parse_add_char] *)
Definition add_char (c : ascii) (R : Reader) : Reader :=
  {| state := state R; fields := fields R; field := field R ++ chr c; rows := rows R;
     after_cr := after_cr R; in_line := in_line R |}.

(** [parse_save_field] *)
Definition save_field (R : Reader) : Reader :=
  {| state := state R; fields := (fields R ++ [field R])%list; field := EmptyString;
     rows := rows R; after_cr := after_cr R; in_line := in_line R |}.

Definition is_newline (c : ascii) : bool := Ascii.eqb c LF || Ascii.eqb c CR.

(** [parse_process_char] for a character. *)
Definition process_char (c : ascii) (R : Reader) : Reader :=
  match state R with
  | START_RECORD | START_FIELD =>
      if is_newline c then
        match state R with
        | START_RECORD => set_state EAT_CRNL R
        | _ => set_state EAT_CRNL (save_field R)
        end
      else if Ascii.eqb c DQUOTE then set_state IN_QUOTED_FIELD R
      else if Ascii.eqb c "," then set_state START_FIELD (save_field R)
      else set_state IN_FIELD (add_char c R)
  | IN_FIELD =>
      if is_newline c then set_state EAT_CRNL (save_field R)
      else if Ascii.eqb c "," then set_state START_FIELD (save_field R)
      else add_char c R
  | IN_QUOTED_FIELD =>
      if Ascii.eqb c DQUOTE then set_state QUOTE_IN_QUOTED_FIELD R
      else add_char c R
  | QUOTE_IN_QUOTED_FIELD =>
      if Ascii.eqb c DQUOTE then set_state IN_QUOTED_FIELD (add_char c R)
      else if Ascii.eqb c "," then set_state START_FIELD (save_field R)
      else if is_newline c then set_state EAT_CRNL (save_field R)
      else set_state IN_FIELD (add_char c R)
  | EAT_CRNL => if is_newline c then R else set_state FAILED R
  | FAILED => R
  end.

(** [parse_process_char] for the end of a line. *)
Definition process_eol (R : Reader) : Reader :=
  match state R with
  | START_RECORD => R
  | START_FIELD | IN_FIELD | QUOTE_IN_QUOTED_FIELD => set_state START_RECORD (save_field R)
  | IN_QUOTED_FIELD => R
  | EAT_CRNL => set_state START_RECORD R
  | FAILED => R
  end.

(** The end of a line: the record is handed over when the reader is back at
    the start of a record. *)
Definition end_line (R : Reader) : Reader :=
  let R := process_eol R in
  match state R with
  | START_RECORD =>
      {| state := START_RECORD; fields := []; field := EmptyString;
         rows := (rows R ++ [fields R])%list; after_cr := false; in_line := false |}
  | _ =>
      {| state := state R; fields := fields R; field := field R; rows := rows R;
         after_cr := false; in_line := false |}
  end.

Definition csv_step (R : Reader) (c : ascii) : Reader :=
  let R := if after_cr R && negb (Ascii.eqb c LF) then end_line R else R in
  let R := process_char c R in
  let R := {| state := state R; fields := fields R; field := field R; rows := rows R;
              after_cr := Ascii.eqb c CR; in_line := true |} in
  if Ascii.eqb c LF then end_line R else R.

Fixpoint csv_feed (R : Reader) (text : string) : Reader :=
  match text with
  | EmptyString => R
  | String c text' => csv_feed (csv_step R c) text'
  end.

Definition new_reader : Reader :=
  {| state := START_RECORD; fields := []; field := EmptyString; rows := [];
     after_cr := false; in_line := false |}.

(** [list(csv.reader(file))] for the file's text; [None] is [csv.Error].  A
    text that ends within a quoted field gives that field as it stands. *)
Definition csv_reader (text : string) : option (list (list string)) :=
  let R := csv_feed new_reader text in
  let R := if in_line R then end_line R else R in
  match state R with
  | FAILED => None
  | IN_QUOTED_FIELD => Some (rows R ++ [fields R ++ [field R]])%list
  | _ => Some (rows R)
  end.

(** ** What the records are read back as *)

(** A record as a JSON object: its three members, in the order
    [json.dump] writes the keys of the dict. *)
Definition record_json (r : Scraper.record) : json :=
  JObject [("filename", JString (Scraper.filename r));
           ("url", JString (Scraper.url r));
           ("release_date", JString (Scraper.release_date r))].

(** A record as a CSV row. *)
Definition record_row (r : Scraper.record) : list string :=
  [Scraper.filename r; Scraper.url r; Scraper.release_date r].

End ReadBack.

(* ===================================================================== *)
(** * download_to_s3.py *)
(* ===================================================================== *)

Module Downloader.
Import PyStr OsPath Py ContentType Files.

(** An object of the bucket: what [upload_fileobj] stored, and the
    [ContentLength] that [head_object] reports for it, when it reports one. *)
Record S3Object := {
  Body : string;
  ContentType : string;
  Metadata : gmap string string;
  ContentLength : option Z
}.

(** The requests the downloader issues, in the order it issues them. *)
Inductive Call :=
| HttpHead (url : string)
| HttpGet (url : string)
| S3HeadObject (key : string)
| S3Upload (key : string) (body : string) (stored : bool)
| S3HeadBucket
| S3CreateBucket.

(** The downloader's counters, the bucket, the requests issued, and the
    number of times the clock was read. *)
Record State := {
  bucket : gmap string S3Object;
  downloaded_count : Z;
  failed_count : Z;
  total_size : Z;
  calls : list Call;
  clock : nat
}.

(** [MLKArchiveDownloader.__init__] against a bucket. *)
Definition new_downloader (b : gmap string S3Object) : State :=
  {| bucket := b; downloaded_count := 0; failed_count := 0; total_size := 0;
     calls := []; clock := 0 |}.

Definition called (c : Call) (st : State) : State :=
  {| bucket := bucket st; downloaded_count := downloaded_count st;
     failed_count := failed_count st; total_size := total_size st;
     calls := calls st ++ [c]; clock := clock st |}.

(** [self.failed_count += 1] *)
Definition count_failed (st : State) : State :=
  {| bucket := bucket st; downloaded_count := downloaded_count st;
     failed_count := failed_count st + 1; total_size := total_size st;
     calls := calls st; clock := clock st |}.

(** [self.downloaded_count += 1; self.total_size += buffer_size] *)
Definition count_downloaded (buffer_size : Z) (st : State) : State :=
  {| bucket := bucket st; downloaded_count := downloaded_count st + 1;
     failed_count := failed_count st; total_size := total_size st + buffer_size;
     calls := calls st; clock := clock st |}.

Definition put_object (key : string) (o : S3Object) (st : State) : State :=
  {| bucket := <[key := o]> (bucket st); downloaded_count := downloaded_count st;
     failed_count := failed_count st; total_size := total_size st;
     calls := calls st; clock := clock st |}.

(** The clock was read once more. *)
Definition tick (st : State) : State :=
  {| bucket := bucket st; downloaded_count := downloaded_count st;
     failed_count := failed_count st; total_size := total_size st;
     calls := calls st; clock := S (clock st) |}.

(** What the downloader calls and cannot see into: the web server, the
    failures of the bucket service, the clock, the interpreter. *)
Record Env := {
  session_head : string -> result Response;
  session_get : string -> result Response;
  (** an error [iter_content] raises after the chunks, by URL *)
  iter_content_error : string -> option exn;
  (** an error of [head_object] other than the object's absence, by key *)
  head_object_error : string -> option exn;
  (** an error of [upload_fileobj], by key *)
  upload_error : string -> option exn;
  head_bucket_error : option exn;
  create_bucket_error : option exn;
  (** [time.strftime('%Y-%m-%d %H:%M:%S')]: what the clock shows the first
      time it is read (reading 0), the second time, and so on *)
  strftime : nat -> string;
  (** [urlparse(url).path] *)
  urlparse_path : string -> parsed string;
  (** [sys.get_int_max_str_digits()] *)
  int_max_str_digits : nat;
  (** the text of the [ValueError] that [int] raises on a string *)
  int_error : string -> string;
  (** the text of the error [open] raises on a path that is not there *)
  open_error : string -> string
}.

(** [s3_client.head_object(Bucket, Key)]: the reported [ContentLength], or
    [ClientError] with code 404 for an absent object; line 106 reads the
    code of that error and nothing reads its text. *)
Definition head_object (E : Env) (b : gmap string S3Object) (key : string)
    : result (option Z) :=
  match head_object_error E key with
  | Some e => raise e
  | None =>
      match b !! key with
      | None => raise (ClientError "404" "Not Found")
      | Some o => mret (ContentLength o)
      end
  end.

(** Lines 86-88: the size the server announces. *)
Definition get_remote_size (E : Env) (url : string) : result Z :=
  head_response ← session_head E url;
  _ ← raise_for_status head_response;
  match content_length_header head_response with
  | None => mret 0
  | Some v =>
      match int_of_str (int_max_str_digits E) v with
      | Some n => mret n
      | None => raise (OtherException (int_error E v))
      end
  end.

(** Lines 116-119: the chunks written to the buffer one after the other. *)
Fixpoint write_chunks (cs : list string) (buffer : string) : string :=
  match cs with
  | [] => buffer
  | chunk :: rest => write_chunks rest (buffer ++ chunk)
  end.

(** The result tuple [(success, filename, error_message)]. *)
Definition outcome : Type := bool * string * option string.

Definition ALREADY : string := "Already exists and matches size".

(** Lines 109-143: download and upload; an exception leaves through [inl].
    The clock is read when the arguments of [upload_fileobj] are made. *)
Definition fetch_and_upload (E : Env) (url filename s3_key : string) (st : State)
    : result outcome * State :=
  let st := called (HttpGet url) st in
  match (response ← session_get E url;
         _ ← raise_for_status response;
         mret response) with
  | inl e => (inl e, st)
  | inr response =>
      match iter_content_error E url with
      | Some e => (inl e, st)
      | None =>
          let buffer := write_chunks (chunks response) EmptyString in
          let buffer_size := len buffer in
          let download_date := strftime E (clock st) in
          let st := tick st in
          match upload_error E s3_key with
          | Some e => (inl e, called (S3Upload s3_key buffer false) st)
          | None =>
              let o := {| Body := buffer;
                          ContentType := get_content_type filename;
                          Metadata :=
                            <["source_url" := url]>
                            (<["download_date" := download_date]>
                            (<["content_length" := str_of_Z buffer_size]> ∅));
                          ContentLength := Some buffer_size |} in
              let st := called (S3Upload s3_key buffer true) st in
              let st := put_object s3_key o st in
              let st := count_downloaded buffer_size st in
              (inr (true, filename, None), st)
          end
      end
  end.

(** Lines 145-155: the two handlers of the outer [try], once [filename] is
    bound. *)
Definition handle (filename : string) (e : exn) (st : State) : outcome * State :=
  match e with
  | RequestException _ =>
      ((false, filename, Some ("Download error: " ++ str_exn e)), count_failed st)
  | _ =>
      ((false, filename, Some ("Upload error: " ++ str_exn e)), count_failed st)
  end.

(** Lines 82-155: the run once line 81 has bound [filename]. *)
Definition download_as (E : Env) (url filename s3_key_prefix : string) (st : State)
    : outcome * State :=
  let s3_key := s3_key_prefix ++ filename in
  let download st :=
    match fetch_and_upload E url filename s3_key st with
    | (inr r, st) => (r, st)
    | (inl e, st) => handle filename e st
    end in
  let st := called (HttpHead url) st in
  match get_remote_size E url with
  | inl (RequestException _ as e) =>
      ((false, filename,
        Some ("Failed to fetch headers for " ++ filename ++ ": " ++ str_exn e)),
       count_failed st)
  | inl e => handle filename e st
  | inr remote_size =>
      let st := called (S3HeadObject s3_key) st in
      match head_object E (bucket st) s3_key with
      | inr obj =>
          let s3_size := default (-1) obj in
          if s3_size =? remote_size then ((true, filename, Some ALREADY), st)
          else download st
      | inl (ClientError code _ as e) =>
          if negb (String.eqb code "404") then handle filename e st
          else download st
      | inl e => handle filename e st
      end
  end.

(** [MLKArchiveDownloader.download_and_upload_file]; [None] when the call
    raises.  [urlparse] (line 80) is inside the [try]: its [ValueError]
    reaches the handler of lines 151-155, which reads [filename] on line
    153, before [failed_count] is touched; [filename] is not bound yet, and
    [UnboundLocalError] leaves the function. *)
Definition download_and_upload_file (E : Env) (url s3_key_prefix : string) (st : State)
    : option outcome * State :=
  match urlparse_path E url with
  | inl _ => (None, st)
  | inr path =>
      let filename := basename path in
      let '(r, st) := download_as E url filename s3_key_prefix st in
      (Some r, st)
  end.

(** Line 177: the lines of the file, stripped, the blank ones dropped. *)
Definition read_urls (text : string) : list string :=
  List.filter (fun line => negb (String.eqb line EmptyString))
    (map strip (split (fun c => Ascii.eqb c LF || Ascii.eqb c CR) text)).

(** Lines 190-208: the tasks of the pool, taken one after the other in the
    order they were submitted; what the futures hold, in that order: a
    result, or nothing for a task that raised (lines 207-208 log it). *)
Fixpoint run_pool (E : Env) (urls : list string) (st : State)
    : list (option outcome) * State :=
  match urls with
  | [] => ([], st)
  | url :: rest =>
      let '(r, st) := download_and_upload_file E url "mlk-archive/" st in
      let '(rs, st) := run_pool E rest st in
      (r :: rs, st)
  end.

(** [MLKArchiveDownloader.download_from_url_file]: what the futures hold
    (which the source logs) and the state it leaves. *)
Definition download_from_url_file (E : Env) (files : fs) (url_file_path : string)
    (st : State) : result (list (option outcome)) * State :=
  match files !! url_file_path with
  | None => (raise (OtherException (open_error E url_file_path)), st)
  | Some text =>
      let urls := read_urls text in
      let st := called S3HeadBucket st in
      let created :=
        match head_bucket_error E with
        | Some (ClientError _ _) =>
            let st := called S3CreateBucket st in
            match create_bucket_error E with
            | Some e => (inl e, st)
            | None => (inr tt, st)
            end
        | Some e => (inl e, st)
        | None => (inr tt, st)
        end in
      match created with
      | (inl e, st) => (inl e, st)
      | (inr _, st) =>
          let '(rs, st) := run_pool E urls st in
          (inr rs, st)
      end
  end.

(** ** The run, said in terms of its results and requests *)

(** The size the downloader takes a stored object to have:
    [obj.get('ContentLength', -1)]. *)
Definition s3_size (o : S3Object) : Z := default (-1) (ContentLength o).

(** The requests issued between two states. *)
Definition new_calls (st st' : State) : list Call :=
  drop (length (calls st)) (calls st').


(** The three kinds of result: uploaded (success, no message), skipped
    (success, with the message of line 102), failed. *)
Definition uploaded (r : outcome) : bool :=
  match r with (true, _, None) => true | _ => false end.
Definition skipped (r : outcome) : bool :=
  match r with (true, _, Some _) => true | _ => false end.
Definition failed (r : outcome) : bool :=
  match r with (false, _, _) => true | _ => false end.





(** The object lines 126-138 store for a body, at a reading of the clock. *)
Definition stored_object (url filename download_date body : string) : S3Object :=
  {| Body := body;
     ContentType := get_content_type filename;
     Metadata :=
       <["source_url" := url]>
       (<["download_date" := download_date]>
       (<["content_length" := str_of_Z (len body)]> ∅));
     ContentLength := Some (len body) |}.

End Downloader.

(* ===================================================================== *)
(** * generate_index.py *)
(* ===================================================================== *)

Module Index.
Import PyStr Files.

Definition BUCKET : string := "example-transformations-mlk-archive".
Definition PREFIX : string := "mlk-archive/".
Definition PROCESSED_JSONL_URL : string :=
  "https://example-transformations-mlk-archive.s3.us-east-1.amazonaws.com/transformed-data/mlk-archive-public.jsonl".

(** An entry of a listing page, and a page: [Contents] may be missing. *)
Record S3Entry := { Key : string }.
Record Page := { Contents : option (list S3Entry) }.

Definition q : string := chr DQUOTE.

(** [<a href="url">text</a>] *)
Definition anchor (href text : string) : string :=
  "<a href=" ++ q ++ href ++ q ++ ">" ++ text ++ "</a>".

Definition object_url (key : string) : string :=
  "https://" ++ BUCKET ++ ".s3.amazonaws.com/" ++ key.

(** [key.split("/")[-1]] *)
Definition display_name (key : string) : string :=
  List.last (split (Ascii.eqb "/") key) EmptyString.

(** [<li><a href="url">filename</a></li>] *)
Definition list_item (url filename : string) : string :=
  "<li>" ++ anchor url filename ++ "</li>".

(** Lines 23-29: the objects of one page. *)
Fixpoint page_loop (objs : list S3Entry) (html : list string) : list string :=
  match objs with
  | [] => html
  | obj :: rest =>
      let key := Key obj in
      if endswith "/" key then page_loop rest html
      else
        let url := object_url key in
        let filename := display_name key in
        page_loop rest (app html [list_item url filename])
  end.

(** Line 22: the pages of the listing. *)
Fixpoint pages_loop (pages : list Page) (html : list string) : list string :=
  match pages with
  | [] => html
  | page :: rest => pages_loop rest (page_loop (default [] (Contents page)) html)
  end.

(** The lines of the page, for the listing [paginate] returns. *)
Definition jsonl_line : string :=
  "<p>" ++ anchor PROCESSED_JSONL_URL "Download mlk-archive-public.jsonl" ++ "</p>".

Definition index_lines (pages : list Page) : list string :=
  let html : list string := ["<html><body>"] in
  let html : list string := app html ["<h1>Processed Dataset</h1>"] in
  let html : list string := app html [jsonl_line] in
  let html : list string := app html ["<h1>Unprocessed National Archive Files</h1><ul>"] in
  let html : list string := pages_loop pages html in
  app html ["</ul></body></html>"].


(** ** The page, said in terms of the listing *)

(** Every object of the listing, page after page. *)
Definition listed_objects (pages : list Page) : list S3Entry :=
  flat_map (fun page => default [] (Contents page)) pages.

(** A key that ends with a slash stands for a folder. *)
Definition is_folder (o : S3Entry) : bool := endswith "/" (Key o).

(** The line of an object. *)
Definition object_item (o : S3Entry) : string :=
  list_item (object_url (Key o)) (display_name (Key o)).

(** The lines of the page that are list items. *)
Definition object_items (lines : list string) : list string :=
  List.filter (startswith "<li>") lines.

End Index.

(* ===================================================================== *)
(** * The entry points of the scripts *)
(* ===================================================================== *)

Module ScraperProgram.
Import PyStr Py Soup Files Scraper.

(** [main] of scrape_mlk_records.py: the records are saved twice, as CSV and
    as JSON; [ts_csv] and [ts_json] are the clock readings of the two calls
    of [save_records]. *)
Definition main (urljoin : string -> string -> parsed string)
    (urlparse_path : string -> parsed string) (W : Web) (ts_csv ts_json : string) (f : fs)
    : fs :=
  let records := scrape_mlk_records urljoin urlparse_path W in
  match records with
  | [] => f
  | _ :: _ =>
      let f := save_records ts_csv records "csv" f in
      save_records ts_json records "json" f
  end.

End ScraperProgram.

Module DownloaderProgram.
Import PyStr Py Files Downloader.

(** The command line of download_to_s3.py, parsed. *)
Record Args := {
  url_file : string;
  s3_bucket : string;
  aws_profile : option string;
  max_workers : Z;
  s3_prefix : string
}.

(** [main]: a downloader is made for the bucket and run on the URL file. *)
Definition main (E : Env) (files : fs) (args : Args) (b : gmap string S3Object)
    : result (list (option outcome)) * State :=
  let downloader := new_downloader b in
  download_from_url_file E files (url_file args) downloader.


(** ** Vocabulary *)

Definition is_line_break (c : ascii) : bool := Ascii.eqb c LF || Ascii.eqb c CR.

(** The string is empty or begins with a character that is no white space. *)
Definition starts_clean (s : string) : Prop :=
  match s with
  | EmptyString => True
  | String c _ => isspace c = false
  end.

(** A URL as [read_urls] hands it to the pool: not empty, with no white
    space around it and no line break in it. *)
Definition clean_url (u : string) : Prop :=
  u ≠ EmptyString ∧ strip u = u ∧ has_char is_line_break u = false.

(** The requests of a run that concern the URLs. *)
Definition is_url_call (c : Call) : bool :=
  match c with
  | S3HeadBucket | S3CreateBucket => false
  | _ => true
  end.

End DownloaderProgram.

(* ===================================================================== *)
(** * Concrete inputs *)
(* ===================================================================== *)

Module Samples.
Import PyStr OsPath Py Soup Files.

(** The part of [s] before its first slash, and the part from that slash
    on. *)
Fixpoint before_slash (s : string) : string :=
  match s with
  | EmptyString => EmptyString
  | String c s' => if Ascii.eqb c "/" then EmptyString else String c (before_slash s')
  end.

Fixpoint from_slash (s : string) : string :=
  match s with
  | EmptyString => EmptyString
  | String c s' => if Ascii.eqb c "/" then s else from_slash s'
  end.

(** A host is refused when it opens a bracket and does not close it. *)
Definition host_and_path (s : string) : parsed string :=
  let host := before_slash s in
  if contains "[" host && negb (contains "]" host)
  then inl "Invalid IPv6 URL"
  else inr (from_slash s).

(** A stand-in for [urlparse(..).path], for the URLs of the examples: what
    follows the host of an http or https URL or of a reference that begins
    with two slashes; any other reference is a path. *)
Definition sample_urlparse_path (u : string) : parsed string :=
  if startswith "https://" u then host_and_path (drop_n 8 u)
  else if startswith "http://" u then host_and_path (drop_n 7 u)
  else if startswith "//" u then host_and_path (drop_n 2 u)
  else inr u.

(** A stand-in for [urljoin]: an absolute reference is kept, one that begins
    with two slashes takes the scheme of the base, any other is put after
    the base; a reference that [urlparse] refuses is refused. *)
Definition sample_urljoin (base href : string) : parsed string :=
  match sample_urlparse_path href with
  | inl msg => inl msg
  | inr _ =>
      if startswith "http" href then inr href
      else if startswith "//" href then inr ("https:" ++ href)
      else inr (base ++ href)
  end.

Definition text (s : string) : node := NavigableString s.
Definition elem (name : string) (cs : list node) : node := Tag name ∅ cs.
Definition link (href label : string) : node :=
  Tag "a" (<["href" := href]> ∅) [text label].

(** A page with the records table. *)
Definition records_table : node :=
  elem "table"
    [elem "tr" [elem "th" [text " Record Number "];
                elem "th" [text "NARA Release Date"]];
     elem "tr" [elem "td" [link "/files/research/mlk/104-10001.pdf" "104-10001"];
                elem "td" [text "07/21/2025"]];
     elem "tr" [elem "td" [text "no link here"];
                elem "td" [text "07/21/2025"]]].

Definition records_soup : node := elem "html" [elem "body" [records_table]].





(** The same page with one more link, whose href [urljoin] refuses. *)
Definition bad_href_soup : node :=
  elem "html"
    [elem "body"
       [link "/files/a.PDF" "  ";
        link "//[x.pdf" "Broken";
        link "https://www.archives.gov/files/tape.mp3" "Tape"]].

(** A page with neither a table nor a document link. *)
Definition empty_soup : node :=
  elem "html" [elem "body" [link "/about" "About"]].

Definition response_of (status : Z) (phrase url : string) (length : option string)
    (body : list string) : Response :=
  {| status_code := status; reason := phrase; response_url := url;
     content_length_header := length; chunks := body |}.

Definition ok_response (url : string) (body : list string) : Response :=
  response_of 200 "OK" url None body.

Definition page_response : Response := ok_response Scraper.page_url ["<html>"].

Definition web_of (soup : node) : Scraper.Web :=
  {| Scraper.session_get := fun _ => inr page_response;
     Scraper.BeautifulSoup := fun _ => inr soup |}.

(** The server is down; the server answers 503; the parser gives up. *)
Definition web_down : Scraper.Web :=
  {| Scraper.session_get := fun _ => inl (RequestException "ConnectionError");
     Scraper.BeautifulSoup := fun _ => inr records_soup |}.

Definition web_503 : Scraper.Web :=
  {| Scraper.session_get := fun u =>
       inr (response_of 503 "Service Unavailable" u None []);
     Scraper.BeautifulSoup := fun _ => inr records_soup |}.

Definition web_unparsable : Scraper.Web :=
  {| Scraper.session_get := fun _ => inr page_response;
     Scraper.BeautifulSoup := fun _ => inl (OtherException "ParserRejectedMarkup") |}.

Definition two_records : list Scraper.record :=
  [ {| Scraper.filename := "104-10001"; Scraper.url := "https://www.archives.gov/a.pdf";
       Scraper.release_date := "07/21/2025" |};
    {| Scraper.filename := "tape, side 1"; Scraper.url := "https://www.archives.gov/t.mp3";
       Scraper.release_date := "Unknown" |} ].

(** A server with three files: [a.pdf] announces its five bytes, [b.pdf]
    announces no length, [c.pdf] can be asked about but not fetched; any
    other URL cannot be reached.  The clock moves by a second between two
    readings. *)
Definition url_a : string := "https://www.archives.gov/files/a.pdf".
Definition url_b : string := "https://www.archives.gov/files/b.pdf".
Definition url_c : string := "https://www.archives.gov/files/c.pdf".

Definition sample_clock (reading : nat) : string :=
  match reading with
  | O => "2025-07-22 13:38:07"
  | 1%nat => "2025-07-22 13:38:08"
  | _ => "2025-07-22 13:38:09"
  end.

Definition archive_head (u : string) : result Response :=
  if String.eqb u url_a then inr (response_of 200 "OK" u (Some "5") [])
  else if String.eqb u url_b then inr (response_of 200 "OK" u None [])
  else if String.eqb u url_c then inr (response_of 200 "OK" u (Some "3") [])
  else inl (RequestException "ConnectionError").

Definition archive_get (u : string) : result Response :=
  if String.eqb u url_a then inr (ok_response u ["he"; "llo"])
  else if String.eqb u url_b then inr (ok_response u ["xyz"])
  else inr (response_of 500 "Internal Server Error" u None []).

(** The server and the bucket service, with the answers to HEAD and GET and
    the errors of [head_object], [head_bucket] and [create_bucket]. *)
Definition env_of (head get : string -> result Response)
    (object_error bucket_error create_error : option exn) : Downloader.Env :=
  {| Downloader.session_head := head;
     Downloader.session_get := get;
     Downloader.iter_content_error := fun _ => None;
     Downloader.head_object_error := fun _ => object_error;
     Downloader.upload_error := fun _ => None;
     Downloader.head_bucket_error := bucket_error;
     Downloader.create_bucket_error := create_error;
     Downloader.strftime := sample_clock;
     Downloader.urlparse_path := sample_urlparse_path;
     Downloader.int_max_str_digits := 4300;
     Downloader.int_error := fun v =>
       "invalid literal for int() with base 10: '" ++ v ++ "'";
     Downloader.open_error := fun path =>
       "[Errno 2] No such file or directory: '" ++ path ++ "'" |}.

Definition archive_env : Downloader.Env := env_of archive_head archive_get None None None.

Definition object_of_size (body : string) (size : option Z) : Downloader.S3Object :=
  {| Downloader.Body := body; Downloader.ContentType := "application/pdf";
     Downloader.Metadata := ∅; Downloader.ContentLength := size |}.

(** Buckets: [a.pdf] stored whole; [a.pdf] stored short; [b.pdf] stored
    empty, with three bytes, and with no reported length. *)
Definition bucket_a_whole : gmap string Downloader.S3Object :=
  <["mlk-archive/a.pdf" := object_of_size "hello" (Some 5)]> ∅.
Definition bucket_a_short : gmap string Downloader.S3Object :=
  <["mlk-archive/a.pdf" := object_of_size "he" (Some 2)]> ∅.
Definition bucket_b_empty : gmap string Downloader.S3Object :=
  <["mlk-archive/b.pdf" := object_of_size EmptyString (Some 0)]> ∅.
Definition bucket_b_three : gmap string Downloader.S3Object :=
  <["mlk-archive/b.pdf" := object_of_size "xyz" (Some 3)]> ∅.
Definition bucket_b_unsized : gmap string Downloader.S3Object :=
  <["mlk-archive/b.pdf" := object_of_size "xyz" None]> ∅.

Definition three_url_file : fs :=
  <["urls.txt" := url_a ++ String LF (String LF ("  " ++ url_b ++ String CR (String LF
                    (url_c ++ String LF EmptyString))))]> ∅.

(** A listing in which the prefix itself is an object, as it is when the
    folder was created from the console. *)
Definition folder_listing : list Index.Page :=
  [ {| Index.Contents :=
         Some [ {| Index.Key := "mlk-archive/" |};
                {| Index.Key := "mlk-archive/104-10001.pdf" |} ] |} ].

Definition plain_listing : list Index.Page :=
  [ {| Index.Contents := Some [ {| Index.Key := "mlk-archive/104-10001.pdf" |} ] |};
    {| Index.Contents := None |};
    {| Index.Contents := Some [ {| Index.Key := "mlk-archive/audio/tape.mp3" |} ] |} ].

End Samples.

(* ===================================================================== *)
(** * More concrete inputs *)
(* ===================================================================== *)

Module MoreSamples.
Import PyStr OsPath Py Soup Files Samples.

(** The server of [archive_env] with another answer to HEAD. *)
Definition env_with_head (answer : string -> result Response) : Downloader.Env :=
  env_of answer archive_get None None None.

(** A server that announces a length that is no number. *)
Definition bad_length_response (u : string) : Response :=
  response_of 200 "OK" u (Some "5 bytes") [].

Definition env_bad_length : Downloader.Env :=
  env_with_head (fun u => inr (bad_length_response u)).

(** The bucket service with an error for [head_object], for [head_bucket]
    and for [create_bucket]. *)
Definition env_with_bucket_errors (object_error : option exn)
    (bucket_error create_error : option exn) : Downloader.Env :=
  env_of archive_head archive_get object_error bucket_error create_error.

Definition env_forbidden : Downloader.Env :=
  env_with_bucket_errors (Some (ClientError "403" "Forbidden")) None None.

Definition env_no_bucket : Downloader.Env :=
  env_with_bucket_errors None (Some (ClientError "404" "Not Found"))
    (Some (ClientError "AccessDenied" "Access Denied")).

Definition sample_args : DownloaderProgram.Args :=
  {| DownloaderProgram.url_file := "urls.txt";
     DownloaderProgram.s3_bucket := "example-transformations-mlk-archive";
     DownloaderProgram.aws_profile := None;
     DownloaderProgram.max_workers := 5;
     DownloaderProgram.s3_prefix := "elsewhere/" |}.

(** A server that answers every URL, announcing no length and sending the
    URL itself as the body. *)
Definition env_echo : Downloader.Env :=
  env_of (fun u => inr (response_of 200 "OK" u None []))
         (fun u => inr (ok_response u [u])) None None None.

Definition url_1964 : string := "https://www.archives.gov/files/1964/report.pdf".
Definition url_1968 : string := "https://www.archives.gov/files/1968/report.pdf".

(** [n] times the digit 9. *)
Fixpoint nines (n : nat) : string :=
  match n with
  | O => EmptyString
  | S n' => String "9" (nines n')
  end.

(** A URL that [urlparse] refuses: the bracket of its host is not closed. *)
Definition url_bad : string := "http://[invalid".




(** A page whose records table has its header row only, beside a link to a
    document. *)
Definition header_only_table : node :=
  elem "table"
    [elem "tr" [elem "th" [text "Record Number"]; elem "th" [text "NARA Release Date"]]].

Definition header_only_soup : node :=
  elem "html"
    [elem "body" [header_only_table; link "/files/research/mlk/104-10001.pdf" "104-10001"]].

(** The records table inside a table that lays the page out. *)
Definition layout_table : node :=
  elem "table" [elem "tr" [elem "td" [text "menu"]; elem "td" [records_table]]].

(** Two records that differ in where a comma stands. *)
Definition comma_in_name : Scraper.record :=
  {| Scraper.filename := "a,b"; Scraper.url := "c"; Scraper.release_date := "d" |}.
Definition comma_in_url : Scraper.record :=
  {| Scraper.filename := "a"; Scraper.url := "b,c"; Scraper.release_date := "d" |}.

(** A record whose fields hold what the writers must quote or escape. *)
Definition awkward_record : Scraper.record :=
  {| Scraper.filename := "report " ++ String DQUOTE ("A" ++ String DQUOTE ", part 2");
     Scraper.url := "https://www.archives.gov/files/a b.pdf";
     Scraper.release_date := "07/21/2025" ++ String LF "(revised)" |}.

End MoreSamples.

(* ===================================================================== *)
(** * More vocabulary *)
(* ===================================================================== *)

Module MoreVocabulary.
Import PyStr.

(** A control character: a code below 32. *)
Definition is_control (c : ascii) : bool := (nat_of_ascii c <? 32)%nat.

(** A character that [json.dump] does not write as it stands. *)
Definition json_special (c : ascii) : bool :=
  is_control c || Ascii.eqb c DQUOTE || Ascii.eqb c BACKSLASH.

End MoreVocabulary.

(* ===================================================================== *)
(** * Properties of the string functions *)
(* ===================================================================== *)

Module PyStrFacts.
Import PyStr.

Lemma append_cons (c : ascii) (a b : string) : String c a ++ b = String c (a ++ b).
Proof. reflexivity. Qed.

Lemma append_nil_l (s : string) : EmptyString ++ s = s.
Proof. reflexivity. Qed.

Lemma append_nil_r (s : string) : s ++ EmptyString = s.
Proof.
  induction s as [|c s IH]; [reflexivity |].
  now rewrite append_cons, IH.
Qed.

Lemma append_assoc (a b c : string) : (a ++ b) ++ c = a ++ (b ++ c).
Proof.
  induction a as [|x a IH]; [reflexivity |].
  now rewrite !append_cons, IH.
Qed.

Lemma length_append (a b : string) :
  String.length (a ++ b) = (String.length a + String.length b)%nat.
Proof.
  induction a as [|x a IH]; [reflexivity |].
  rewrite append_cons. simpl. now rewrite IH.
Qed.

Lemma concat_app (l1 l2 : list string) :
  concat (l1 ++ l2)%list = concat l1 ++ concat l2.
Proof.
  induction l1 as [|s l1 IH]; simpl; [reflexivity |].
  now rewrite IH, append_assoc.
Qed.

(** ** Slices *)

Lemma drop_n_app (a b : string) : drop_n (String.length a) (a ++ b) = b.
Proof. induction a as [|x a IH]; [reflexivity | exact IH]. Qed.

Lemma take_n_app (a b : string) : take_n (String.length a) (a ++ b) = a.
Proof.
  induction a as [|x a IH]; [now destruct b |].
  rewrite append_cons. simpl. now rewrite IH.
Qed.

Lemma take_drop (n : nat) (s : string) : take_n n s ++ drop_n n s = s.
Proof.
  revert s. induction n as [|n IH]; intros s; [reflexivity |].
  destruct s as [|c s]; [reflexivity |].
  simpl. now rewrite append_cons, IH.
Qed.

Lemma length_take_n (n : nat) (s : string) :
  (n <= String.length s)%nat -> String.length (take_n n s) = n.
Proof.
  revert s. induction n as [|n IH]; intros s H; [reflexivity |].
  destruct s as [|c s]; simpl in *; [lia |].
  rewrite IH; [reflexivity | lia].
Qed.

(** ** [rfind] *)

Lemma rfind_from_app (c : ascii) (a b : string) (i last : Z) :
  rfind_from c (a ++ b) i last
  = rfind_from c b (i + Z.of_nat (String.length a)) (rfind_from c a i last).
Proof.
  revert i last.
  induction a as [|x a IH]; intros i last.
  - rewrite append_nil_l. simpl. now rewrite Z.add_0_r.
  - rewrite append_cons. simpl rfind_from. rewrite IH. f_equal.
    simpl String.length. lia.
Qed.

Lemma rfind_from_absent (c : ascii) (s : string) (i last : Z) :
  has_char (fun a => Ascii.eqb a c) s = false -> rfind_from c s i last = last.
Proof.
  revert i last.
  induction s as [|a s IH]; intros i last H; simpl in *; [reflexivity |].
  apply orb_false_iff in H as [Ha Hs].
  rewrite Ha. now apply IH.
Qed.

Lemma rfind_from_lower_bound (c : ascii) (s : string) (i last : Z) :
  -1 <= last -> 0 <= i -> -1 <= rfind_from c s i last.
Proof.
  revert i last.
  induction s as [|a s IH]; intros i last Hl Hi; simpl; [exact Hl |].
  apply IH; [| lia]. destruct (Ascii.eqb a c); lia.
Qed.

Lemma rfind_from_upper_bound (c : ascii) (s : string) (i last : Z) :
  last < i -> rfind_from c s i last < i + Z.of_nat (String.length s).
Proof.
  revert i last.
  induction s as [|a s IH]; intros i last Hl; simpl rfind_from.
  - simpl. lia.
  - specialize (IH (i + 1) (if Ascii.eqb a c then i else last)).
    simpl String.length. destruct (Ascii.eqb a c); lia.
Qed.

Lemma has_char_eqb_sym (c : ascii) (s : string) :
  has_char (fun a => Ascii.eqb a c) s = has_char (Ascii.eqb c) s.
Proof.
  induction s as [|a s IH]; [reflexivity |].
  simpl. now rewrite IH, Ascii.eqb_sym.
Qed.

(** ** [split] and the last piece *)

Lemma contains_char (c : ascii) (s : string) :
  contains (chr c) s = has_char (Ascii.eqb c) s.
Proof.
  induction s as [|a s IH]; [reflexivity |].
  simpl. rewrite IH. now rewrite andb_true_r.
Qed.

Lemma split_not_nil (sep : ascii -> bool) (s : string) : split sep s ≠ [].
Proof.
  destruct s as [|c s]; simpl; [discriminate |].
  destruct (sep c); [discriminate |].
  destruct (split sep s); discriminate.
Qed.

Lemma last_cons_not_nil {A : Type} (x d : A) (l : list A) :
  l ≠ [] -> List.last (x :: l) d = List.last l d.
Proof. destruct l; [congruence | reflexivity]. Qed.

(** [s] is a directory part, empty or ending with a separator, followed by
    the last piece, which holds no separator. *)
Lemma split_last_spec (sep : ascii -> bool) (s : string) :
  ∃ dir,
    s = dir ++ List.last (split sep s) EmptyString
    ∧ has_char sep (List.last (split sep s) EmptyString) = false
    ∧ ((length (split sep s) = 1%nat ∧ dir = EmptyString)
       ∨ ((1 < length (split sep s))%nat
          ∧ ∃ d0 c, sep c = true ∧ dir = d0 ++ chr c)).
Proof.
  induction s as [|c s (dir & Heq & Hno & Hdir)].
  - exists EmptyString. simpl. repeat split. now left.
  - simpl. destruct (sep c) eqn:Ec.
    + rewrite last_cons_not_nil by apply split_not_nil.
      exists (String c dir). split; [| split].
      * rewrite append_cons. now rewrite <- Heq.
      * exact Hno.
      * right. split.
        { simpl. pose proof (split_not_nil sep s).
          destruct (split sep s); [congruence | simpl; lia]. }
        destruct Hdir as [[_ ->] | [_ (d0 & c' & Hc' & ->)]].
        { exists EmptyString, c. now split. }
        { exists (String c d0), c'. now split. }
    + destruct (split sep s) as [|w ws] eqn:Es; [now apply split_not_nil in Es |].
      destruct ws as [|w' ws].
      * destruct Hdir as [[_ ->] | [Hlen _]]; [| simpl in Hlen; lia].
        simpl in *. exists EmptyString. split; [| split].
        { now rewrite append_nil_l in *; subst. }
        { now rewrite Ec. }
        { now left. }
      * destruct Hdir as [[Hlen _] | [_ (d0 & c' & Hc' & ->)]]; [simpl in Hlen; lia |].
        exists (String c (d0 ++ chr c')). split; [| split].
        { rewrite append_cons. f_equal. exact Heq. }
        { exact Hno. }
        { right. split; [simpl; lia |]. exists (String c d0), c'. now split. }
Qed.

End PyStrFacts.

(* ===================================================================== *)
(** * Writing files *)
(* ===================================================================== *)

Module FilesFacts.
Import Files.


Lemma write_lookup (name data : string) (f : fs) :
  write name data f !! name = Some (default EmptyString (f !! name) ++ data).
Proof. unfold write. apply lookup_insert_eq. Qed.

Lemma write_other (name name' data : string) (f : fs) :
  name ≠ name' -> write name data f !! name' = f !! name'.
Proof. intros H. unfold write. now apply lookup_insert_ne. Qed.

End FilesFacts.

(* ===================================================================== *)
(** * What the readers make of what the writers wrote *)
(* ===================================================================== *)

Module ReadBackFacts.
Import PyStr Scraper ReadBack PyStrFacts.

(** ** JSON *)

Lemma json_feed_app (cfg : config) (a b : string) :
  json_feed cfg (a ++ b) = json_feed (json_feed cfg a) b.
Proof.
  revert cfg. induction a as [|c a IH]; intros cfg; [reflexivity |].
  rewrite append_cons. simpl. apply IH.
Qed.

(** A character as [json.dump] writes it is read as that character. *)
Lemma read_escape_char (c : ascii) (acc : string) (p : purpose) (stack : list frame) :
  json_feed (Chars acc p, stack) (json_escape_char c) = (Chars (acc ++ chr c) p, stack).
Proof. destruct c as [[] [] [] [] [] [] [] []]; reflexivity. Qed.

Lemma read_escape (s acc : string) (p : purpose) (stack : list frame) :
  json_feed (Chars acc p, stack) (json_escape s) = (Chars (acc ++ s) p, stack).
Proof.
  revert acc. induction s as [|c s IH]; intros acc.
  - now rewrite append_nil_r.
  - simpl json_escape. rewrite json_feed_app, read_escape_char, IH.
    now rewrite append_assoc.
Qed.

Lemma read_string (s : string) (p : purpose) (stack : list frame) :
  json_feed (Chars EmptyString p, stack) (json_escape s ++ chr DQUOTE)
  = end_of_string s p stack.
Proof. rewrite json_feed_app, read_escape. reflexivity. Qed.

Lemma start_string (stack : list frame) :
  start_value DQUOTE stack = (Chars EmptyString AsValue, stack).
Proof. reflexivity. Qed.

Lemma read_quoted (s : string) (p : purpose) (stack : list frame) (rest : string) :
  json_feed (Chars EmptyString p, stack) (json_escape s ++ String DQUOTE rest)
  = json_feed (end_of_string s p stack) rest.
Proof.
  change (String DQUOTE rest) with (chr DQUOTE ++ rest).
  now rewrite <- append_assoc, json_feed_app, read_string.
Qed.

(** A member, after the brace or the comma before it. *)
Lemma read_member (key v : string) (members : list (string * json)) (stack : list frame) :
  json_feed (Chars EmptyString (AsKey members), stack)
    (json_escape key ++ String DQUOTE (": " ++ json_string v))
  = (InObject (members ++ [(key, JString v)]), stack).
Proof.
  rewrite read_quoted. unfold json_string.
  change (": " ++ chr DQUOTE ++ json_escape v ++ chr DQUOTE)
    with (String ":" (String " " (String DQUOTE (json_escape v ++ chr DQUOTE)))).
  simpl. rewrite start_string, read_string. reflexivity.
Qed.

(** Appends brought to one shape: nested to the right, the characters of
    the strings written out pushed to the front. *)
Ltac flatten_appends :=
  repeat first [rewrite append_assoc | rewrite append_cons | rewrite append_nil_l].

(** The text of a record: a brace, the three members each on a line of its
    own, a brace. *)
Lemma json_record_text (r : record) :
  json_record r
  = String "{" (String LF ("    " ++ String DQUOTE
      (json_escape "filename" ++ String DQUOTE (": " ++ json_string (filename r)
       ++ String "," (String LF ("    " ++ String DQUOTE
      (json_escape "url" ++ String DQUOTE (": " ++ json_string (url r)
       ++ String "," (String LF ("    " ++ String DQUOTE
      (json_escape "release_date" ++ String DQUOTE (": " ++ json_string (release_date r)
       ++ String LF ("  " ++ "}"))))))))))))).
Proof.
  unfold json_record, json_item, fieldnames. cbn [map join].
  change (getitem r "filename") with (filename r).
  change (getitem r "url") with (url r).
  change (getitem r "release_date") with (release_date r).
  unfold json_string at 1 3 5. unfold chr.
  flatten_appends. reflexivity.
Qed.

Lemma read_member_then (key v : string) (members : list (string * json))
    (stack : list frame) (rest : string) :
  json_feed (Chars EmptyString (AsKey members), stack)
    (json_escape key ++ String DQUOTE ((": " ++ json_string v) ++ rest))
  = json_feed (InObject (members ++ [(key, JString v)]), stack) rest.
Proof.
  replace (json_escape key ++ String DQUOTE ((": " ++ json_string v) ++ rest))
    with ((json_escape key ++ String DQUOTE (": " ++ json_string v)) ++ rest)
    by (now rewrite append_assoc, append_cons).
  now rewrite json_feed_app, read_member.
Qed.

(** The line break and the indentation before a key. *)
Lemma skip_to_first_key (stack : list frame) (t : string) :
  json_feed (KeyOrClose, stack) (String LF ("    " ++ String DQUOTE t))
  = json_feed (Chars EmptyString (AsKey []), stack) t.
Proof. reflexivity. Qed.

Lemma skip_to_next_key (members : list (string * json)) (stack : list frame) (t : string) :
  json_feed (InObject members, stack) (String "," (String LF ("    " ++ String DQUOTE t)))
  = json_feed (Chars EmptyString (AsKey members), stack) t.
Proof. reflexivity. Qed.

Lemma close_object (members : list (string * json)) (stack : list frame) :
  json_feed (InObject members, stack) (String LF ("  " ++ "}"))
  = complete (JObject members) stack.
Proof. reflexivity. Qed.

(** A record is read as the object of its three members, wherever a value
    may begin with a brace. *)
Lemma read_record (r : record) (start : json_state) (outer stack : list frame) :
  json_step (start, outer) "{" = (KeyOrClose, stack) ->
  json_feed (start, outer) (json_record r) = complete (record_json r) stack.
Proof.
  intros Hopen. rewrite json_record_text.
  change (json_feed (start, outer) (String "{" ?t))
    with (json_feed (json_step (start, outer) "{") t).
  rewrite Hopen, skip_to_first_key.
  rewrite <- !append_assoc.
  rewrite read_member_then, skip_to_next_key.
  rewrite read_member_then, skip_to_next_key.
  rewrite read_member_then, close_object.
  reflexivity.
Qed.

(** ** The array of the records *)

Lemma join_map_cons {A : Type} (sep : string) (f : A -> string) (x : A) (l : list A) :
  join sep (map f (x :: l)) = f x ++ concat (map (fun y => sep ++ f y) l).
Proof.
  revert x. induction l as [|y l IH]; intros x.
  - simpl. now rewrite append_nil_r.
  - change (join sep (map f (x :: y :: l))) with (f x ++ sep ++ join sep (map f (y :: l))).
    rewrite IH. simpl. now rewrite !append_assoc.
Qed.

(** The records after the first, each after a comma and a line break. *)
Lemma read_more_records (rs : list record) (items : list json) (stack : list frame) :
  json_feed (InArray items, stack)
    (concat (map (fun r => ("," ++ String LF "  ") ++ json_record r) rs))
  = (InArray (items ++ map record_json rs), stack).
Proof.
  revert items. induction rs as [|r rs IH]; intros items.
  - simpl. now rewrite app_nil_r.
  - simpl concat. rewrite json_feed_app, json_feed_app.
    change (json_feed (InArray items, stack) ("," ++ String LF "  "))
      with (Value, ArrayFrame items :: stack).
    rewrite (read_record r Value (ArrayFrame items :: stack) (ArrayFrame items :: stack))
      by reflexivity.
    simpl complete. rewrite IH. now rewrite <- app_assoc.
Qed.

(** What [json.dump] wrote for a list of records that is not empty,
    [json.loads] reads as the array of the records, each an object with the
    three members. *)
Lemma json_round_trip (records : list record) :
  records <> [] -> json_loads (json_dump records) = Some (JArray (map record_json records)).
Proof.
  destruct records as [|r rs]; [congruence | intros _].
  unfold json_loads, json_dump. rewrite join_map_cons.
  change ("[" ++ String LF "  " ++ ?t) with (String "[" (String LF (String " " (String " " t)))).
  change (json_feed (Value, []) (String "[" (String LF (String " " (String " " ?t)))))
    with (json_feed (ValueOrClose, []) t).
  rewrite !json_feed_app.
  rewrite (read_record r ValueOrClose [] [ArrayFrame []]) by reflexivity.
  simpl complete. rewrite read_more_records.
  reflexivity.
Qed.

(** ** CSV *)

Lemma csv_feed_app (R : Reader) (a b : string) :
  csv_feed R (a ++ b) = csv_feed (csv_feed R a) b.
Proof.
  revert R. induction a as [|c a IH]; intros R; [reflexivity |].
  rewrite append_cons. simpl. apply IH.
Qed.

Section OneField.

(** The fields of the record being read before the field at hand, and the
    records read before it. *)
Variable fs : list string.
Variable done : list (list string).

Local Abbreviation at_state st f a b :=
  {| state := st; fields := fs; field := f; rows := done; after_cr := a; in_line := b |}.

Lemma plain_char (c : ascii) :
  csv_special c = false ->
  Ascii.eqb c "," = false ∧ Ascii.eqb c DQUOTE = false
  ∧ Ascii.eqb c CR = false ∧ Ascii.eqb c LF = false.
Proof.
  unfold csv_special. intros H.
  apply orb_false_iff in H as [H H4]. apply orb_false_iff in H as [H H3].
  apply orb_false_iff in H as [H1 H2]. now repeat split.
Qed.

(** The characters of a field that needs no quotes, once the field has
    begun. *)
Lemma read_plain_chars (f acc : string) :
  csv_needs_quotes f = false ->
  csv_feed (at_state IN_FIELD acc false true) f = at_state IN_FIELD (acc ++ f) false true.
Proof.
  revert acc. induction f as [|c f IH]; intros acc Hf.
  - now rewrite append_nil_r.
  - simpl in Hf. apply orb_false_iff in Hf as [Hc Hf].
    destruct (plain_char c Hc) as (H1 & H2 & H3 & H4).
    simpl csv_feed. unfold csv_step, process_char, is_newline. simpl.
    rewrite H1, H3, H4. simpl.
    unfold add_char. simpl. rewrite IH by exact Hf.
    now rewrite append_assoc.
Qed.

(** A character within quotes is kept, a line break too; the quote is
    written twice and read once. *)
Lemma read_quoted_char (c : ascii) (acc : string) (a b : bool) :
  ∃ a' b',
    csv_feed (at_state IN_QUOTED_FIELD acc a b) (csv_double_quotes (chr c))
    = at_state IN_QUOTED_FIELD (acc ++ chr c) a' b'.
Proof.
  unfold chr. simpl csv_double_quotes.
  destruct (Ascii.eqb_spec c DQUOTE) as [-> | Hq].
  - destruct a; now eexists; eexists.
  - apply Ascii.eqb_neq in Hq.
    simpl csv_feed. unfold csv_step, process_char. simpl.
    destruct a, (Ascii.eqb c LF) eqn:Elf; simpl; rewrite ?Hq; simpl;
      now eexists; eexists.
Qed.

Lemma csv_double_quotes_cons (c : ascii) (f : string) :
  csv_double_quotes (String c f) = csv_double_quotes (chr c) ++ csv_double_quotes f.
Proof. simpl. destruct (Ascii.eqb c DQUOTE); reflexivity. Qed.

Lemma read_quoted_chars (f acc : string) (a b : bool) :
  ∃ a' b',
    csv_feed (at_state IN_QUOTED_FIELD acc a b) (csv_double_quotes f)
    = at_state IN_QUOTED_FIELD (acc ++ f) a' b'.
Proof.
  revert acc a b. induction f as [|c f IH]; intros acc a b.
  - exists a, b. now rewrite append_nil_r.
  - rewrite csv_double_quotes_cons, csv_feed_app.
    destruct (read_quoted_char c acc a b) as (a1 & b1 & ->).
    destruct (IH (acc ++ chr c) a1 b1) as (a2 & b2 & ->).
    exists a2, b2. now rewrite append_assoc.
Qed.

(** A field and the comma after it, at the start of a record or after a
    comma. *)
Lemma read_field_comma (f t : string) (st : csv_state) (b : bool) :
  st = START_RECORD ∨ st = START_FIELD ->
  csv_feed (at_state st EmptyString false b) (csv_field f ++ String "," t)
  = csv_feed {| state := START_FIELD; fields := (fs ++ [f])%list; field := EmptyString;
                rows := done; after_cr := false; in_line := true |} t.
Proof.
  intros Hst. unfold csv_field.
  destruct (csv_needs_quotes f) eqn:Hq.
  - (* quoted *)
    unfold chr. flatten_appends.
    assert (Hopen : csv_step (at_state st EmptyString false b) DQUOTE
                    = at_state IN_QUOTED_FIELD EmptyString false true)
      by (destruct Hst as [-> | ->]; reflexivity).
    simpl csv_feed. rewrite Hopen, csv_feed_app.
    destruct (read_quoted_chars f EmptyString false true) as (a' & b' & ->).
    rewrite append_nil_l. destruct a'; reflexivity.
  - (* as it stands *)
    destruct f as [|c f].
    + rewrite append_nil_l. destruct Hst as [-> | ->]; reflexivity.
    + simpl in Hq. apply orb_false_iff in Hq as [Hc Hf].
      destruct (plain_char c Hc) as (H1 & H2 & H3 & H4).
      assert (Hfirst : csv_step (at_state st EmptyString false b) c
                       = at_state IN_FIELD (chr c) false true).
      { unfold csv_step, process_char, is_newline. simpl.
        destruct Hst as [-> | ->]; rewrite H1, H2, H3, H4; reflexivity. }
      rewrite append_cons. simpl csv_feed. rewrite Hfirst, csv_feed_app.
      rewrite (read_plain_chars f (chr c) Hf). reflexivity.
Qed.

(** The last field of a record and the end of its line: the record is
    complete. *)
Lemma read_field_crlf (f t : string) (b : bool) :
  csv_feed (at_state START_FIELD EmptyString false b)
    (csv_field f ++ String CR (String LF t))
  = csv_feed {| state := START_RECORD; fields := []; field := EmptyString;
                rows := (done ++ [(fs ++ [f])%list])%list; after_cr := false; in_line := false |} t.
Proof.
  unfold csv_field.
  destruct (csv_needs_quotes f) eqn:Hq.
  - unfold chr. flatten_appends.
    simpl csv_feed.
    change (csv_step (at_state START_FIELD EmptyString false b) DQUOTE)
      with (at_state IN_QUOTED_FIELD EmptyString false true).
    rewrite csv_feed_app.
    destruct (read_quoted_chars f EmptyString false true) as (a' & b' & ->).
    rewrite append_nil_l. destruct a'; reflexivity.
  - destruct f as [|c f].
    + rewrite append_nil_l. reflexivity.
    + simpl in Hq. apply orb_false_iff in Hq as [Hc Hf].
      destruct (plain_char c Hc) as (H1 & H2 & H3 & H4).
      assert (Hfirst : csv_step (at_state START_FIELD EmptyString false b) c
                       = at_state IN_FIELD (chr c) false true).
      { unfold csv_step, process_char, is_newline. simpl.
        rewrite H1, H2, H3, H4. reflexivity. }
      rewrite append_cons. simpl csv_feed. rewrite Hfirst, csv_feed_app.
      rewrite (read_plain_chars f (chr c) Hf). reflexivity.
Qed.

End OneField.

(** A row of three fields, at the start of a record. *)
Lemma read_row (f1 f2 f3 : string) (done : list (list string)) (t : string) :
  csv_feed {| state := START_RECORD; fields := []; field := EmptyString; rows := done;
              after_cr := false; in_line := false |} (csv_row [f1; f2; f3] ++ t)
  = csv_feed {| state := START_RECORD; fields := []; field := EmptyString;
                rows := (done ++ [[f1; f2; f3]])%list; after_cr := false; in_line := false |} t.
Proof.
  unfold csv_row, csv_lineterminator. cbn [map join].
  flatten_appends.
  rewrite (read_field_comma [] done f1 _ START_RECORD false) by now left.
  rewrite (read_field_comma [f1] done f2 _ START_FIELD true) by now right.
  rewrite (read_field_crlf [f1; f2] done f3 _ true).
  reflexivity.
Qed.

Lemma read_rows (records : list record) (done : list (list string)) :
  csv_feed {| state := START_RECORD; fields := []; field := EmptyString; rows := done;
              after_cr := false; in_line := false |}
    (concat (map csv_record records))
  = {| state := START_RECORD; fields := []; field := EmptyString;
       rows := (done ++ map record_row records)%list;
       after_cr := false; in_line := false |}.
Proof.
  revert done. induction records as [|r rs IH]; intros done.
  - simpl. now rewrite app_nil_r.
  - simpl concat.
    change (csv_record r) with (csv_row [filename r; url r; release_date r]).
    rewrite read_row, IH. now rewrite <- app_assoc.
Qed.

(** What [csv.DictWriter] wrote, the header row and a row for each record,
    [csv.reader] reads as the row of the three field names and the rows of
    the records, commas, quotes and line breaks in the fields
    notwithstanding. *)
Lemma csv_round_trip (records : list record) :
  csv_reader (csv_header ++ concat (map csv_record records))
  = Some (fieldnames :: map record_row records).
Proof.
  unfold csv_reader, csv_header, new_reader, fieldnames.
  rewrite read_row, read_rows. reflexivity.
Qed.

End ReadBackFacts.

(* ===================================================================== *)
(** * The scraper *)
(* ===================================================================== *)

Module ScraperFacts.
Import PyStr OsPath Py Soup Files Scraper ReadBack PyStrFacts FilesFacts ReadBackFacts.

(** A link that [find_all_href] returns has the attribute. *)
Lemma find_all_href_has_href (names : list string) (n link : node) :
  In link (find_all_href names n) -> is_Some (attr "href" link).
Proof.
  unfold find_all_href. rewrite List.filter_In. intros [_ H].
  apply andb_true_iff in H as [_ H].
  now apply bool_decide_eq_true in H.
Qed.

(** Two different strings in a list: the list has two elements or more. *)
Lemma two_members_length (a b : string) (l : list string) :
  a ≠ b -> a ∈ l -> b ∈ l -> (2 <= length l)%nat.
Proof.
  intros Hne Ha Hb.
  destruct l as [|x [|y l]]; simpl; try lia.
  - inversion Ha.
  - apply list_elem_of_singleton in Ha, Hb. congruence.
Qed.

(** The test of lines 37-39 is [has_record_headers]: the guard on the number
    of header cells adds nothing. *)
Lemma records_table_test (t : node) :
  (2 <=? length (find_all ["th"] t))%nat
  && (bool_decide ("Record Number" ∈ header_texts t)
      && bool_decide ("NARA Release Date" ∈ header_texts t)) = true
  <-> has_record_headers t.
Proof.
  unfold has_record_headers. split.
  - intros H. apply andb_true_iff in H as [_ H].
    apply andb_true_iff in H as [H1 H2].
    apply bool_decide_eq_true in H1, H2. now split.
  - intros [H1 H2].
    assert (Hlen : (2 <= length (header_texts t))%nat)
      by (eapply two_members_length; [| exact H1 | exact H2]; discriminate).
    unfold header_texts in Hlen. rewrite length_map in Hlen.
    apply andb_true_iff. split; [now apply Nat.leb_le |].
    apply andb_true_iff. split; now apply bool_decide_eq_true.
Qed.

Lemma find_records_table_cons (t : node) (rest : list node) :
  find_records_table (t :: rest)
  = if (2 <=? length (find_all ["th"] t))%nat
       && (bool_decide ("Record Number" ∈ header_texts t)
           && bool_decide ("NARA Release Date" ∈ header_texts t))
    then Some t else find_records_table rest.
Proof. reflexivity. Qed.

Lemma find_records_table_skip (t : node) (rest : list node) :
  ¬ has_record_headers t -> find_records_table (t :: rest) = find_records_table rest.
Proof.
  intros Hno. rewrite find_records_table_cons.
  destruct (_ && _) eqn:E; [| reflexivity].
  exfalso. apply Hno. now apply records_table_test.
Qed.

Lemma find_records_table_first (tables : list node) (t : node) :
  first_such has_record_headers tables t -> find_records_table tables = Some t.
Proof.
  intros (l1 & l2 & -> & Hno & Hyes).
  induction Hno as [|x l1 Hx _ IH].
  - rewrite app_nil_l, find_records_table_cons.
    now rewrite (proj2 (records_table_test t) Hyes).
  - rewrite <- app_comm_cons. now rewrite find_records_table_skip.
Qed.

Lemma find_records_table_none (tables : list node) :
  Forall (fun t => ¬ has_record_headers t) tables -> find_records_table tables = None.
Proof.
  induction 1 as [|x l Hx _ IH]; [reflexivity |].
  now rewrite find_records_table_skip.
Qed.

Lemma find_pdf_table_cons (t : node) (rest : list node) :
  find_pdf_table (t :: rest)
  = if (10 <? length (List.filter is_pdf_link (find_all_href ["a"] t)))%nat
    then Some t else find_pdf_table rest.
Proof. reflexivity. Qed.

Lemma find_pdf_table_skip (t : node) (rest : list node) :
  ¬ has_many_pdf_links t -> find_pdf_table (t :: rest) = find_pdf_table rest.
Proof.
  intros Hno. rewrite find_pdf_table_cons.
  destruct (_ <? _)%nat eqn:E; [| reflexivity].
  exfalso. apply Hno. now apply Nat.ltb_lt.
Qed.


Lemma find_pdf_table_none (tables : list node) :
  Forall (fun t => ¬ has_many_pdf_links t) tables -> find_pdf_table tables = None.
Proof.
  induction 1 as [|x l Hx _ IH]; [reflexivity |].
  now rewrite find_pdf_table_skip.
Qed.

Section Scrape.

Variable urljoin : string -> string -> parsed string.
Variable urlparse_path : string -> parsed string.

Lemma bind_ret {A : Type} (x : result A) : (a ← x; mret a) = x.
Proof. now destruct x. Qed.

(** The loop over the links makes, in order, the records of the document
    links, and stops at the first call that raises. *)
Lemma collect_links_spec (all_links : list node) (pdf_links : list record) :
  collect_links urljoin urlparse_path all_links pdf_links
  = (rest ← all_or_error (map (link_record urljoin urlparse_path)
                               (List.filter is_document_link all_links));
     mret (pdf_links ++ rest)%list).
Proof.
  revert pdf_links.
  induction all_links as [|link rest IH]; intros pdf_links; simpl.
  - now rewrite app_nil_r.
  - unfold is_document_link at 1.
    destruct (contains ".pdf" (lower (href_of link))
              || contains ".mp3" (lower (href_of link))) eqn:E; [| apply IH].
    simpl. unfold link_record.
    destruct (urljoin base_url (href_of link)) as [m | full_url]; [reflexivity |].
    simpl.
    destruct (String.eqb (strip (get_text link)) EmptyString).
    + destruct (urlparse_path (href_of link)) as [m | path]; [reflexivity |].
      simpl. rewrite IH.
      destruct (all_or_error _) as [e | records]; simpl; [reflexivity |].
      now rewrite <- app_assoc.
    + simpl. rewrite IH.
      destruct (all_or_error _) as [e | records]; simpl; [reflexivity |].
      now rewrite <- app_assoc.
Qed.

Lemma extract_rows_spec (rows : list node) (records : list record) :
  extract_rows urljoin rows records
  = (rest ← all_or_error (omap (row_record urljoin) rows);
     mret (records ++ rest)%list).
Proof.
  revert records.
  induction rows as [|row rest IH]; intros records; simpl.
  - now rewrite app_nil_r.
  - unfold row_record at 1.
    destruct (find_all ["td"; "th"] row) as [|c1 [|c2 cs]] eqn:Ecells; simpl.
    + apply IH.
    + apply IH.
    + destruct (find_href ["a"] c1) as [link|]; simpl; [| apply IH].
      destruct (urljoin base_url (href_of link)) as [m | full_url]; [reflexivity |].
      simpl. rewrite IH.
      destruct (all_or_error _) as [e | records']; simpl; [reflexivity |].
      now rewrite <- app_assoc.
Qed.




(** The two handlers make the empty list of whatever was raised. *)
Lemma scrape_handlers (W : Web) :
  scrape_mlk_records urljoin urlparse_path W
  = or_empty (scrape_try urljoin urlparse_path W).
Proof.
  unfold scrape_mlk_records, or_empty.
  destruct (scrape_try urljoin urlparse_path W) as [[m | code m | m] | records]; reflexivity.
Qed.


Lemma scrape_page_table (soup t : node) :
  (find_records_table (find_all ["table"] soup) = Some t
   ∨ (find_records_table (find_all ["table"] soup) = None
      ∧ find_pdf_table (find_all ["table"] soup) = Some t)) ->
  scrape_page urljoin urlparse_path soup = table_records urljoin t.
Proof.
  unfold scrape_page, table_records.
  intros [H | [H1 H2]].
  - rewrite H, extract_rows_spec. apply bind_ret.
  - rewrite H1, H2, extract_rows_spec. apply bind_ret.
Qed.

Lemma scrape_page_links (soup : node) :
  find_records_table (find_all ["table"] soup) = None ->
  find_pdf_table (find_all ["table"] soup) = None ->
  scrape_page urljoin urlparse_path soup = link_records urljoin urlparse_path soup.
Proof.
  intros H1 H2. unfold scrape_page, link_records. rewrite H1, H2.
  rewrite collect_links_spec.
  destruct (all_or_error _) as [e | records]; simpl; [reflexivity |].
  now destruct records.
Qed.


(** C8.  When the request raises, when the status is an error, or when the
    parser raises, the result is the empty list; so it is when [urljoin] or
    [urlparse] raises on an href of the page; and so it is for a page in
    which no table qualifies and no link is a document link. *)
Theorem scrape_errors_give_empty (W : Web) :
  let records := scrape_mlk_records urljoin urlparse_path W in
  (∀ e, session_get W page_url = inl e -> records = [])
  ∧ (∀ response e,
       session_get W page_url = inr response ->
       raise_for_status response = inl e -> records = [])
  ∧ (∀ response e,
       session_get W page_url = inr response ->
       raise_for_status response = inr tt ->
       BeautifulSoup W (content response) = inl e -> records = [])
  ∧ (∀ response soup,
       session_get W page_url = inr response ->
       raise_for_status response = inr tt ->
       BeautifulSoup W (content response) = inr soup ->
       Forall (fun t => ¬ has_record_headers t) (find_all ["table"] soup) ->
       Forall (fun t => ¬ has_many_pdf_links t) (find_all ["table"] soup) ->
       Forall (fun l => is_document_link l = false) (find_all_href ["a"] soup) ->
       records = [])
  ∧ (∀ response soup e,
       session_get W page_url = inr response ->
       raise_for_status response = inr tt ->
       BeautifulSoup W (content response) = inr soup ->
       scrape_page urljoin urlparse_path soup = inl e ->
       records = []).
Proof.
  intros records. subst records. rewrite scrape_handlers. unfold scrape_try.
  split; [| split; [| split; [| split]]].
  - intros e He. now rewrite He.
  - intros response e Hget He. rewrite Hget. simpl. now rewrite He.
  - intros response e Hget Hstatus He.
    rewrite Hget. simpl. rewrite Hstatus. simpl. now rewrite He.
  - intros response soup Hget Hstatus Hparse Hno1 Hno2 Hlinks.
    rewrite Hget. simpl. rewrite Hstatus. simpl. rewrite Hparse. simpl.
    rewrite scrape_page_links
      by (first [now apply find_records_table_none | now apply find_pdf_table_none]).
    unfold link_records.
    replace (List.filter is_document_link (find_all_href ["a"] soup)) with (@nil node);
      [reflexivity |].
    symmetry. induction Hlinks as [|l ls Hl _ IH]; simpl; [reflexivity |].
    now rewrite Hl.
  - intros response soup e Hget Hstatus Hparse He.
    rewrite Hget. simpl. rewrite Hstatus. simpl. rewrite Hparse. simpl. now rewrite He.
Qed.

End Scrape.

(** ** Files written by [save_records] *)

Lemma writerows_lookup (name : string) (records : list record) (f : fs) (old : string) :
  f !! name = Some old ->
  writerows name records f !! name = Some (old ++ concat (map csv_record records)).
Proof.
  revert f old.
  induction records as [|r rest IH]; intros f old Hold; simpl.
  - now rewrite append_nil_r.
  - erewrite IH; [| rewrite write_lookup, Hold; reflexivity].
    simpl. now rewrite append_assoc.
Qed.

Lemma writerows_other (name name' : string) (records : list record) (f : fs) :
  name ≠ name' -> writerows name records f !! name' = f !! name'.
Proof.
  intros Hne. revert f.
  induction records as [|r rest IH]; intros f; simpl; [reflexivity |].
  rewrite IH. now apply write_other.
Qed.

Lemma write_urls_lookup (name : string) (records : list record) (f : fs) (old : string) :
  f !! name = Some old ->
  write_urls name records f !! name
  = Some (old ++ concat (map (fun r => url r ++ chr LF) records)).
Proof.
  revert f old.
  induction records as [|r rest IH]; intros f old Hold; simpl.
  - now rewrite append_nil_r.
  - erewrite IH; [| rewrite write_lookup, Hold; reflexivity].
    simpl. now rewrite append_assoc.
Qed.

Lemma write_urls_other (name name' : string) (records : list record) (f : fs) :
  name ≠ name' -> write_urls name records f !! name' = f !! name'.
Proof.
  intros Hne. revert f.
  induction records as [|r rest IH]; intros f; simpl; [reflexivity |].
  rewrite IH. now apply write_other.
Qed.

Lemma urls_name_not_csv (timestamp : string) :
  "mlk_urls_" ++ timestamp ++ ".txt" ≠ "mlk_records_" ++ timestamp ++ ".csv".
Proof. intros H. cbv in H. discriminate H. Qed.

Lemma urls_name_not_json (timestamp : string) :
  "mlk_urls_" ++ timestamp ++ ".txt" ≠ "mlk_records_" ++ timestamp ++ ".json".
Proof. intros H. cbv in H. discriminate H. Qed.

(** The header row, character by character. *)
Lemma csv_header_text :
  csv_header = "filename,url,release_date" ++ String CR (String LF EmptyString).
Proof. reflexivity. Qed.

(** A record none of whose fields has a comma, a quote or a line break is
    written as it stands. *)
Lemma csv_record_plain (r : record) :
  csv_needs_quotes (filename r) = false ->
  csv_needs_quotes (url r) = false ->
  csv_needs_quotes (release_date r) = false ->
  csv_record r
  = (filename r ++ "," ++ url r ++ "," ++ release_date r) ++ csv_lineterminator.
Proof.
  intros H1 H2 H3.
  change (csv_record r) with (csv_row [filename r; url r; release_date r]).
  unfold csv_row, csv_field, map. now rewrite H1, H2, H3.
Qed.

(** C7.  For a list of records that is not empty, [save_records] writes the
    records as CSV under the header row [filename,url,release_date] when the
    format is "csv", as JSON when it is "json", and in either case (indeed
    whatever the format) writes the URL file: the url of each record followed
    by a line feed, in the order of the records.  That the records are kept
    is said through the readers of the two formats: [csv.reader] reads the
    CSV file as the row of the three field names followed by one row for
    each record, with its three fields as they were, and [json.loads] reads
    the JSON file as the array of the records, each an object with the three
    members. *)
Theorem save_records_writes (timestamp : string) (records : list record)
    (format : string) (f : fs) :
  records ≠ [] ->
  let f' := save_records timestamp records format f in
  (format = "csv" ->
     ∃ text,
       f' !! ("mlk_records_" ++ timestamp ++ ".csv") = Some text
       ∧ text = ("filename,url,release_date" ++ String CR (String LF EmptyString))
                ++ concat (map csv_record records)
       ∧ csv_reader text
         = Some (["filename"; "url"; "release_date"]
                 :: map (fun r => [filename r; url r; release_date r]) records))
  ∧ (format = "json" ->
     ∃ text,
       f' !! ("mlk_records_" ++ timestamp ++ ".json") = Some text
       ∧ text = json_dump records
       ∧ json_loads text
         = Some (JArray (map (fun r => JObject [("filename", JString (filename r));
                                                ("url", JString (url r));
                                                ("release_date", JString (release_date r))])
                             records)))
  ∧ f' !! ("mlk_urls_" ++ timestamp ++ ".txt")
    = Some (concat (map (fun r => url r ++ chr LF) records)).
Proof.
  intros Hne f'. subst f'.
  pose proof (csv_round_trip records) as Hcsv.
  pose proof (json_round_trip records Hne) as Hjson.
  destruct records as [|r0 rest]; [congruence |].
  unfold save_records.
  split; [| split].
  - intros ->. rewrite String.eqb_refl.
    rewrite write_urls_other by (apply urls_name_not_csv).
    unfold open_w at 1. rewrite lookup_insert_ne by (apply urls_name_not_csv).
    rewrite (writerows_lookup _ _ _ csv_header).
    + eexists. split; [reflexivity |]. split; [now rewrite csv_header_text |].
      exact Hcsv.
    + rewrite write_lookup. unfold open_w. now rewrite lookup_insert_eq.
  - intros ->. replace ("json" =? "csv")%string with false by reflexivity.
    rewrite String.eqb_refl.
    rewrite write_urls_other by (apply urls_name_not_json).
    unfold open_w at 1. rewrite lookup_insert_ne by (apply urls_name_not_json).
    rewrite write_lookup. unfold open_w. rewrite lookup_insert_eq.
    eexists. split; [reflexivity |]. split; [reflexivity |]. exact Hjson.
  - rewrite (write_urls_lookup _ _ _ EmptyString); [reflexivity |].
    unfold open_w. apply lookup_insert_eq.
Qed.

(** C10.  For the empty list of records, [save_records] returns at once and
    leaves the directory as it was: neither the CSV file, nor the JSON file,
    nor the URL file is created or changed, whatever the format. *)
Theorem save_records_empty (timestamp format : string) (f : fs) :
  let f' := save_records timestamp [] format f in
  f' = f
  ∧ f' !! ("mlk_records_" ++ timestamp ++ ".csv")
    = f !! ("mlk_records_" ++ timestamp ++ ".csv")
  ∧ f' !! ("mlk_records_" ++ timestamp ++ ".json")
    = f !! ("mlk_records_" ++ timestamp ++ ".json")
  ∧ f' !! ("mlk_urls_" ++ timestamp ++ ".txt")
    = f !! ("mlk_urls_" ++ timestamp ++ ".txt")
  ∧ dom f' = dom f.
Proof.
  intros f'.
  assert (Hsame : f' = f) by reflexivity.
  rewrite Hsame. repeat split.
Qed.

(** ** The statements at concrete inputs *)

Import Samples.

Lemma records_table_has_headers : has_record_headers records_table.
Proof. split; apply (bool_decide_unpack _); vm_compute; exact I. Qed.




Lemma scrape_errors_give_empty_witness :
  scrape_mlk_records sample_urljoin sample_urlparse_path web_down = []
  ∧ scrape_mlk_records sample_urljoin sample_urlparse_path web_503 = []
  ∧ scrape_mlk_records sample_urljoin sample_urlparse_path web_unparsable = []
  ∧ scrape_mlk_records sample_urljoin sample_urlparse_path (web_of bad_href_soup) = [].
Proof.
  split; [| split; [| split]].
  - exact (proj1 (scrape_errors_give_empty sample_urljoin sample_urlparse_path web_down)
             (RequestException "ConnectionError") eq_refl).
  - exact (proj1 (proj2 (scrape_errors_give_empty sample_urljoin sample_urlparse_path
                           web_503))
             _ _ eq_refl eq_refl).
  - exact (proj1 (proj2 (proj2 (scrape_errors_give_empty sample_urljoin
                                  sample_urlparse_path web_unparsable)))
             _ (OtherException "ParserRejectedMarkup") eq_refl eq_refl eq_refl).
  - exact (proj2 (proj2 (proj2 (proj2 (scrape_errors_give_empty sample_urljoin
                                         sample_urlparse_path (web_of bad_href_soup)))))
             page_response bad_href_soup (OtherException "Invalid IPv6 URL")
             eq_refl eq_refl eq_refl eq_refl).
Defined.

(** The text of the error of a 503 answer, as [requests] words it. *)
Example raise_for_status_503 :
  raise_for_status (response_of 503 "Service Unavailable" page_url None [])
  = inl (RequestException
           "503 Server Error: Service Unavailable for url: https://www.archives.gov/research/mlk").
Proof. reflexivity. Qed.

Example scrape_nothing_found :
  scrape_mlk_records sample_urljoin sample_urlparse_path (web_of empty_soup) = [].
Proof. vm_compute. reflexivity. Qed.

Example save_records_csv_file :
  save_records "20250722_133807" two_records "csv" ∅
    !! "mlk_records_20250722_133807.csv"
  = Some ("filename,url,release_date" ++ csv_lineterminator
          ++ "104-10001,https://www.archives.gov/a.pdf,07/21/2025" ++ csv_lineterminator
          ++ String DQUOTE "tape, side 1" ++ String DQUOTE
               ",https://www.archives.gov/t.mp3,Unknown" ++ csv_lineterminator).
Proof. vm_compute. reflexivity. Qed.

Example save_records_empty_creates_nothing :
  save_records "20250722_133807" [] "csv" ∅ = ∅
  ∧ save_records "20250722_133807" [] "json" ∅ = ∅.
Proof. split; reflexivity. Qed.

(** The three files of two records, the CSV and the JSON file as their
    readers give them back. *)
Lemma save_records_writes_witness :
  (∃ text,
     save_records "20250722_133807" two_records "csv" ∅
       !! "mlk_records_20250722_133807.csv" = Some text
     ∧ csv_reader text
       = Some [ ["filename"; "url"; "release_date"];
                ["104-10001"; "https://www.archives.gov/a.pdf"; "07/21/2025"];
                ["tape, side 1"; "https://www.archives.gov/t.mp3"; "Unknown"] ])
  ∧ (∃ text,
       save_records "20250722_133807" two_records "json" ∅
         !! "mlk_records_20250722_133807.json" = Some text
       ∧ json_loads text
         = Some (JArray
                   [ JObject [("filename", JString "104-10001");
                              ("url", JString "https://www.archives.gov/a.pdf");
                              ("release_date", JString "07/21/2025")];
                     JObject [("filename", JString "tape, side 1");
                              ("url", JString "https://www.archives.gov/t.mp3");
                              ("release_date", JString "Unknown")] ]))
  ∧ save_records "20250722_133807" two_records "csv" ∅
      !! "mlk_urls_20250722_133807.txt"
    = Some ("https://www.archives.gov/a.pdf" ++ String LF
              ("https://www.archives.gov/t.mp3" ++ String LF EmptyString)).
Proof.
  assert (Hne : two_records ≠ []) by discriminate.
  split; [| split].
  - destruct (proj1 (save_records_writes "20250722_133807" two_records "csv" ∅ Hne)
                eq_refl) as (text & Hfile & _ & Hread).
    exists text. split; [exact Hfile | exact Hread].
  - destruct (proj1 (proj2 (save_records_writes "20250722_133807" two_records "json" ∅
                              Hne)) eq_refl) as (text & Hfile & _ & Hread).
    exists text. split; [exact Hfile | exact Hread].
  - exact (proj2 (proj2 (save_records_writes "20250722_133807" two_records "csv" ∅ Hne))).
Defined.

(** A record with quotes, a comma and a line break in its fields, as the
    two files hold it. *)
Example awkward_record_is_kept :
  csv_reader (csv_header ++ csv_record MoreSamples.awkward_record)
  = Some [ fieldnames; record_row MoreSamples.awkward_record ]
  ∧ json_loads (json_dump [MoreSamples.awkward_record])
    = Some (JArray [record_json MoreSamples.awkward_record])
  ∧ csv_record MoreSamples.awkward_record
    = String DQUOTE ("report " ++ String DQUOTE (String DQUOTE ("A" ++ String DQUOTE
        (String DQUOTE (", part 2" ++ String DQUOTE
        (",https://www.archives.gov/files/a b.pdf," ++ String DQUOTE ("07/21/2025"
         ++ String LF ("(revised)" ++ String DQUOTE csv_lineterminator)))))))).
Proof. vm_compute. repeat split; reflexivity. Qed.

End ScraperFacts.

(* ===================================================================== *)
(** * The index page *)
(* ===================================================================== *)

Module IndexFacts.
Import PyStr Files Index PyStrFacts FilesFacts Samples.

Lemma page_loop_spec (objs : list S3Entry) (html : list string) :
  page_loop objs html
  = (html ++ map object_item (List.filter (fun o => negb (is_folder o)) objs))%list.
Proof.
  revert html.
  induction objs as [|obj rest IH]; intros html; simpl.
  - now rewrite app_nil_r.
  - unfold is_folder at 1. destruct (endswith "/" (Key obj)); simpl.
    + apply IH.
    + rewrite IH, <- app_assoc. reflexivity.
Qed.

Lemma pages_loop_spec (pages : list Page) (html : list string) :
  pages_loop pages html
  = (html ++ map object_item
               (List.filter (fun o => negb (is_folder o)) (listed_objects pages)))%list.
Proof.
  revert html.
  induction pages as [|page rest IH]; intros html; simpl.
  - now rewrite app_nil_r.
  - rewrite IH, page_loop_spec, List.filter_app, map_app, <- app_assoc. reflexivity.
Qed.

(** The link text of an object: the key is a directory part, empty or ending
    with a slash, followed by the text, and the text holds no slash. *)
Lemma display_name_spec (key : string) :
  ∃ dir, key = dir ++ display_name key
         ∧ contains "/" (display_name key) = false
         ∧ (dir = EmptyString ∨ ∃ d0, dir = d0 ++ "/").
Proof.
  unfold display_name.
  destruct (split_last_spec (Ascii.eqb "/") key) as (dir & Heq & Hno & Hdir).
  exists dir. split; [exact Heq |]. split.
  - change "/" with (chr "/"). now rewrite contains_char.
  - destruct Hdir as [[_ ->] | [_ (d0 & c & Hc & ->)]]; [now left |].
    right. exists d0. apply Ascii.eqb_eq in Hc. now subst c.
Qed.



Example index_plain_listing_items :
  object_items (index_lines plain_listing)
  = [ list_item "https://example-transformations-mlk-archive.s3.amazonaws.com/mlk-archive/104-10001.pdf"
        "104-10001.pdf";
      list_item "https://example-transformations-mlk-archive.s3.amazonaws.com/mlk-archive/audio/tape.mp3"
        "tape.mp3" ].
Proof. vm_compute. reflexivity. Qed.

Example index_folder_listing_items :
  length (object_items (index_lines folder_listing)) = 1%nat
  ∧ length (listed_objects folder_listing) = 2%nat.
Proof. vm_compute. split; reflexivity. Qed.

End IndexFacts.

(* ===================================================================== *)
(** * Content types *)
(* ===================================================================== *)

Module ContentTypeFacts.
Import PyStr OsPath ContentType PyStrFacts.

(** The loop that skips leading dots, over the part [mid] of the path it
    runs through: it finds a character that is no dot when there is one. *)
Lemma splitext_scan_spec (pre mid post : string) :
  splitext_scan (pre ++ mid ++ post) (Z.of_nat (String.length pre)) (String.length mid)
  = has_char (fun c => negb (Ascii.eqb c ".")) mid.
Proof.
  revert pre.
  induction mid as [|c mid IH]; intros pre; [reflexivity |].
  simpl splitext_scan. simpl has_char.
  assert (Hc : (slice1 (Z.of_nat (String.length pre)) (pre ++ String c mid ++ post)
                =? ".")%string = Ascii.eqb c ".").
  { unfold slice1, slice_from. rewrite Nat2Z.id, drop_n_app.
    rewrite append_cons. simpl. destruct (Ascii.eqb c "."); reflexivity. }
  rewrite Hc. destruct (Ascii.eqb c ".") eqn:Ec; simpl; [| reflexivity].
  specialize (IH (pre ++ chr c)).
  rewrite append_assoc in IH. rewrite length_append in IH. simpl String.length in IH.
  replace (Z.of_nat (String.length pre + 1)) with (Z.of_nat (String.length pre) + 1)
    in IH by lia.
  exact IH.
Qed.

(** The extension of [stem.e], when [e] holds neither a dot nor a slash and
    the last component of [stem] is not made of dots only. *)
Lemma splitext_shape (stem e : string) :
  has_char (Ascii.eqb ".") e = false ->
  has_char (Ascii.eqb "/") e = false ->
  has_char (fun c => negb (Ascii.eqb c ".")) (basename stem) = true ->
  splitext (stem ++ "." ++ e) = (stem, "." ++ e).
Proof.
  intros Hdot Hslash Hname.
  rewrite <- has_char_eqb_sym in Hdot, Hslash.
  assert (Hd : rfind "." (stem ++ "." ++ e) = Z.of_nat (String.length stem)).
  { unfold rfind. rewrite rfind_from_app. change ("." ++ e) with (String "." e).
    simpl rfind_from. now rewrite rfind_from_absent. }
  assert (Hs : rfind "/" (stem ++ "." ++ e) = rfind "/" stem).
  { unfold rfind. rewrite rfind_from_app. change ("." ++ e) with (String "." e).
    simpl rfind_from. now rewrite rfind_from_absent. }
  pose proof (rfind_from_lower_bound "/" stem 0 (-1) ltac:(lia) ltac:(lia)) as Hlo.
  pose proof (rfind_from_upper_bound "/" stem 0 (-1) ltac:(lia)) as Hhi.
  fold (rfind "/" stem) in Hlo, Hhi.
  unfold splitext. rewrite Hd, Hs.
  replace (rfind "/" stem <? Z.of_nat (String.length stem)) with true
    by (symmetry; apply Z.ltb_lt; lia).
  set (k := Z.to_nat (rfind "/" stem + 1)).
  assert (Hk : (k <= String.length stem)%nat) by (unfold k; lia).
  unfold basename, slice_from in Hname. fold k in Hname.
  assert (Hscan : splitext_scan (stem ++ "." ++ e) (rfind "/" stem + 1)
                    (Z.to_nat (Z.of_nat (String.length stem) - (rfind "/" stem + 1)))
                  = true).
  { etransitivity; [| exact Hname].
    rewrite <- (take_drop k stem) at 1. rewrite append_assoc.
    replace (rfind "/" stem + 1) with (Z.of_nat (String.length (take_n k stem)))
      by (rewrite length_take_n by exact Hk; unfold k; lia).
    replace (Z.to_nat (Z.of_nat (String.length stem)
                       - Z.of_nat (String.length (take_n k stem))))
      with (String.length (drop_n k stem)).
    - apply splitext_scan_spec.
    - rewrite length_take_n by exact Hk.
      pose proof (f_equal String.length (take_drop k stem)) as Hlen.
      rewrite length_append, length_take_n in Hlen by exact Hk. lia. }
  rewrite Hscan. simpl andb. cbv iota.
  unfold slice_to, slice_from. rewrite Nat2Z.id.
  now rewrite take_n_app, drop_n_app.
Qed.

(** A name with no dot has no extension. *)
Lemma splitext_no_dot (p : string) :
  contains "." p = false -> splitext p = (p, EmptyString).
Proof.
  intros H. change "." with (chr ".") in H.
  rewrite contains_char, <- has_char_eqb_sym in H.
  unfold splitext, rfind. rewrite (rfind_from_absent "." p 0 (-1) H).
  pose proof (rfind_from_lower_bound "/" p 0 (-1) ltac:(lia) ltac:(lia)) as Hsep.
  replace (rfind_from "/" p 0 (-1) <? -1) with false; [reflexivity |].
  symmetry. apply Z.ltb_ge. exact Hsep.
Qed.

Lemma content_types_other (ext : string) :
  ext ≠ ".pdf" -> ext ≠ ".mp3" -> ext ≠ ".txt" -> ext ≠ ".json" ->
  content_types !! ext = None.
Proof.
  intros H1 H2 H3 H4. unfold content_types.
  rewrite !lookup_insert_ne by congruence. apply lookup_empty.
Qed.

(** C6.  [get_content_type] looks at the extension [splitext] gives, in lower
    case: ".pdf" gives application/pdf, ".mp3" audio/mpeg, ".txt" text/plain,
    ".json" application/json, and every other extension gives
    application/octet-stream; so does a name with no dot at all.  The
    extension of [stem.e] is [.e] when [e] holds no dot and no slash and the
    last component of [stem] is not made of dots only. *)
Theorem get_content_type_by_extension (filename : string) :
  let ext := lower (snd (splitext filename)) in
  (ext = ".pdf" -> get_content_type filename = "application/pdf")
  ∧ (ext = ".mp3" -> get_content_type filename = "audio/mpeg")
  ∧ (ext = ".txt" -> get_content_type filename = "text/plain")
  ∧ (ext = ".json" -> get_content_type filename = "application/json")
  ∧ (ext ≠ ".pdf" -> ext ≠ ".mp3" -> ext ≠ ".txt" -> ext ≠ ".json" ->
     get_content_type filename = "application/octet-stream")
  ∧ (contains "." filename = false ->
     get_content_type filename = "application/octet-stream")
  ∧ (∀ stem e,
       filename = stem ++ "." ++ e ->
       contains "." e = false ->
       contains "/" e = false ->
       has_char (fun c => negb (Ascii.eqb c ".")) (basename stem) = true ->
       snd (splitext filename) = "." ++ e).
Proof.
  intros ext. unfold get_content_type. fold ext.
  split; [| split; [| split; [| split; [| split; [| split]]]]].
  - intros ->. reflexivity.
  - intros ->. reflexivity.
  - intros ->. reflexivity.
  - intros ->. reflexivity.
  - intros H1 H2 H3 H4. now rewrite content_types_other.
  - intros H. subst ext. rewrite (splitext_no_dot filename H). reflexivity.
  - intros stem e -> Hdot Hslash Hname.
    change "." with (chr ".") in Hdot. change "/" with (chr "/") in Hslash.
    rewrite contains_char in Hdot, Hslash.
    now rewrite (splitext_shape stem e Hdot Hslash Hname).
Qed.

Lemma get_content_type_by_extension_witness :
  get_content_type "Tape.MP3" = "audio/mpeg"
  ∧ get_content_type "104-10001.pdf" = "application/pdf"
  ∧ get_content_type "README" = "application/octet-stream".
Proof.
  split; [| split].
  - exact (proj1 (proj2 (get_content_type_by_extension "Tape.MP3")) eq_refl).
  - exact (proj1 (get_content_type_by_extension "104-10001.pdf") eq_refl).
  - exact (proj1 (proj2 (proj2 (proj2 (proj2 (proj2
             (get_content_type_by_extension "README")))))) eq_refl).
Defined.

Example get_content_type_dotfile : get_content_type ".pdf" = "application/octet-stream".
Proof. reflexivity. Qed.

Example get_content_type_archive : get_content_type "a.tar.gz" = "application/octet-stream".
Proof. reflexivity. Qed.

End ContentTypeFacts.

(* ===================================================================== *)
(** * The downloader *)
(* ===================================================================== *)

Module DownloaderFacts.
Import PyStr OsPath Py ContentType Files Downloader PyStrFacts.

Lemma write_chunks_spec (cs : list string) (buffer : string) :
  write_chunks cs buffer = buffer ++ concat cs.
Proof.
  revert buffer.
  induction cs as [|chunk rest IH]; intros buffer; simpl.
  - now rewrite append_nil_r.
  - now rewrite IH, append_assoc.
Qed.

(** The buffer holds the whole body. *)
Lemma buffer_is_content (response : Response) :
  write_chunks (chunks response) EmptyString = content response.
Proof. now rewrite write_chunks_spec. Qed.

(** ** One run of [fetch_and_upload] *)

Lemma fetch_and_upload_ok (E : Env) (url filename key : string) (st : State)
    (response : Response) :
  session_get E url = inr response ->
  raise_for_status response = inr tt ->
  iter_content_error E url = None ->
  upload_error E key = None ->
  fetch_and_upload E url filename key st
  = (inr (true, filename, None),
     count_downloaded (len (content response))
       (put_object key
          (stored_object url filename (strftime E (clock st)) (content response))
          (called (S3Upload key (content response) true)
             (tick (called (HttpGet url) st))))).
Proof.
  intros Hget Hstatus Hiter Hup. unfold fetch_and_upload.
  rewrite Hget. simpl. rewrite Hstatus. simpl. rewrite Hiter, Hup.
  rewrite buffer_is_content. reflexivity.
Qed.

Lemma fetch_and_upload_inv (E : Env) (url filename key : string) (st st' : State)
    (res : result outcome) :
  fetch_and_upload E url filename key st = (res, st') ->
  (∃ response,
      session_get E url = inr response
      ∧ raise_for_status response = inr tt
      ∧ iter_content_error E url = None
      ∧ upload_error E key = None
      ∧ res = inr (true, filename, None)
      ∧ st' = count_downloaded (len (content response))
                (put_object key
                   (stored_object url filename (strftime E (clock st)) (content response))
                   (called (S3Upload key (content response) true)
                      (tick (called (HttpGet url) st)))))
  ∨ (∃ e, res = inl e
          ∧ (st' = called (HttpGet url) st
             ∨ ∃ body, st' = called (S3Upload key body false)
                               (tick (called (HttpGet url) st)))).
Proof.
  unfold fetch_and_upload.
  destruct (session_get E url) as [e|response] eqn:Hget; simpl.
  { intros [= <- <-]. right. exists e. split; [reflexivity | now left]. }
  destruct (raise_for_status response) as [e|[]] eqn:Hstatus; simpl.
  { intros [= <- <-]. right. exists e. split; [reflexivity | now left]. }
  destruct (iter_content_error E url) as [e|] eqn:Hiter.
  { intros [= <- <-]. right. exists e. split; [reflexivity | now left]. }
  destruct (upload_error E key) as [e|] eqn:Hup.
  { intros [= <- <-]. right. exists e. split; [reflexivity |]. right. now eexists. }
  intros [= <- <-]. left. exists response.
  rewrite buffer_is_content. repeat split; assumption.
Qed.

(** ** One run, once the file name is known *)

Section OneUrl.

Variable E : Env.
Variables url filename s3_key_prefix : string.
Variable st : State.

Local Abbreviation s3_key := (s3_key_prefix ++ filename).
Local Abbreviation st1 := (called (HttpHead url) st).
Local Abbreviation st2 :=
  (called (S3HeadObject (s3_key_prefix ++ filename)) (called (HttpHead url) st)).
Local Abbreviation stored body :=
  (stored_object url filename (strftime E (clock st)) body).

(** The object is there with the announced size: nothing is fetched. *)
Lemma download_skips (remote_size : Z) (o : S3Object) :
  get_remote_size E url = inr remote_size ->
  head_object_error E s3_key = None ->
  bucket st !! s3_key = Some o ->
  s3_size o = remote_size ->
  download_as E url filename s3_key_prefix st
  = ((true, filename, Some ALREADY), st2).
Proof.
  intros Hsize Herr Hobj Heq.
  unfold download_as. rewrite Hsize.
  unfold head_object. rewrite Herr. simpl. rewrite Hobj. simpl.
  unfold s3_size in Heq. rewrite Heq, Z.eqb_refl. reflexivity.
Qed.

(** The object is absent, or has another size: the file is fetched. *)
Lemma download_fetches (remote_size : Z) :
  get_remote_size E url = inr remote_size ->
  head_object_error E s3_key = None ->
  (bucket st !! s3_key = None
   ∨ ∃ o, bucket st !! s3_key = Some o ∧ s3_size o ≠ remote_size) ->
  download_as E url filename s3_key_prefix st
  = match fetch_and_upload E url filename s3_key st2 with
    | (inr r, st') => (r, st')
    | (inl e, st') => handle filename e st'
    end.
Proof.
  intros Hsize Herr Hobj.
  unfold download_as. rewrite Hsize.
  unfold head_object. rewrite Herr. simpl.
  destruct Hobj as [Hnone | (o & Hsome & Hne)].
  - rewrite Hnone. reflexivity.
  - rewrite Hsome. simpl. unfold s3_size in Hne.
    apply Z.eqb_neq in Hne. rewrite Hne. reflexivity.
Qed.

(** Every run is one of three: skipped, uploaded, failed. *)
Lemma download_inv (r : outcome) (st' : State) :
  download_as E url filename s3_key_prefix st = (r, st') ->
  (r = (true, filename, Some ALREADY) ∧ st' = st2)
  ∨ (∃ response,
        session_get E url = inr response
        ∧ raise_for_status response = inr tt
        ∧ r = (true, filename, None)
        ∧ st' = count_downloaded (len (content response))
                  (put_object s3_key (stored (content response))
                     (called (S3Upload s3_key (content response) true)
                        (tick (called (HttpGet url) st2)))))
  ∨ (∃ msg st0,
        r = (false, filename, Some msg)
        ∧ st' = count_failed st0
        ∧ (st0 = st1 ∨ st0 = st2 ∨ st0 = called (HttpGet url) st2
           ∨ ∃ body, st0 = called (S3Upload s3_key body false)
                             (tick (called (HttpGet url) st2)))).
Proof.
  assert (Hhandle : ∀ e st0, ∃ msg,
             handle filename e st0 = ((false, filename, Some msg), count_failed st0))
    by (intros e st0; destruct e; now eexists).
  assert (Hfetch : ∀ r st',
    match fetch_and_upload E url filename s3_key st2 with
    | (inr r0, st'0) => (r0, st'0)
    | (inl e, st'0) => handle filename e st'0
    end = (r, st') ->
    (∃ response,
        session_get E url = inr response
        ∧ raise_for_status response = inr tt
        ∧ r = (true, filename, None)
        ∧ st' = count_downloaded (len (content response))
                  (put_object s3_key (stored (content response))
                     (called (S3Upload s3_key (content response) true)
                        (tick (called (HttpGet url) st2)))))
    ∨ (∃ msg st0,
        r = (false, filename, Some msg)
        ∧ st' = count_failed st0
        ∧ (st0 = st1 ∨ st0 = st2 ∨ st0 = called (HttpGet url) st2
           ∨ ∃ body, st0 = called (S3Upload s3_key body false)
                             (tick (called (HttpGet url) st2))))).
  { clear r st'. intros r st'.
    destruct (fetch_and_upload E url filename s3_key st2) as [res st''] eqn:Hf.
    apply fetch_and_upload_inv in Hf
      as [(response & Hget & Hstatus & _ & _ & -> & ->) | (e & -> & Hst)].
    - intros [= <- <-]. left. exists response. repeat split; assumption.
    - destruct (Hhandle e st'') as [msg Hmsg]. rewrite Hmsg.
      intros [= <- <-]. right. exists msg, st''. repeat split.
      destruct Hst as [-> | [body ->]]; [now right; right; left |].
      right; right; right. now exists body. }
  unfold download_as.
  destruct (get_remote_size E url) as [e|remote_size] eqn:Hsize.
  { destruct e as [m|code m|m].
    - intros [= <- <-]. right; right. eexists _, st1. repeat split. now left.
    - destruct (Hhandle (ClientError code m) st1) as [msg Hmsg]. rewrite Hmsg.
      intros [= <- <-]. right; right. exists msg, st1. repeat split. now left.
    - destruct (Hhandle (OtherException m) st1) as [msg Hmsg]. rewrite Hmsg.
      intros [= <- <-]. right; right. exists msg, st1. repeat split. now left. }
  destruct (head_object E (bucket st2) s3_key) as [e|obj] eqn:Hobj.
  - destruct e as [m|code m|m].
    + destruct (Hhandle (RequestException m) st2) as [msg Hmsg]. rewrite Hmsg.
      intros [= <- <-]. right; right. exists msg, st2. repeat split. now right; left.
    + destruct (negb (code =? "404")%string).
      * destruct (Hhandle (ClientError code m) st2) as [msg Hmsg]. rewrite Hmsg.
        intros [= <- <-]. right; right. exists msg, st2. repeat split. now right; left.
      * intros H. right. now apply Hfetch.
    + destruct (Hhandle (OtherException m) st2) as [msg Hmsg]. rewrite Hmsg.
      intros [= <- <-]. right; right. exists msg, st2. repeat split. now right; left.
  - destruct (default (-1) obj =? remote_size).
    + intros [= <- <-]. now left.
    + intros H. right. now apply Hfetch.
Qed.

End OneUrl.

(** ** The call, from the URL *)

(** A call that returned parsed its URL, and ran with the base name of the
    path. *)
Lemma download_returned (E : Env) (url p : string) (st st' : State) (r : outcome) :
  download_and_upload_file E url p st = (Some r, st')
  <-> ∃ path, urlparse_path E url = inr path
              ∧ download_as E url (basename path) p st = (r, st').
Proof.
  unfold download_and_upload_file.
  destruct (urlparse_path E url) as [m | path].
  - split; [discriminate | intros (path & [=] & _)].
  - destruct (download_as E url (basename path) p st) as [r0 st0] eqn:Hrun.
    split.
    + intros [= <- <-]. now exists path.
    + intros (path' & [= <-] & Hrun'). rewrite Hrun in Hrun'.
      now injection Hrun' as <- <-.
Qed.

(** A call that raised left everything as it was: [urlparse] refused the
    URL. *)
Lemma download_raised (E : Env) (url p : string) (st st' : State) :
  download_and_upload_file E url p st = (None, st')
  <-> (∃ msg, urlparse_path E url = inl msg) ∧ st' = st.
Proof.
  unfold download_and_upload_file.
  destruct (urlparse_path E url) as [m | path].
  - split; [intros [= <-]; split; [now exists m | reflexivity] | now intros [_ ->]].
  - destruct (download_as E url (basename path) p st) as [r0 st0].
    split; [discriminate | intros [(m & [=]) _]].
Qed.

Lemma download_parsed (E : Env) (url p path : string) (st : State) :
  urlparse_path E url = inr path ->
  download_and_upload_file E url p st
  = (Some (fst (download_as E url (basename path) p st)),
     snd (download_as E url (basename path) p st)).
Proof.
  intros Hpath. unfold download_and_upload_file. rewrite Hpath.
  now destruct (download_as E url (basename path) p st).
Qed.

(** ** The requests of a run *)

Lemma new_calls_app (st st' : State) (new : list Call) :
  calls st' = (calls st ++ new)%list -> new_calls st st' = new.
Proof. intros H. unfold new_calls. rewrite H. apply drop_app_length. Qed.


(** What a run adds to the requests, in each of its three kinds. *)
Lemma download_new_calls (E : Env) (url filename p : string) (st st' : State)
    (r : outcome) :
  download_as E url filename p st = (r, st') ->
  let key := p ++ filename in
  (skipped r = true ∧ bucket st' = bucket st ∧ clock st' = clock st
   ∧ new_calls st st' = [HttpHead url; S3HeadObject key])
  ∨ (∃ response,
        session_get E url = inr response
        ∧ uploaded r = true
        ∧ bucket st'
          = <[key := stored_object url filename (strftime E (clock st))
                       (content response)]> (bucket st)
        ∧ clock st' = S (clock st)
        ∧ new_calls st st'
          = [HttpHead url; S3HeadObject key; HttpGet url;
             S3Upload key (content response) true])
  ∨ (failed r = true ∧ bucket st' = bucket st
     ∧ ∀ k b, ¬ In (S3Upload k b true) (new_calls st st')).
Proof.
  intros H key. apply download_inv in H.
  destruct H as [[-> ->] | [(response & Hget & _ & -> & ->) | (msg & st0 & -> & -> & Hst0)]].
  - left. repeat split. apply new_calls_app. simpl. now rewrite <- app_assoc.
  - right; left. exists response. repeat split; [assumption |].
    apply new_calls_app. simpl. now rewrite <- !app_assoc.
  - right; right. repeat split.
    + destruct Hst0 as [-> | [-> | [-> | [body ->]]]]; reflexivity.
    + intros k b Hin.
      destruct Hst0 as [-> | [-> | [-> | [body ->]]]];
        (erewrite new_calls_app in Hin; [| simpl; rewrite <- ?app_assoc; reflexivity]);
        simpl in Hin; intuition discriminate.
Qed.

(** The two ways of a run whose HEAD request announced a size and whose
    bucket answered. *)
Lemma skip_or_download_cases (E : Env) (url filename p : string) (st st' : State)
    (remote_size : Z) (r : outcome) :
  let key := p ++ filename in
  get_remote_size E url = inr remote_size ->
  head_object_error E key = None ->
  download_as E url filename p st = (r, st') ->
  (∀ o, bucket st !! key = Some o -> s3_size o = remote_size ->
        r = (true, filename, Some ALREADY)
        ∧ bucket st' = bucket st
        ∧ new_calls st st' = [HttpHead url; S3HeadObject key])
  ∧ ((bucket st !! key = None
      ∨ ∃ o, bucket st !! key = Some o ∧ s3_size o ≠ remote_size) ->
     (r = (true, filename, None) ∨ ∃ msg, r = (false, filename, Some msg))
     ∧ In (HttpGet url) (new_calls st st')
     ∧ ∀ response,
         session_get E url = inr response ->
         raise_for_status response = inr tt ->
         iter_content_error E url = None ->
         upload_error E key = None ->
         r = (true, filename, None)
         ∧ bucket st' !! key
           = Some (stored_object url filename (strftime E (clock st)) (content response))
         ∧ In (S3Upload key (content response) true) (new_calls st st')).
Proof.
  intros key Hsize Herr Hrun. split.
  - intros o Hobj Heq.
    rewrite (download_skips E url filename p st remote_size o Hsize Herr Hobj Heq) in Hrun.
    injection Hrun as <- <-. repeat split.
    apply new_calls_app. simpl. now rewrite <- app_assoc.
  - intros Hobj.
    rewrite (download_fetches E url filename p st remote_size Hsize Herr Hobj) in Hrun.
    fold key in Hrun.
    destruct (fetch_and_upload E url filename key
                (called (S3HeadObject key) (called (HttpHead url) st)))
      as [res st''] eqn:Hf.
    split; [| split].
    + apply fetch_and_upload_inv in Hf
        as [(response & _ & _ & _ & _ & -> & ->) | (e & -> & Hst)].
      * injection Hrun as <- <-. now left.
      * right. destruct e; injection Hrun as <- <-; now eexists.
    + apply fetch_and_upload_inv in Hf
        as [(response & _ & _ & _ & _ & -> & ->) | (e & -> & Hst)].
      * injection Hrun as <- <-.
        erewrite new_calls_app; [| simpl; rewrite <- !app_assoc; reflexivity].
        simpl. tauto.
      * assert (Hcalls : calls st' = calls st'')
          by (destruct e; now injection Hrun as <- <-).
        unfold new_calls. rewrite Hcalls.
        destruct Hst as [-> | [body ->]]; simpl;
          rewrite <- ?app_assoc, drop_app_length; simpl; tauto.
    + intros response Hget Hstatus Hiter Hup.
      rewrite (fetch_and_upload_ok E url filename key _ response Hget Hstatus Hiter Hup)
        in Hf.
      injection Hf as <- <-. injection Hrun as <- <-.
      repeat split.
      * simpl. apply lookup_insert_eq.
      * erewrite new_calls_app; [| simpl; rewrite <- !app_assoc; reflexivity].
        simpl. tauto.
Qed.

(** C1.  For a call that returned, with the HEAD request announcing a size
    and the bucket answering: if the object of key prefix + basename is
    there and its size is the announced one, the result is success, the
    bucket is as before and the only requests are the two HEADs; otherwise
    (the object is absent or its size differs) the file is requested with
    GET, and once that request and the upload go through the whole body is
    stored under that key. *)
Theorem skip_or_download (E : Env) (url p path : string) (st st' : State)
    (remote_size : Z) (r : outcome) :
  let filename := basename path in
  let key := p ++ filename in
  urlparse_path E url = inr path ->
  get_remote_size E url = inr remote_size ->
  head_object_error E key = None ->
  download_and_upload_file E url p st = (Some r, st') ->
  (∀ o, bucket st !! key = Some o -> s3_size o = remote_size ->
        r = (true, filename, Some ALREADY)
        ∧ bucket st' = bucket st
        ∧ new_calls st st' = [HttpHead url; S3HeadObject key])
  ∧ ((bucket st !! key = None
      ∨ ∃ o, bucket st !! key = Some o ∧ s3_size o ≠ remote_size) ->
     In (HttpGet url) (new_calls st st')
     ∧ ∀ response,
         session_get E url = inr response ->
         raise_for_status response = inr tt ->
         iter_content_error E url = None ->
         upload_error E key = None ->
         r = (true, filename, None)
         ∧ bucket st' !! key
           = Some (stored_object url filename (strftime E (clock st)) (content response))
         ∧ Body (stored_object url filename (strftime E (clock st)) (content response))
           = concat (chunks response)
         ∧ In (S3Upload key (content response) true) (new_calls st st')).
Proof.
  intros filename key Hpath Hsize Herr Hrun.
  apply download_returned in Hrun as (path' & Hpath' & Hrun).
  rewrite Hpath in Hpath'. injection Hpath' as <-. fold filename in Hrun.
  destruct (skip_or_download_cases E url filename p st st' remote_size r Hsize Herr Hrun)
    as [Hskip Hfetch].
  split; [exact Hskip |].
  intros Hobj. destruct (Hfetch Hobj) as (_ & Hget & Hup).
  split; [exact Hget |].
  intros response H1 H2 H3 H4. destruct (Hup response H1 H2 H3 H4) as (-> & ? & ?).
  repeat split; assumption.
Qed.


(** C9.  When the HEAD response carries no Content-Length the announced size
    is taken to be 0: a stored object makes the run skip exactly when its
    reported size is 0; with any other size, or with none reported (taken
    to be -1), the file is requested again, and once that request and the
    upload go through it is stored again. *)
Theorem missing_length_is_zero (E : Env) (url p path : string) (st st' : State)
    (head_response : Response) (r : outcome) (o : S3Object) :
  let filename := basename path in
  let key := p ++ filename in
  urlparse_path E url = inr path ->
  session_head E url = inr head_response ->
  raise_for_status head_response = inr tt ->
  content_length_header head_response = None ->
  head_object_error E key = None ->
  bucket st !! key = Some o ->
  download_and_upload_file E url p st = (Some r, st') ->
  get_remote_size E url = inr 0
  ∧ (r = (true, filename, Some ALREADY) <-> ContentLength o = Some 0)
  ∧ (ContentLength o = Some 0 ->
     bucket st' = bucket st ∧ new_calls st st' = [HttpHead url; S3HeadObject key])
  ∧ (ContentLength o = None -> s3_size o = -1)
  ∧ (ContentLength o ≠ Some 0 ->
     In (HttpGet url) (new_calls st st')
     ∧ ∀ response,
         session_get E url = inr response ->
         raise_for_status response = inr tt ->
         iter_content_error E url = None ->
         upload_error E key = None ->
         r = (true, filename, None)
         ∧ bucket st' !! key
           = Some (stored_object url filename (strftime E (clock st)) (content response))).
Proof.
  intros filename key Hpath Hhead Hstatus Hnolen Herr Hobj Hrun.
  apply download_returned in Hrun as (path' & Hpath' & Hrun).
  rewrite Hpath in Hpath'. injection Hpath' as <-. fold filename in Hrun.
  assert (Hsize : get_remote_size E url = inr 0).
  { unfold get_remote_size. rewrite Hhead. simpl. rewrite Hstatus. simpl.
    now rewrite Hnolen. }
  assert (Hzero : ContentLength o = Some 0 <-> s3_size o = 0).
  { unfold s3_size. destruct (ContentLength o) as [n|]; simpl; split; intros H;
      first [congruence | lia | discriminate]. }
  destruct (skip_or_download_cases E url filename p st st' 0 r Hsize Herr Hrun)
    as [Hskip Hfetch].
  fold key in Hskip, Hfetch.
  split; [exact Hsize |]. split; [| split; [| split]].
  - split.
    + intros ->. apply Hzero.
      destruct (Z.eq_dec (s3_size o) 0) as [Heq | Hne]; [exact Heq | exfalso].
      destruct (Hfetch (or_intror (ex_intro _ o (conj Hobj Hne)))) as [Hmade _].
      destruct Hmade as [Hr | (msg & Hr)]; discriminate Hr.
    + intros H. apply Hzero in H. now destruct (Hskip o Hobj H) as (-> & _).
  - intros H. apply Hzero in H. now destruct (Hskip o Hobj H) as (_ & ? & ?).
  - intros H. unfold s3_size. now rewrite H.
  - intros H.
    assert (Hne : s3_size o ≠ 0) by (intros Heq; apply H; now apply Hzero).
    destruct (Hfetch (or_intror (ex_intro _ o (conj Hobj Hne)))) as (_ & Hget & Hup).
    split; [exact Hget |].
    intros response H1 H2 H3 H4. destruct (Hup response H1 H2 H3 H4) as (-> & ? & _).
    now split.
Qed.

(** ** The counters over a list of URLs *)


(** A result is of exactly one kind. *)
Lemma outcome_kinds (r : outcome) :
  (if uploaded r then 1 else 0) + (if skipped r then 1 else 0)
  + (if failed r then 1 else 0) = 1.
Proof. destruct r as [[[|] name] [msg|]]; reflexivity. Qed.




(** ** The statements at concrete inputs *)

Import Samples MoreSamples.


(** A URL that [urlparse] refuses: the call raises, and the downloader is
    as it was. *)
Example refused_url_raises :
  sample_urlparse_path url_bad = inl "Invalid IPv6 URL"
  ∧ download_and_upload_file archive_env url_bad "mlk-archive/" (new_downloader ∅)
    = (None, new_downloader ∅).
Proof. vm_compute. split; reflexivity. Qed.

(** What went wrong is reported, counted, and nothing is stored. *)
Example unreachable_url_fails :
  download_and_upload_file archive_env "https://elsewhere.example/x.pdf" "mlk-archive/"
    (new_downloader ∅)
  = (Some (false, "x.pdf", Some "Failed to fetch headers for x.pdf: ConnectionError"),
     count_failed (called (HttpHead "https://elsewhere.example/x.pdf") (new_downloader ∅))).
Proof. vm_compute. reflexivity. Qed.

Example failed_get_stores_nothing :
  fst (download_and_upload_file archive_env url_c "mlk-archive/" (new_downloader ∅))
  = Some (false, "c.pdf",
          Some ("Download error: 500 Server Error: Internal Server Error for url: "
                ++ url_c))
  ∧ bucket (snd (download_and_upload_file archive_env url_c "mlk-archive/"
                   (new_downloader ∅))) = ∅.
Proof. vm_compute. split; reflexivity. Qed.

Example other_size_is_fetched_again :
  fst (download_and_upload_file archive_env url_b "mlk-archive/"
         (new_downloader bucket_b_three))
  = Some (true, "b.pdf", None).
Proof. vm_compute. reflexivity. Qed.


Lemma skip_or_download_witness :
  new_calls (new_downloader bucket_a_whole)
    (snd (download_and_upload_file archive_env url_a "mlk-archive/"
            (new_downloader bucket_a_whole)))
  = [HttpHead url_a; S3HeadObject "mlk-archive/a.pdf"]
  ∧ bucket (snd (download_and_upload_file archive_env url_a "mlk-archive/"
                   (new_downloader bucket_a_short))) !! "mlk-archive/a.pdf"
    = Some (stored_object url_a "a.pdf" "2025-07-22 13:38:07" "hello").
Proof.
  split.
  - destruct (skip_or_download archive_env url_a "mlk-archive/" "/files/a.pdf"
                (new_downloader bucket_a_whole)
                (snd (download_and_upload_file archive_env url_a "mlk-archive/"
                        (new_downloader bucket_a_whole)))
                5
                (true, "a.pdf", Some ALREADY))
      as [Hskip _].
    + vm_compute. reflexivity.
    + vm_compute. reflexivity.
    + reflexivity.
    + vm_compute. reflexivity.
    + destruct (Hskip (object_of_size "hello" (Some 5))) as (_ & _ & Hcalls).
      * vm_compute. reflexivity.
      * reflexivity.
      * exact Hcalls.
  - destruct (skip_or_download archive_env url_a "mlk-archive/" "/files/a.pdf"
                (new_downloader bucket_a_short)
                (snd (download_and_upload_file archive_env url_a "mlk-archive/"
                        (new_downloader bucket_a_short)))
                5
                (true, "a.pdf", None))
      as [_ Hfetch].
    + vm_compute. reflexivity.
    + vm_compute. reflexivity.
    + reflexivity.
    + vm_compute. reflexivity.
    + destruct Hfetch as (_ & Hup).
      * right. exists (object_of_size "he" (Some 2)). split.
        { vm_compute. reflexivity. }
        { vm_compute. discriminate. }
      * destruct (Hup (ok_response url_a ["he"; "llo"])) as (_ & Hstored & _);
          [reflexivity | reflexivity | reflexivity | reflexivity |].
        exact Hstored.
Defined.


Lemma missing_length_is_zero_witness :
  new_calls (new_downloader bucket_b_empty)
    (snd (download_and_upload_file archive_env url_b "mlk-archive/"
            (new_downloader bucket_b_empty)))
  = [HttpHead url_b; S3HeadObject "mlk-archive/b.pdf"]
  ∧ bucket (snd (download_and_upload_file archive_env url_b "mlk-archive/"
                   (new_downloader bucket_b_unsized))) !! "mlk-archive/b.pdf"
    = Some (stored_object url_b "b.pdf" "2025-07-22 13:38:07" "xyz").
Proof.
  split.
  - destruct (missing_length_is_zero archive_env url_b "mlk-archive/" "/files/b.pdf"
                (new_downloader bucket_b_empty)
                (snd (download_and_upload_file archive_env url_b "mlk-archive/"
                        (new_downloader bucket_b_empty)))
                (response_of 200 "OK" url_b None [])
                (true, "b.pdf", Some ALREADY)
                (object_of_size EmptyString (Some 0)))
      as (_ & _ & Hskip & _).
    + vm_compute. reflexivity.
    + vm_compute. reflexivity.
    + reflexivity.
    + reflexivity.
    + reflexivity.
    + vm_compute. reflexivity.
    + vm_compute. reflexivity.
    + destruct Hskip as [_ Hcalls]; [reflexivity | exact Hcalls].
  - destruct (missing_length_is_zero archive_env url_b "mlk-archive/" "/files/b.pdf"
                (new_downloader bucket_b_unsized)
                (snd (download_and_upload_file archive_env url_b "mlk-archive/"
                        (new_downloader bucket_b_unsized)))
                (response_of 200 "OK" url_b None [])
                (true, "b.pdf", None)
                (object_of_size "xyz" None))
      as (_ & _ & _ & _ & Hfetch).
    + vm_compute. reflexivity.
    + vm_compute. reflexivity.
    + reflexivity.
    + reflexivity.
    + reflexivity.
    + vm_compute. reflexivity.
    + vm_compute. reflexivity.
    + destruct Hfetch as (_ & Hup); [discriminate |].
      destruct (Hup (ok_response url_b ["xyz"])) as (_ & Hstored);
        [reflexivity | reflexivity | reflexivity | reflexivity |].
      exact Hstored.
Defined.

End DownloaderFacts.

(* ===================================================================== *)
(** * More on strings: [split], [strip], [int] *)
(* ===================================================================== *)

Module PyStrMore.
Import PyStr PyStrFacts DownloaderProgram.

(** A piece that holds no separator, followed by a separator: the piece is
    cut off. *)
Lemma split_piece (sep : ascii -> bool) (u rest : string) (c : ascii) :
  has_char sep u = false -> sep c = true ->
  split sep (u ++ String c rest) = u :: split sep rest.
Proof.
  intros Hu Hc.
  induction u as [|a u IH].
  - rewrite append_nil_l. simpl. now rewrite Hc.
  - simpl in Hu. apply orb_false_iff in Hu as [Ha Hu].
    rewrite append_cons. simpl. rewrite Ha, (IH Hu). reflexivity.
Qed.

(** No piece of a split holds a separator. *)
Lemma split_pieces_clean (sep : ascii -> bool) (s : string) :
  Forall (fun piece => has_char sep piece = false) (split sep s).
Proof.
  induction s as [|c s IH]; simpl.
  - repeat constructor.
  - destruct (sep c) eqn:Ec.
    + constructor; [reflexivity | exact IH].
    + destruct (split sep s) as [|w ws]; [repeat constructor; simpl; now rewrite Ec |].
      inversion IH as [|? ? Hw Hws]; subst.
      constructor; [simpl; now rewrite Ec, Hw | exact Hws].
Qed.

(** ** [strip] *)

Lemma lstrip_starts_clean (s : string) : starts_clean (lstrip s).
Proof.
  induction s as [|c s IH]; simpl; [exact I |].
  destruct (isspace c) eqn:Ec; [exact IH | exact Ec].
Qed.

Lemma lstrip_fixed (s : string) : starts_clean s -> lstrip s = s.
Proof. destruct s as [|c s]; simpl; [reflexivity |]. now intros ->. Qed.

Lemma rstrip_starts_clean (s : string) : starts_clean s -> starts_clean (rstrip s).
Proof.
  destruct s as [|c s]; simpl; [exact id |].
  intros Hc. destruct (rstrip s); [rewrite Hc |]; exact Hc.
Qed.

Lemma rstrip_idempotent (s : string) : rstrip (rstrip s) = rstrip s.
Proof.
  induction s as [|c s IH]; [reflexivity |].
  simpl. destruct (rstrip s) as [|d r] eqn:Er.
  - destruct (isspace c) eqn:Ec; [reflexivity |].
    simpl. now rewrite Ec.
  - change (rstrip (String c (String d r))) with
      (match rstrip (String d r) with
       | EmptyString => if isspace c then EmptyString else chr c
       | r' => String c r'
       end).
    now rewrite IH.
Qed.

Lemma strip_idempotent (s : string) : strip (strip s) = strip s.
Proof.
  unfold strip.
  rewrite (lstrip_fixed (rstrip (lstrip s)))
    by (apply rstrip_starts_clean, lstrip_starts_clean).
  apply rstrip_idempotent.
Qed.

(** Stripping only takes characters away. *)
Lemma has_char_lstrip (p : ascii -> bool) (s : string) :
  has_char p s = false -> has_char p (lstrip s) = false.
Proof.
  induction s as [|c s IH]; simpl; [reflexivity |].
  intros H. apply orb_false_iff in H as [Hc Hs].
  destruct (isspace c); [now apply IH | simpl; now rewrite Hc, Hs].
Qed.

Lemma has_char_rstrip (p : ascii -> bool) (s : string) :
  has_char p s = false -> has_char p (rstrip s) = false.
Proof.
  induction s as [|c s IH]; simpl; [reflexivity |].
  intros H. apply orb_false_iff in H as [Hc Hs].
  specialize (IH Hs).
  destruct (rstrip s) as [|d r].
  - destruct (isspace c); [reflexivity | simpl; now rewrite Hc].
  - simpl. simpl in IH. now rewrite Hc, IH.
Qed.

Lemma has_char_strip (p : ascii -> bool) (s : string) :
  has_char p s = false -> has_char p (strip s) = false.
Proof. intros H. unfold strip. now apply has_char_rstrip, has_char_lstrip. Qed.

End PyStrMore.

(* ===================================================================== *)
(** * The URL file, written by the scraper and read by the downloader *)
(* ===================================================================== *)

Module UrlFileFacts.
Import PyStr Files Scraper Downloader DownloaderProgram PyStrFacts PyStrMore
       FilesFacts ScraperFacts.

Lemma read_urls_unfold (text : string) :
  read_urls text
  = List.filter (fun line => negb (String.eqb line EmptyString))
      (map strip (split is_line_break text)).
Proof. reflexivity. Qed.

(** X1.  Every URL that [read_urls] returns is not empty, has no white space
    around it and holds no line break. *)
Theorem read_urls_clean (text : string) : Forall clean_url (read_urls text).
Proof.
  rewrite read_urls_unfold.
  pose proof (split_pieces_clean is_line_break text) as Hpieces.
  induction Hpieces as [|piece pieces Hpiece _ IH]; simpl; [constructor |].
  destruct (String.eqb_spec (strip piece) EmptyString) as [E | E]; simpl; [exact IH |].
  constructor; [| exact IH].
  split; [exact E |]. split; [apply strip_idempotent | now apply has_char_strip].
Qed.

(** The lines of a file made of clean URLs, each followed by a line feed. *)
Lemma read_urls_of_lines (urls : list string) :
  Forall clean_url urls ->
  read_urls (concat (map (fun u => u ++ chr LF) urls)) = urls.
Proof.
  intros Hurls. rewrite read_urls_unfold.
  induction Hurls as [|u urls (Hne & Hstrip & Hlb) _ IH]; [reflexivity |].
  simpl concat. rewrite append_assoc.
  change (chr LF ++ concat (map (fun u0 => u0 ++ chr LF) urls))
    with (String LF (concat (map (fun u0 => u0 ++ chr LF) urls))).
  rewrite (split_piece is_line_break u _ LF Hlb eq_refl).
  simpl. rewrite Hstrip.
  destruct (String.eqb_spec u EmptyString) as [E | _]; [contradiction |].
  simpl. now rewrite IH.
Qed.

(** The URL file of [save_records], whatever the format. *)
Lemma save_records_url_file (timestamp : string) (records : list record)
    (format : string) (f : fs) :
  records ≠ [] ->
  save_records timestamp records format f !! ("mlk_urls_" ++ timestamp ++ ".txt")
  = Some (concat (map (fun r => url r ++ chr LF) records)).
Proof.
  intros Hne. destruct records as [|r0 rest]; [congruence |].
  unfold save_records.
  rewrite (write_urls_lookup _ _ _ EmptyString); [reflexivity |].
  unfold open_w. apply lookup_insert_eq.
Qed.

Lemma url_file_text (timestamp : string) (records : list record)
    (format : string) (f : fs) :
  records ≠ [] ->
  Forall clean_url (map url records) ->
  ∃ text,
    save_records timestamp records format f !! ("mlk_urls_" ++ timestamp ++ ".txt")
    = Some text
    ∧ read_urls text = map url records.
Proof.
  intros Hne Hclean.
  eexists. split; [exact (save_records_url_file timestamp records format f Hne) |].
  rewrite <- (read_urls_of_lines (map url records) Hclean).
  f_equal. f_equal. now rewrite map_map.
Qed.

(** X2.  The URL file that [save_records] writes is read back by the
    downloader as the list of the records' urls, in order, when every url is
    clean (not empty, no white space around it, no line break in it). *)
Theorem url_file_round_trip (timestamp : string) (records : list record)
    (format : string) (f : fs) :
  records ≠ [] ->
  Forall clean_url (map url records) ->
  ∃ text,
    save_records timestamp records format f !! ("mlk_urls_" ++ timestamp ++ ".txt")
    = Some text
    ∧ read_urls text = map url records.
Proof.
  intros Hne Hclean. now apply url_file_text.
Qed.

Lemma url_file_round_trip_witness :
  ∃ text,
    save_records "20250722_133807" Samples.two_records "csv" ∅
      !! "mlk_urls_20250722_133807.txt" = Some text
    ∧ read_urls text
      = ["https://www.archives.gov/a.pdf"; "https://www.archives.gov/t.mp3"].
Proof.
  refine (url_file_round_trip "20250722_133807" Samples.two_records "csv" ∅ _ _).
  - discriminate.
  - repeat constructor; try discriminate; reflexivity.
Defined.

End UrlFileFacts.

(* ===================================================================== *)
(** * What the scraper writes, and what it leaves alone *)
(* ===================================================================== *)

Module ScraperFilesFacts.
Import PyStr Py Soup Files Scraper ScraperProgram PyStrFacts FilesFacts ScraperFacts
       UrlFileFacts.

Lemma save_records_csv_content (timestamp : string) (records : list record) (f : fs) :
  records ≠ [] ->
  save_records timestamp records "csv" f !! ("mlk_records_" ++ timestamp ++ ".csv")
  = Some (csv_header ++ concat (map csv_record records)).
Proof.
  intros Hne. destruct records as [|r0 rest]; [congruence |].
  unfold save_records. rewrite String.eqb_refl.
  rewrite write_urls_other by (apply urls_name_not_csv).
  unfold open_w at 1. rewrite lookup_insert_ne by (apply urls_name_not_csv).
  rewrite (writerows_lookup _ _ _ csv_header); [reflexivity |].
  rewrite write_lookup. unfold open_w. now rewrite lookup_insert_eq.
Qed.

Lemma save_records_json_content (timestamp : string) (records : list record) (f : fs) :
  records ≠ [] ->
  save_records timestamp records "json" f !! ("mlk_records_" ++ timestamp ++ ".json")
  = Some (json_dump records).
Proof.
  intros Hne. destruct records as [|r0 rest]; [congruence |].
  unfold save_records.
  replace ("json" =? "csv")%string with false by reflexivity.
  rewrite String.eqb_refl.
  rewrite write_urls_other by (apply urls_name_not_json).
  unfold open_w at 1. rewrite lookup_insert_ne by (apply urls_name_not_json).
  rewrite write_lookup. unfold open_w. now rewrite lookup_insert_eq.
Qed.

Lemma save_records_other (timestamp : string) (records : list record)
    (format name : string) (f : fs) :
  name ≠ "mlk_urls_" ++ timestamp ++ ".txt" ->
  (format = "csv" -> name ≠ "mlk_records_" ++ timestamp ++ ".csv") ->
  (format = "json" -> name ≠ "mlk_records_" ++ timestamp ++ ".json") ->
  save_records timestamp records format f !! name = f !! name.
Proof.
  intros Hurls Hcsv Hjson.
  destruct records as [|r0 rest]; [reflexivity |].
  unfold save_records.
  rewrite write_urls_other by congruence.
  unfold open_w at 1. rewrite lookup_insert_ne by congruence.
  destruct (String.eqb_spec format "csv") as [E | _].
  - specialize (Hcsv E).
    rewrite writerows_other by congruence.
    rewrite write_other by congruence.
    unfold open_w. now rewrite lookup_insert_ne by congruence.
  - destruct (String.eqb_spec format "json") as [E | _]; [| reflexivity].
    specialize (Hjson E).
    rewrite write_other by congruence.
    unfold open_w. now rewrite lookup_insert_ne by congruence.
Qed.

(** X3.  [save_records] touches two files at most: a file that is neither
    the URL file nor the records file of the format asked for is left as it
    was; with a format that is neither "csv" nor "json" only the URL file is
    written. *)
Theorem save_records_frame (timestamp : string) (records : list record)
    (format name : string) (f : fs) :
  name ≠ "mlk_urls_" ++ timestamp ++ ".txt" ->
  (format = "csv" -> name ≠ "mlk_records_" ++ timestamp ++ ".csv") ->
  (format = "json" -> name ≠ "mlk_records_" ++ timestamp ++ ".json") ->
  save_records timestamp records format f !! name = f !! name
  ∧ (format ≠ "csv" -> format ≠ "json" -> records ≠ [] ->
     dom (save_records timestamp records format f)
     = {["mlk_urls_" ++ timestamp ++ ".txt"]} ∪ dom f).
Proof.
  intros Hurls Hcsv Hjson. split; [now apply save_records_other |].
  intros H1 H2 Hne. destruct records as [|r0 rest]; [congruence |].
  apply set_eq. intros k. rewrite elem_of_union, elem_of_singleton, !elem_of_dom.
  destruct (decide (k = "mlk_urls_" ++ timestamp ++ ".txt")) as [-> | Hk].
  - rewrite save_records_url_file by discriminate. split; [now left | now eexists].
  - rewrite save_records_other by (first [exact Hk | intros; congruence]).
    split; [now right | intros [? | ?]; [contradiction | assumption]].
Qed.

Lemma save_records_frame_witness :
  save_records "20250722_133807" Samples.two_records "xml"
    (<["notes.txt" := "keep"]> ∅) !! "notes.txt" = Some "keep"
  ∧ save_records "20250722_133807" Samples.two_records "xml" ∅
      !! "mlk_records_20250722_133807.csv" = None.
Proof.
  split.
  - rewrite (proj1 (save_records_frame "20250722_133807" Samples.two_records "xml"
               "notes.txt" _ ltac:(discriminate) ltac:(discriminate)
               ltac:(discriminate))).
    reflexivity.
  - rewrite (proj1 (save_records_frame "20250722_133807" Samples.two_records "xml"
               "mlk_records_20250722_133807.csv" _ ltac:(discriminate)
               ltac:(discriminate) ltac:(discriminate))).
    reflexivity.
Defined.

(** ** Names of files *)

Lemma endswith_cons (suf : string) (c : ascii) (s : string) :
  endswith suf (String c s) = (String.eqb (String c s) suf || endswith suf s).
Proof. reflexivity. Qed.

Lemma endswith_app (a suf : string) : endswith suf (a ++ suf) = true.
Proof.
  induction a as [|c a IH].
  - rewrite append_nil_l. destruct suf; [reflexivity |].
    now rewrite endswith_cons, String.eqb_refl.
  - rewrite append_cons, endswith_cons. now rewrite IH, orb_true_r.
Qed.

Lemma json_name_not_csv_suffix (b : string) : endswith ".csv" (b ++ ".json") = false.
Proof.
  induction b as [|c b IH]; [reflexivity |].
  rewrite append_cons, endswith_cons. rewrite IH, orb_false_r.
  destruct (String.eqb_spec (String c (b ++ ".json")) ".csv") as [E | _]; [| reflexivity].
  apply (f_equal String.length) in E. simpl in E. rewrite length_append in E.
  simpl in E. lia.
Qed.

Lemma csv_name_not_json_name (ts1 ts2 : string) :
  "mlk_records_" ++ ts1 ++ ".csv" ≠ "mlk_records_" ++ ts2 ++ ".json".
Proof.
  intros H. apply (f_equal (endswith ".csv")) in H.
  rewrite <- !append_assoc in H.
  rewrite endswith_app, json_name_not_csv_suffix in H. discriminate.
Qed.

Lemma csv_name_not_urls_name (ts1 ts2 : string) :
  "mlk_records_" ++ ts1 ++ ".csv" ≠ "mlk_urls_" ++ ts2 ++ ".txt".
Proof. intros H. cbv in H. discriminate H. Qed.

Lemma urls_name_not_json_name (ts1 ts2 : string) :
  "mlk_urls_" ++ ts1 ++ ".txt" ≠ "mlk_records_" ++ ts2 ++ ".json".
Proof. intros H. cbv in H. discriminate H. Qed.

Section Main.

Variable urljoin : string -> string -> parsed string.
Variable urlparse_path : string -> parsed string.

(** X4.  When the scrape finds records, [main] leaves four files, or three
    when the clock did not move between the two calls: the CSV file of the
    first call, the JSON file of the second, and under the name of either
    call a URL file with the same list of urls. *)
Theorem main_writes_three_kinds (W : Web) (ts_csv ts_json : string) (f : fs) :
  let records := scrape_mlk_records urljoin urlparse_path W in
  let f' := main urljoin urlparse_path W ts_csv ts_json f in
  records ≠ [] ->
  f' !! ("mlk_records_" ++ ts_csv ++ ".csv")
  = Some (csv_header ++ concat (map csv_record records))
  ∧ f' !! ("mlk_records_" ++ ts_json ++ ".json") = Some (json_dump records)
  ∧ f' !! ("mlk_urls_" ++ ts_csv ++ ".txt")
    = Some (concat (map (fun r => url r ++ chr LF) records))
  ∧ f' !! ("mlk_urls_" ++ ts_json ++ ".txt")
    = Some (concat (map (fun r => url r ++ chr LF) records)).
Proof.
  intros records f' Hne. subst f'. unfold main. fold records.
  destruct records as [|r0 rest] eqn:Erec; [congruence |].
  rewrite <- Erec in *. clear Erec.
  split; [| split; [| split]].
  - rewrite save_records_other.
    + now apply save_records_csv_content.
    + apply csv_name_not_urls_name.
    + discriminate.
    + intros _. apply csv_name_not_json_name.
  - now apply save_records_json_content.
  - destruct (decide ("mlk_urls_" ++ ts_csv ++ ".txt" = "mlk_urls_" ++ ts_json ++ ".txt"))
      as [E | E].
    + rewrite E. now apply save_records_url_file.
    + rewrite save_records_other.
      * now apply save_records_url_file.
      * exact E.
      * discriminate.
      * intros _. apply urls_name_not_json_name.
  - now apply save_records_url_file.
Qed.

(** X5.  When the request, the status check or the parser raises, or when the
    page gives no record, [main] writes no file at all. *)
Theorem main_writes_nothing (W : Web) (ts_csv ts_json : string) (f : fs) :
  (∀ e, scrape_try urljoin urlparse_path W = inl e ->
        main urljoin urlparse_path W ts_csv ts_json f = f)
  ∧ (scrape_mlk_records urljoin urlparse_path W = [] ->
     main urljoin urlparse_path W ts_csv ts_json f = f).
Proof.
  split.
  - intros e He. unfold main, scrape_mlk_records. rewrite He. now destruct e.
  - intros H. unfold main. now rewrite H.
Qed.

End Main.

Import Samples.

Lemma main_writes_three_kinds_witness :
  main sample_urljoin sample_urlparse_path (web_of records_soup)
    "20250722_133807" "20250722_133808" ∅ !! "mlk_urls_20250722_133807.txt"
  = Some ("https://www.archives.gov/files/research/mlk/104-10001.pdf"
          ++ String LF EmptyString).
Proof.
  refine (proj1 (proj2 (proj2 (main_writes_three_kinds sample_urljoin
            sample_urlparse_path (web_of records_soup)
            "20250722_133807" "20250722_133808" ∅ _)))).
  vm_compute. discriminate.
Defined.

Lemma main_writes_nothing_witness :
  main sample_urljoin sample_urlparse_path web_503 "20250722_133807" "20250722_133808" ∅
  = ∅.
Proof.
  exact (proj1 (main_writes_nothing sample_urljoin sample_urlparse_path web_503
                  "20250722_133807" "20250722_133808" ∅)
           (RequestException
              ("503 Server Error: Service Unavailable for url: " ++ page_url))
           ltac:(vm_compute; reflexivity)).
Defined.

End ScraperFilesFacts.

(* ===================================================================== *)
(** * The downloader: what a run changes, failures, a second run *)
(* ===================================================================== *)

Module DownloaderMoreFacts.
Import PyStr OsPath Py ContentType Files Downloader DownloaderProgram
       PyStrFacts PyStrMore DownloaderFacts.

Lemma len_nonneg (s : string) : 0 <= len s.
Proof. unfold len. lia. Qed.

(** The state of a run against the state before it, kind by kind. *)
Lemma download_effect (E : Env) (url filename p : string) (st : State) :
  let key := p ++ filename in
  let r := fst (download_as E url filename p st) in
  let st' := snd (download_as E url filename p st) in
  (∃ new, calls st' = (calls st ++ HttpHead url :: new)%list)
  ∧ ((skipped r = true ∧ bucket st' = bucket st
      ∧ downloaded_count st' = downloaded_count st
      ∧ failed_count st' = failed_count st ∧ total_size st' = total_size st)
     ∨ (∃ body, uploaded r = true
          ∧ bucket st'
            = <[key := stored_object url filename (strftime E (clock st)) body]> (bucket st)
          ∧ downloaded_count st' = downloaded_count st + 1
          ∧ failed_count st' = failed_count st
          ∧ total_size st' = total_size st + len body)
     ∨ (failed r = true ∧ (∃ msg, snd r = Some msg) ∧ bucket st' = bucket st
        ∧ downloaded_count st' = downloaded_count st
        ∧ failed_count st' = failed_count st + 1 ∧ total_size st' = total_size st)).
Proof.
  intros key r st'.
  destruct (download_as E url filename p st) as [r0 st0] eqn:Hrun.
  subst r st'. simpl fst. simpl snd.
  apply download_inv in Hrun.
  destruct Hrun as [[-> ->] | [(response & _ & _ & -> & ->) | (msg & st1 & -> & -> & Hst1)]].
  - split.
    + eexists. simpl. rewrite <- app_assoc. reflexivity.
    + left. now repeat split.
  - split.
    + eexists. simpl. rewrite <- !app_assoc. reflexivity.
    + right; left. exists (content response). now repeat split.
  - split.
    + destruct Hst1 as [-> | [-> | [-> | [body ->]]]];
        eexists; simpl; rewrite <- ?app_assoc; reflexivity.
    + right; right.
      destruct Hst1 as [-> | [-> | [-> | [body ->]]]];
        (split; [reflexivity |]); (split; [now eexists |]); now repeat split.
Qed.

(** The keys a call leaves alone. *)
Lemma download_frame_keys (E : Env) (url p : string) (st : State) (k : string) :
  (∀ path, urlparse_path E url = inr path -> k ≠ p ++ basename path) ->
  bucket (snd (download_and_upload_file E url p st)) !! k = bucket st !! k.
Proof.
  intros Hk.
  destruct (urlparse_path E url) as [msg | path] eqn:Hpath.
  { unfold download_and_upload_file. now rewrite Hpath. }
  rewrite (download_parsed E url p path st Hpath). simpl snd.
  destruct (download_effect E url (basename path) p st) as [_ Hkind].
  destruct Hkind as [(_ & Hb & _) | [(body & _ & Hb & _) | (_ & _ & Hb & _)]];
    rewrite Hb; try reflexivity.
  apply lookup_insert_ne. intros Heq. now apply (Hk path eq_refl).
Qed.

(** X6.  A call changes the bucket at one key at most, prefix + basename of
    the URL's path (at none when [urlparse] refuses the URL); it never
    lowers a counter and never drops a request from the record of
    requests. *)
Theorem download_frame (E : Env) (url p : string) (st : State) :
  let st' := snd (download_and_upload_file E url p st) in
  (∀ k, (∀ path, urlparse_path E url = inr path -> k ≠ p ++ basename path) ->
        bucket st' !! k = bucket st !! k)
  ∧ downloaded_count st <= downloaded_count st'
  ∧ failed_count st <= failed_count st'
  ∧ total_size st <= total_size st'
  ∧ ∃ new, calls st' = (calls st ++ new)%list.
Proof.
  intros st'. subst st'.
  destruct (urlparse_path E url) as [msg | path] eqn:Hpath.
  { unfold download_and_upload_file. rewrite Hpath. simpl.
    repeat split; try lia. exists []. now rewrite app_nil_r. }
  rewrite (download_parsed E url p path st Hpath). simpl snd.
  destruct (download_effect E url (basename path) p st) as [[new Hcalls] Hkind].
  assert (Hc : ∃ new0, calls (snd (download_as E url (basename path) p st))
                       = (calls st ++ new0)%list) by (eexists; exact Hcalls).
  destruct Hkind as [(_ & Hb & Hd & Hf & Ht)
                    | [(body & _ & Hb & Hd & Hf & Ht) | (_ & _ & Hb & Hd & Hf & Ht)]].
  - rewrite Hb, Hd, Hf, Ht. repeat split; first [reflexivity | lia | exact Hc].
  - rewrite Hb, Hd, Hf, Ht. pose proof (len_nonneg body).
    repeat split; first [lia | exact Hc | idtac].
    intros k Hk. rewrite lookup_insert_ne; [reflexivity |].
    intros Heq. now apply (Hk path eq_refl).
  - rewrite Hb, Hd, Hf, Ht. repeat split; first [reflexivity | lia | exact Hc].
Qed.

(** X7.  A call that returns a failure stores nothing and counts one
    failure, whatever step failed, and it carries a message; a call counts
    a failure only when it returns one.  A call raises instead of returning
    exactly when [urlparse] refuses its URL, and then bucket, counters and
    requests are as they were: that failure is counted nowhere. *)
Theorem failure_stores_nothing (E : Env) (url p : string) (st : State) :
  let run := download_and_upload_file E url p st in
  let st' := snd run in
  (failed_count st' = failed_count st + 1 <-> ∃ r, fst run = Some r ∧ failed r = true)
  ∧ (∀ r, fst run = Some r -> failed r = true ->
          bucket st' = bucket st
          ∧ (∃ msg, snd r = Some msg)
          ∧ downloaded_count st' = downloaded_count st
          ∧ total_size st' = total_size st
          ∧ ∀ k b, ¬ In (S3Upload k b true) (new_calls st st'))
  ∧ (fst run = None <-> ∃ msg, urlparse_path E url = inl msg)
  ∧ (fst run = None -> st' = st).
Proof.
  intros run st'. subst st' run.
  destruct (urlparse_path E url) as [msg | path] eqn:Hpath.
  { unfold download_and_upload_file. rewrite Hpath. simpl.
    split; [split; [lia | intros (r & [=] & _)] |].
    split; [intros r [=] |].
    split; [split; [now exists msg | reflexivity] | reflexivity]. }
  rewrite (download_parsed E url p path st Hpath). simpl fst. simpl snd.
  set (r := fst (download_as E url (basename path) p st)).
  set (st' := snd (download_as E url (basename path) p st)).
  destruct (download_effect E url (basename path) p st) as [_ Hkind].
  fold r st' in Hkind.
  pose proof (outcome_kinds r) as Hone.
  assert (Hnew : failed r = true -> ∀ k b, ¬ In (S3Upload k b true) (new_calls st st')).
  { intros Hf. subst r st'.
    destruct (download_as E url (basename path) p st) as [r0 st0] eqn:Hrun. simpl in *.
    destruct (download_new_calls E url (basename path) p st st0 r0 Hrun)
      as [(Hs & _) | [(response & _ & Hu & _) | (_ & _ & Hnone)]].
    - rewrite Hs, Hf in Hone. destruct (uploaded r0); lia.
    - rewrite Hu, Hf in Hone. destruct (skipped r0); lia.
    - exact Hnone. }
  assert (Hmain : (failed r = true <-> failed_count st' = failed_count st + 1)
                  ∧ (failed r = true ->
                     bucket st' = bucket st
                     ∧ (∃ msg, snd r = Some msg)
                     ∧ downloaded_count st' = downloaded_count st
                     ∧ total_size st' = total_size st
                     ∧ ∀ k b, ¬ In (S3Upload k b true) (new_calls st st'))).
  { destruct Hkind as [(Hs & Hb & Hd & Hf & Ht)
                      | [(body & Hu & Hb & Hd & Hf & Ht)
                        | (Hfail & Hmsg & Hb & Hd & Hf & Ht)]].
    - rewrite Hs in Hone. destruct (uploaded r), (failed r); try lia;
        (split; [split; [discriminate | lia] | discriminate]).
    - rewrite Hu in Hone. destruct (skipped r), (failed r); try lia;
        (split; [split; [discriminate | lia] | discriminate]).
    - split; [split; [intros _; exact Hf | intros _; exact Hfail] |].
      intros Hfl. repeat split; try assumption. now apply Hnew. }
  destruct Hmain as [Hiff Hfailed].
  split; [| split; [| split]].
  - split.
    + intros H. exists r. split; [reflexivity | now apply Hiff].
    + intros (r' & [= <-] & H). now apply Hiff.
  - intros r' [= <-]. exact Hfailed.
  - split; [discriminate | intros (msg & [=])].
  - discriminate.
Qed.

End DownloaderMoreFacts.

(* ===================================================================== *)
(** * The downloader: a second run, and the ways a run fails *)
(* ===================================================================== *)

Module DownloaderRuns.
Import PyStr OsPath Py ContentType Files Downloader DownloaderProgram
       PyStrFacts PyStrMore DownloaderFacts DownloaderMoreFacts.

Lemma handle_fails (filename : string) (e : exn) (st : State) :
  fst (fst (fst (handle filename e st))) = false.
Proof. now destruct e. Qed.

Lemma handle_message (filename : string) (e : exn) (st : State) :
  (∀ m, e ≠ RequestException m) ->
  handle filename e st
  = ((false, filename, Some ("Upload error: " ++ str_exn e)), count_failed st).
Proof. destruct e; intros H; [now destruct (H msg) | reflexivity | reflexivity]. Qed.

(** A run that uploaded went through every step. *)
Lemma download_uploaded_inv (E : Env) (url filename p : string) (st st1 : State)
    (name : string) :
  download_as E url filename p st = ((true, name, None), st1) ->
  ∃ response,
    session_get E url = inr response
    ∧ raise_for_status response = inr tt
    ∧ iter_content_error E url = None
    ∧ upload_error E (p ++ filename) = None
    ∧ st1 = count_downloaded (len (content response))
              (put_object (p ++ filename)
                 (stored_object url filename (strftime E (clock st)) (content response))
                 (called (S3Upload (p ++ filename) (content response) true)
                    (tick (called (HttpGet url)
                       (called (S3HeadObject (p ++ filename))
                          (called (HttpHead url) st)))))).
Proof.
  assert (Hhandle : ∀ e st0, handle filename e st0 ≠ ((true, name, None), st1)).
  { intros e st0 H. pose proof (handle_fails filename e st0) as Hf.
    rewrite H in Hf. discriminate Hf. }
  assert (Hfetch :
    match fetch_and_upload E url filename (p ++ filename)
            (called (S3HeadObject (p ++ filename)) (called (HttpHead url) st)) with
    | (inr r0, st'0) => (r0, st'0)
    | (inl e, st'0) => handle filename e st'0
    end = ((true, name, None), st1) ->
    ∃ response,
      session_get E url = inr response
      ∧ raise_for_status response = inr tt
      ∧ iter_content_error E url = None
      ∧ upload_error E (p ++ filename) = None
      ∧ st1 = count_downloaded (len (content response))
                (put_object (p ++ filename)
                   (stored_object url filename (strftime E (clock st)) (content response))
                   (called (S3Upload (p ++ filename) (content response) true)
                      (tick (called (HttpGet url)
                         (called (S3HeadObject (p ++ filename))
                            (called (HttpHead url) st))))))).
  { destruct (fetch_and_upload _ _ _ _ _) as [res st''] eqn:Hf.
    apply fetch_and_upload_inv in Hf
      as [(response & H1 & H2 & H3 & H4 & -> & ->) | (e & -> & _)].
    - intros [= _ <-]. exists response. now repeat split.
    - intros H. now apply Hhandle in H. }
  unfold download_as.
  destruct (get_remote_size E url) as [e|remote_size].
  { destruct e; try (intros H; now apply Hhandle in H). intros [=]. }
  destruct (head_object E _ _) as [e|obj].
  - destruct e as [m|code m|m]; try (intros H; now apply Hhandle in H).
    destruct (negb (code =? "404")%string); [intros H; now apply Hhandle in H |].
    exact Hfetch.
  - destruct (default (-1) obj =? remote_size); [intros [=] | exact Hfetch].
Qed.

(** X8.  After a call that uploaded, a second call for the same URL is
    skipped exactly when the size the server announces is the number of
    bytes it sent: then nothing is requested but the two HEADs and the
    bucket is as the first call left it.  When the two differ (also when no
    length is announced and the body is not empty) the file is fetched and
    counted again, on every run, and the object is stored again, now with
    the date the clock shows at the second upload. *)
Theorem second_run (E : Env) (url p path : string) (st st1 st2 : State)
    (n : Z) (r2 : option outcome) :
  let filename := basename path in
  let key := p ++ filename in
  urlparse_path E url = inr path ->
  get_remote_size E url = inr n ->
  head_object_error E key = None ->
  download_and_upload_file E url p st = (Some (true, filename, None), st1) ->
  download_and_upload_file E url p st1 = (r2, st2) ->
  ∃ response,
    session_get E url = inr response
    ∧ bucket st1 !! key
      = Some (stored_object url filename (strftime E (clock st)) (content response))
    ∧ clock st1 = S (clock st)
    ∧ (len (content response) = n ->
       r2 = Some (true, filename, Some ALREADY)
       ∧ bucket st2 = bucket st1
       ∧ clock st2 = clock st1
       ∧ downloaded_count st2 = downloaded_count st1
       ∧ total_size st2 = total_size st1
       ∧ new_calls st1 st2 = [HttpHead url; S3HeadObject key])
    ∧ (len (content response) ≠ n ->
       r2 = Some (true, filename, None)
       ∧ bucket st2
         = <[key := stored_object url filename (strftime E (clock st1))
                      (content response)]> (bucket st1)
       ∧ bucket st2 !! key
         = Some (stored_object url filename (strftime E (S (clock st)))
                   (content response))
       ∧ (∀ k, k ≠ key -> bucket st2 !! k = bucket st1 !! k)
       ∧ clock st2 = S (clock st1)
       ∧ downloaded_count st2 = downloaded_count st1 + 1
       ∧ total_size st2 = total_size st1 + len (content response)
       ∧ new_calls st1 st2
         = [HttpHead url; S3HeadObject key; HttpGet url;
            S3Upload key (content response) true]).
Proof.
  intros filename key Hpath Hsize Herr Hfirst Hsecond.
  rewrite (download_parsed E url p path st Hpath) in Hfirst.
  rewrite (download_parsed E url p path st1 Hpath) in Hsecond.
  fold filename in Hfirst, Hsecond.
  destruct (download_as E url filename p st) as [r1' st1'] eqn:Hrun1.
  destruct (download_as E url filename p st1) as [r2' st2'] eqn:Hrun2.
  simpl in Hfirst, Hsecond.
  injection Hfirst as -> ->. injection Hsecond as <- <-.
  apply download_uploaded_inv in Hrun1
    as (response & Hget & Hstatus & Hiter & Hup & Hst1).
  fold key in Hup, Hst1.
  assert (Hobj : bucket st1 !! key
                 = Some (stored_object url filename (strftime E (clock st))
                           (content response)))
    by (rewrite Hst1; simpl; apply lookup_insert_eq).
  assert (Hclock : clock st1 = S (clock st)) by (rewrite Hst1; reflexivity).
  exists response. split; [exact Hget |]. split; [exact Hobj |].
  split; [exact Hclock |]. split.
  - intros Hlen.
    rewrite (download_skips E url filename p st1 n _ Hsize Herr Hobj Hlen) in Hrun2.
    injection Hrun2 as <- <-. repeat split.
    apply new_calls_app. simpl. now rewrite <- app_assoc.
  - intros Hlen.
    rewrite (download_fetches E url filename p st1 n Hsize Herr) in Hrun2
      by (right; eexists; split; [exact Hobj | exact Hlen]).
    fold key in Hrun2.
    rewrite (fetch_and_upload_ok E url filename key _ response Hget Hstatus Hiter Hup)
      in Hrun2.
    injection Hrun2 as <- <-. repeat split.
    + simpl. rewrite <- Hclock. apply lookup_insert_eq.
    + intros k Hk. simpl. now rewrite lookup_insert_ne by congruence.
    + apply new_calls_app. simpl. now rewrite <- !app_assoc.
Qed.

(** X9.  For a URL that [urlparse] accepts: when the HEAD request raises a
    request error, or answers with a 4xx or 5xx status, the call fails with
    the message "Failed to fetch headers for <filename>: ..." followed by
    the text of the error, and the HEAD is the only request: the bucket is
    not asked and nothing is fetched. *)
Theorem head_failure_stops_the_run (E : Env) (url p path : string) (st : State) :
  let filename := basename path in
  let run := download_and_upload_file E url p st in
  urlparse_path E url = inr path ->
  (∀ m, session_head E url = inl (RequestException m) ->
        run = (Some (false, filename,
                     Some ("Failed to fetch headers for " ++ filename ++ ": " ++ m)),
               count_failed (called (HttpHead url) st)))
  ∧ (∀ response,
       session_head E url = inr response ->
       400 <= status_code response < 600 ->
       ∃ m, raise_for_status response = inl (RequestException m)
            ∧ run = (Some (false, filename,
                           Some ("Failed to fetch headers for " ++ filename ++ ": " ++ m)),
                     count_failed (called (HttpHead url) st))).
Proof.
  intros filename run Hpath. subst run. split.
  - intros m Hhead. unfold download_and_upload_file, download_as, get_remote_size.
    rewrite Hpath, Hhead. reflexivity.
  - intros response Hhead Hstatus.
    unfold download_and_upload_file, download_as, get_remote_size.
    rewrite Hpath, Hhead. simpl.
    unfold raise_for_status.
    destruct (Z_lt_ge_dec (status_code response) 500) as [Hlt | Hge].
    + replace ((400 <=? status_code response) && (status_code response <? 500))
        with true by (symmetry; apply andb_true_iff; split;
                      [apply Z.leb_le | apply Z.ltb_lt]; lia).
      simpl. eexists. split; reflexivity.
    + replace ((400 <=? status_code response) && (status_code response <? 500))
        with false by (symmetry; apply andb_false_iff; right; apply Z.ltb_ge; lia).
      replace ((500 <=? status_code response) && (status_code response <? 600))
        with true by (symmetry; apply andb_true_iff; split;
                      [apply Z.leb_le | apply Z.ltb_lt]; lia).
      simpl. eexists. split; reflexivity.
Qed.

End DownloaderRuns.

(* ===================================================================== *)
(** * The downloader: errors of the bucket, the pool, the entry points *)
(* ===================================================================== *)

Module DownloaderErrors.
Import PyStr OsPath Py ContentType Files Downloader DownloaderProgram
       PyStrFacts PyStrMore DownloaderFacts DownloaderMoreFacts DownloaderRuns.

(** X10.  For a URL that [urlparse] accepts: a Content-Length header that
    [int] rejects (no decimal literal, or one with more digits than the
    interpreter converts) makes the call fail before the bucket is asked or
    anything is fetched; the failure is reported as an upload error, with
    the text of the [ValueError]. *)
Theorem malformed_length_fails (E : Env) (url p path : string) (st : State)
    (response : Response) (v : string) :
  let filename := basename path in
  urlparse_path E url = inr path ->
  session_head E url = inr response ->
  raise_for_status response = inr tt ->
  content_length_header response = Some v ->
  int_of_str (int_max_str_digits E) v = None ->
  download_and_upload_file E url p st
  = (Some (false, filename, Some ("Upload error: " ++ int_error E v)),
     count_failed (called (HttpHead url) st)).
Proof.
  intros filename Hpath Hhead Hstatus Hv Hint.
  unfold download_and_upload_file, download_as, get_remote_size.
  rewrite Hpath, Hhead. simpl. rewrite Hstatus. simpl. rewrite Hv, Hint.
  reflexivity.
Qed.

(** The requests of the path that fetches. *)
Lemma fetch_path_calls (E : Env) (url filename key : string) (st0 : State) :
  ∃ new,
    calls (snd (match fetch_and_upload E url filename key st0 with
                | (inr r0, st'0) => (r0, st'0)
                | (inl e, st'0) => handle filename e st'0
                end))
    = (calls st0 ++ HttpGet url :: new)%list.
Proof.
  destruct (fetch_and_upload E url filename key st0) as [res st''] eqn:Hf.
  apply fetch_and_upload_inv in Hf
    as [(response & _ & _ & _ & _ & -> & ->) | (e & -> & Hst)].
  - eexists. simpl. rewrite <- app_assoc. reflexivity.
  - assert (Hc : calls (snd (handle filename e st'')) = calls st'') by now destruct e.
    rewrite Hc.
    destruct Hst as [-> | [body ->]]; eexists; simpl; rewrite <- ?app_assoc; reflexivity.
Qed.

(** X11.  For a URL that [urlparse] accepts: an error of [head_object]
    other than 404 makes the call fail without fetching anything, reported
    as an upload error; an error with code 404 is taken for an absent
    object, and the file is fetched, also when the object is in the
    bucket. *)
Theorem bucket_error_fails (E : Env) (url p path : string) (st : State)
    (n : Z) (code m : string) :
  let filename := basename path in
  let key := p ++ filename in
  urlparse_path E url = inr path ->
  get_remote_size E url = inr n ->
  head_object_error E key = Some (ClientError code m) ->
  (code ≠ "404" ->
   download_and_upload_file E url p st
   = (Some (false, filename, Some ("Upload error: " ++ m)),
      count_failed (called (S3HeadObject key) (called (HttpHead url) st))))
  ∧ (code = "404" ->
     ∃ new, calls (snd (download_and_upload_file E url p st))
            = (calls st ++ [HttpHead url; S3HeadObject key; HttpGet url] ++ new)%list).
Proof.
  intros filename key Hpath Hsize Herr.
  rewrite (download_parsed E url p path st Hpath). fold filename.
  split.
  - intros Hcode. unfold download_as, head_object.
    rewrite Hsize. fold key. rewrite Herr. simpl.
    apply String.eqb_neq in Hcode. rewrite Hcode. reflexivity.
  - intros ->. unfold download_as, head_object.
    rewrite Hsize. fold key. rewrite Herr. simpl snd. simpl negb. cbv iota.
    destruct (fetch_path_calls E url filename key
                (called (S3HeadObject key) (called (HttpHead url) st))) as [new Hnew].
    exists new. rewrite Hnew. simpl. rewrite <- !app_assoc. reflexivity.
Qed.

(** ** The pool *)

Lemma download_calls_are_url_calls (E : Env) (url p : string) (st : State) :
  ∃ new, calls (snd (download_and_upload_file E url p st)) = (calls st ++ new)%list
         ∧ Forall (fun c => is_url_call c = true) new.
Proof.
  destruct (download_and_upload_file E url p st) as [[r|] st'] eqn:Hrun; simpl.
  2: { apply download_raised in Hrun as [_ ->].
       exists []. split; [now rewrite app_nil_r | constructor]. }
  apply download_returned in Hrun as (path & _ & Hrun).
  apply download_inv in Hrun.
  destruct Hrun as [[_ ->] | [(response & _ & _ & _ & ->) | (msg & st0 & _ & -> & Hst0)]].
  - eexists. split; [simpl; rewrite <- app_assoc; reflexivity |]. now repeat constructor.
  - eexists. split; [simpl; rewrite <- !app_assoc; reflexivity |]. now repeat constructor.
  - destruct Hst0 as [-> | [-> | [-> | [body ->]]]];
      (eexists; split; [simpl; rewrite <- ?app_assoc; reflexivity |]);
      now repeat constructor.
Qed.

Lemma run_pool_effect (E : Env) (urls : list string) (st : State) :
  (∀ k, (∀ u path, In u urls -> urlparse_path E u = inr path ->
                    k ≠ "mlk-archive/" ++ basename path) ->
        bucket (snd (run_pool E urls st)) !! k = bucket st !! k)
  ∧ ∃ new, calls (snd (run_pool E urls st)) = (calls st ++ new)%list
           ∧ Forall (fun c => is_url_call c = true) new.
Proof.
  revert st.
  induction urls as [|url rest IH]; intros st.
  - split; [reflexivity |]. exists []. split; [now rewrite app_nil_r | constructor].
  - simpl.
    destruct (download_and_upload_file E url "mlk-archive/" st) as [r st1] eqn:H1.
    destruct (run_pool E rest st1) as [rs st2] eqn:H2. simpl.
    destruct (IH st1) as [Hframe (new2 & Hcalls2 & Hurl2)]. rewrite H2 in *. simpl in *.
    pose proof (download_frame_keys E url "mlk-archive/" st) as Hkeys.
    pose proof (download_calls_are_url_calls E url "mlk-archive/" st)
      as (new1 & Hcalls1 & Hurl1).
    rewrite H1 in *. simpl in *.
    split.
    + intros k Hk. rewrite Hframe by (intros u path Hu; apply Hk; now right).
      apply Hkeys. intros path Hpath. apply (Hk url path); [now left | exact Hpath].
    + exists (new1 ++ new2)%list. split.
      * now rewrite Hcalls2, Hcalls1, app_assoc.
      * now apply Forall_app.
Qed.

(** X12.  Whatever the command line says, also under [--s3-prefix], [main]
    changes the bucket only at keys "mlk-archive/" + basename of the path of
    a URL of the file (one that [urlparse] accepts). *)
Theorem main_keys (E : Env) (files : fs) (args : Args) (b : gmap string S3Object)
    (k : string) :
  (∀ text u path, files !! url_file args = Some text -> In u (read_urls text) ->
                  urlparse_path E u = inr path ->
                  k ≠ "mlk-archive/" ++ basename path) ->
  bucket (snd (main E files args b)) !! k = b !! k.
Proof.
  intros Hk. unfold main, download_from_url_file.
  destruct (files !! url_file args) as [text|] eqn:Hfile; [| reflexivity].
  assert (Hpool : ∀ st0, bucket st0 = b ->
            bucket (snd (let '(rs, st) := run_pool E (read_urls text) st0 in
                         (@inr exn (list (option outcome)) rs, st))) !! k = b !! k).
  { intros st0 Hb.
    destruct (run_pool_effect E (read_urls text) st0) as [Hframe _].
    destruct (run_pool E (read_urls text) st0) as [rs st] eqn:Hp. simpl in *.
    rewrite Hframe; [now rewrite Hb |].
    intros u path Hu Hpath. exact (Hk text u path eq_refl Hu Hpath). }
  destruct (head_bucket_error E) as [[m|code m|m]|]; try reflexivity.
  - destruct (create_bucket_error E) as [e|]; [reflexivity |]. now apply Hpool.
  - now apply Hpool.
Qed.

(** X13.  When [download_from_url_file] raises (the file cannot be read, or
    the bucket can be neither found nor created), no URL has been touched:
    the bucket and the counters are as before and no request about a URL
    was issued. *)
Theorem error_before_the_pool (E : Env) (files : fs) (path : string) (st : State)
    (e : exn) :
  let run := download_from_url_file E files path st in
  fst run = inl e ->
  bucket (snd run) = bucket st
  ∧ downloaded_count (snd run) = downloaded_count st
  ∧ failed_count (snd run) = failed_count st
  ∧ total_size (snd run) = total_size st
  ∧ List.filter is_url_call (new_calls st (snd run)) = [].
Proof.
  intros run Hfail. subst run. unfold download_from_url_file in *.
  destruct (files !! path) as [text|].
  2: { simpl. repeat split. unfold new_calls. now rewrite drop_all. }
  destruct (head_bucket_error E) as [[m|code m|m]|].
  - simpl. repeat split. erewrite new_calls_app; [| reflexivity]. reflexivity.
  - destruct (create_bucket_error E) as [e'|].
    + simpl. repeat split.
      erewrite new_calls_app; [| simpl; rewrite <- app_assoc; reflexivity]. reflexivity.
    + destruct (run_pool E (read_urls text) _); discriminate Hfail.
  - simpl. repeat split. erewrite new_calls_app; [| reflexivity]. reflexivity.
  - destruct (run_pool E (read_urls text) _); discriminate Hfail.
Qed.

(** X14.  When the URL file can be read, [create_bucket] is requested exactly
    when [head_bucket] raised a [ClientError], and [head_bucket] is always
    the first request. *)
Theorem bucket_is_created_when_missing (E : Env) (files : fs) (path text : string)
    (st : State) :
  let st' := snd (download_from_url_file E files path st) in
  files !! path = Some text ->
  (In S3CreateBucket (new_calls st st')
   <-> ∃ code m, head_bucket_error E = Some (ClientError code m))
  ∧ ∃ new, new_calls st st' = S3HeadBucket :: new.
Proof.
  intros st' Hfile. subst st'. unfold download_from_url_file. rewrite Hfile.
  assert (Hpool : ∀ st0 pre rs st1,
            calls st0 = (calls st ++ pre)%list ->
            run_pool E (read_urls text) st0 = (rs, st1) ->
            ∃ new, new_calls st st1 = (pre ++ new)%list
                   ∧ Forall (fun c => is_url_call c = true) new).
  { intros st0 pre rs st1 Hpre Hp.
    destruct (run_pool_effect E (read_urls text) st0) as [_ (new & Hcalls & Hurl)].
    rewrite Hp in Hcalls. simpl in Hcalls.
    exists new. split; [| exact Hurl].
    apply new_calls_app. now rewrite Hcalls, Hpre, app_assoc. }
  assert (Hnot : ∀ new, Forall (fun c => is_url_call c = true) new ->
                        ¬ In S3CreateBucket new).
  { intros new Hall Hin. rewrite List.Forall_forall in Hall.
    specialize (Hall _ Hin). discriminate Hall. }
  destruct (head_bucket_error E) as [[m|code m|m]|].
  - simpl. erewrite new_calls_app; [| reflexivity]. split; [| now eexists].
    split; [simpl; intuition discriminate | intros (c & m' & [=])].
  - destruct (create_bucket_error E) as [e'|].
    + simpl. erewrite new_calls_app; [| simpl; rewrite <- app_assoc; reflexivity].
      split; [| now eexists]. split; [now eexists; eexists | simpl; tauto].
    + destruct (run_pool E (read_urls text) _) as [rs st1] eqn:Hp. simpl.
      destruct (Hpool (called S3CreateBucket (called S3HeadBucket st))
                  [S3HeadBucket; S3CreateBucket] rs st1) as (new & Hnew & Hurl);
        [simpl; now rewrite <- app_assoc | exact Hp |].
      rewrite Hnew.
      split; [| now eexists]. split; [now eexists; eexists | simpl; tauto].
  - simpl. erewrite new_calls_app; [| reflexivity]. split; [| now eexists].
    split; [simpl; intuition discriminate | intros (c & m' & [=])].
  - destruct (run_pool E (read_urls text) _) as [rs st1] eqn:Hp. simpl.
    destruct (Hpool (called S3HeadBucket st) [S3HeadBucket] rs st1)
      as (new & Hnew & Hurl); [reflexivity | exact Hp |].
    rewrite Hnew.
    split; [| now eexists]. split.
    + simpl. intros [H | H]; [discriminate H | now apply Hnot in H].
    + intros (c & m' & [=]).
Qed.

(** ** The statements at concrete inputs *)

Import Samples MoreSamples.

Lemma second_run_witness :
  new_calls
    (snd (download_and_upload_file archive_env url_a "mlk-archive/" (new_downloader ∅)))
    (snd (download_and_upload_file archive_env url_a "mlk-archive/"
            (snd (download_and_upload_file archive_env url_a "mlk-archive/"
                    (new_downloader ∅)))))
  = [HttpHead url_a; S3HeadObject "mlk-archive/a.pdf"]
  ∧ bucket
      (snd (download_and_upload_file archive_env url_b "mlk-archive/"
              (snd (download_and_upload_file archive_env url_b "mlk-archive/"
                      (new_downloader ∅))))) !! "mlk-archive/b.pdf"
    = Some (stored_object url_b "b.pdf" "2025-07-22 13:38:08" "xyz").
Proof.
  split.
  - destruct (second_run archive_env url_a "mlk-archive/" "/files/a.pdf"
                (new_downloader ∅)
                (snd (download_and_upload_file archive_env url_a "mlk-archive/"
                        (new_downloader ∅)))
                (snd (download_and_upload_file archive_env url_a "mlk-archive/"
                        (snd (download_and_upload_file archive_env url_a "mlk-archive/"
                                (new_downloader ∅)))))
                5
                (fst (download_and_upload_file archive_env url_a "mlk-archive/"
                        (snd (download_and_upload_file archive_env url_a "mlk-archive/"
                                (new_downloader ∅))))))
      as (response & Hget & _ & _ & Hsame & _).
    + vm_compute. reflexivity.
    + vm_compute. reflexivity.
    + reflexivity.
    + vm_compute. reflexivity.
    + now destruct (download_and_upload_file _ _ _ _).
    + injection Hget as <-. now destruct (Hsame eq_refl) as (_ & _ & _ & _ & _ & ->).
  - destruct (second_run archive_env url_b "mlk-archive/" "/files/b.pdf"
                (new_downloader ∅)
                (snd (download_and_upload_file archive_env url_b "mlk-archive/"
                        (new_downloader ∅)))
                (snd (download_and_upload_file archive_env url_b "mlk-archive/"
                        (snd (download_and_upload_file archive_env url_b "mlk-archive/"
                                (new_downloader ∅)))))
                0
                (fst (download_and_upload_file archive_env url_b "mlk-archive/"
                        (snd (download_and_upload_file archive_env url_b "mlk-archive/"
                                (new_downloader ∅))))))
      as (response & Hget & _ & _ & _ & Hdiffer).
    + vm_compute. reflexivity.
    + vm_compute. reflexivity.
    + reflexivity.
    + vm_compute. reflexivity.
    + now destruct (download_and_upload_file _ _ _ _).
    + injection Hget as <-.
      destruct Hdiffer as (_ & _ & Hstored & _); [vm_compute; discriminate |].
      exact Hstored.
Defined.

Lemma head_failure_stops_the_run_witness :
  calls (snd (download_and_upload_file archive_env "https://elsewhere.example/x.pdf"
                "mlk-archive/" (new_downloader ∅)))
  = [HttpHead "https://elsewhere.example/x.pdf"].
Proof.
  rewrite (proj1 (head_failure_stops_the_run archive_env
                    "https://elsewhere.example/x.pdf" "mlk-archive/" "/x.pdf"
                    (new_downloader ∅) ltac:(vm_compute; reflexivity))
             "ConnectionError" eq_refl).
  reflexivity.
Defined.

Lemma malformed_length_fails_witness :
  download_and_upload_file env_bad_length url_a "mlk-archive/" (new_downloader ∅)
  = (Some (false, "a.pdf",
           Some "Upload error: invalid literal for int() with base 10: '5 bytes'"),
     count_failed (called (HttpHead url_a) (new_downloader ∅))).
Proof.
  exact (malformed_length_fails env_bad_length url_a "mlk-archive/" "/files/a.pdf"
           (new_downloader ∅)
           (response_of 200 "OK" url_a (Some "5 bytes") [])
           "5 bytes" ltac:(vm_compute; reflexivity) eq_refl eq_refl eq_refl
           ltac:(vm_compute; reflexivity)).
Defined.

(** What [int] takes and what it refuses: white space at the ends and
    single underscores between digits are taken; U+001F at the end, a
    unit, a doubled underscore, a bare sign and a literal of 4301 digits
    are refused. *)
Example int_literals :
  int_of_str 4300 " 42 " = Some 42
  ∧ int_of_str 4300 "+1_000" = Some 1000
  ∧ int_of_str 4300 "-7" = Some (-7)
  ∧ int_of_str 4300 (String "5" (String (ascii_of_nat 31) EmptyString)) = None
  ∧ int_of_str 4300 "5 bytes" = None
  ∧ int_of_str 4300 "1__0" = None
  ∧ int_of_str 4300 "-" = None
  ∧ int_of_str 4300 EmptyString = None
  ∧ int_of_str 4300 (nines 4301) = None
  ∧ int_of_str 4300 (nines 4300) ≠ None
  ∧ int_of_str 0 (nines 4301) ≠ None.
Proof. vm_compute. repeat split; try reflexivity; discriminate. Qed.

Lemma bucket_error_fails_witness :
  download_and_upload_file env_forbidden url_a "mlk-archive/" (new_downloader ∅)
  = (Some (false, "a.pdf", Some "Upload error: Forbidden"),
     count_failed (called (S3HeadObject "mlk-archive/a.pdf")
                     (called (HttpHead url_a) (new_downloader ∅)))).
Proof.
  refine (proj1 (bucket_error_fails env_forbidden url_a "mlk-archive/" "/files/a.pdf"
                   (new_downloader ∅) 5 "403" "Forbidden" _ _ eq_refl) _).
  - vm_compute. reflexivity.
  - vm_compute. reflexivity.
  - discriminate.
Defined.

Lemma main_keys_witness :
  bucket (snd (main archive_env three_url_file sample_args bucket_a_short))
    !! "elsewhere/a.pdf" = None.
Proof.
  rewrite (main_keys archive_env three_url_file sample_args bucket_a_short
             "elsewhere/a.pdf").
  - reflexivity.
  - intros text u path _ _ _ H.
    apply (f_equal (fun s => String.get 0 s)) in H. discriminate H.
Defined.

Lemma error_before_the_pool_witness :
  bucket (snd (download_from_url_file env_no_bucket three_url_file "urls.txt"
                 (new_downloader ∅))) = ∅
  ∧ calls (snd (download_from_url_file env_no_bucket three_url_file "urls.txt"
                  (new_downloader ∅))) = [S3HeadBucket; S3CreateBucket].
Proof.
  split.
  - exact (proj1 (error_before_the_pool env_no_bucket three_url_file "urls.txt"
                    (new_downloader ∅) (ClientError "AccessDenied" "Access Denied")
                    eq_refl)).
  - reflexivity.
Defined.

Lemma bucket_is_created_when_missing_witness :
  In S3CreateBucket
    (new_calls (new_downloader ∅)
       (snd (download_from_url_file env_no_bucket three_url_file "urls.txt"
               (new_downloader ∅))))
  ∧ ¬ In S3CreateBucket
        (new_calls (new_downloader ∅)
           (snd (download_from_url_file archive_env three_url_file "urls.txt"
                   (new_downloader ∅)))).
Proof.
  split.
  - destruct (bucket_is_created_when_missing env_no_bucket three_url_file "urls.txt"
                (default EmptyString (three_url_file !! "urls.txt"))
                (new_downloader ∅)) as [Hiff _]; [vm_compute; reflexivity |].
    apply Hiff. now eexists; eexists.
  - destruct (bucket_is_created_when_missing archive_env three_url_file "urls.txt"
                (default EmptyString (three_url_file !! "urls.txt"))
                (new_downloader ∅)) as [Hiff _]; [vm_compute; reflexivity |].
    intros H. apply Hiff in H. destruct H as (code & m & H). discriminate H.
Defined.

End DownloaderErrors.

(* ===================================================================== *)
(** * Blank URL files; [int] and [str] *)
(* ===================================================================== *)

Module ParsingFacts.
Import PyStr OsPath Py Files Downloader DownloaderProgram PyStrFacts PyStrMore
       UrlFileFacts.






End ParsingFacts.

(* ===================================================================== *)
(** * Content types, names of files, and the index of what was uploaded *)
(* ===================================================================== *)

Module NamesFacts.
Import PyStr OsPath Py ContentType Files Downloader Index PyStrFacts PyStrMore
       ContentTypeFacts IndexFacts.

(** X17.  [get_content_type] gives one of five types, and each of the four
    proper types for its own extension only: application/pdf for ".pdf" and
    for nothing else, and so on; application/octet-stream exactly for the
    other extensions. *)
Theorem get_content_type_characterised (filename : string) :
  let ext := lower (snd (splitext filename)) in
  let t := get_content_type filename in
  (t = "application/pdf" <-> ext = ".pdf")
  ∧ (t = "audio/mpeg" <-> ext = ".mp3")
  ∧ (t = "text/plain" <-> ext = ".txt")
  ∧ (t = "application/json" <-> ext = ".json")
  ∧ (t = "application/octet-stream"
     <-> ext ≠ ".pdf" ∧ ext ≠ ".mp3" ∧ ext ≠ ".txt" ∧ ext ≠ ".json")
  ∧ In t ["application/pdf"; "audio/mpeg"; "text/plain"; "application/json";
          "application/octet-stream"].
Proof.
  intros ext t. subst t. unfold get_content_type. fold ext.
  destruct (String.eqb_spec ext ".pdf") as [-> | H1];
    [repeat split; try discriminate; try (intros (? & ? & ? & ?); congruence);
     simpl; tauto |].
  destruct (String.eqb_spec ext ".mp3") as [-> | H2];
    [repeat split; try discriminate; try (intros (? & ? & ? & ?); congruence);
     simpl; tauto |].
  destruct (String.eqb_spec ext ".txt") as [-> | H3];
    [repeat split; try discriminate; try (intros (? & ? & ? & ?); congruence);
     simpl; tauto |].
  destruct (String.eqb_spec ext ".json") as [-> | H4];
    [repeat split; try discriminate; try (intros (? & ? & ? & ?); congruence);
     simpl; tauto |].
  rewrite (content_types_other ext H1 H2 H3 H4).
  repeat split; try discriminate; try congruence; simpl; tauto.
Qed.

(** ** [basename] *)

Lemma basename_of_parts (dir name : string) :
  has_char (Ascii.eqb "/") name = false ->
  (dir = EmptyString ∨ ∃ d0, dir = d0 ++ "/") ->
  basename (dir ++ name) = name.
Proof.
  intros Hname Hdir. rewrite <- has_char_eqb_sym in Hname.
  unfold basename, rfind.
  destruct Hdir as [-> | [d0 ->]].
  - rewrite append_nil_l, (rfind_from_absent "/" name 0 (-1) Hname). reflexivity.
  - rewrite append_assoc. change ("/" ++ name) with (String "/" name).
    rewrite rfind_from_app. simpl rfind_from.
    rewrite (rfind_from_absent "/" name _ _ Hname).
    unfold slice_from.
    replace (Z.to_nat (0 + Z.of_nat (String.length d0) + 1))
      with (String.length (d0 ++ "/"))
      by (rewrite length_append; simpl; lia).
    change (String "/" name) with ("/" ++ name).
    rewrite <- append_assoc. apply drop_n_app.
Qed.

Lemma display_name_is_basename_aux (key : string) :
  display_name key = basename key
  ∧ has_char (Ascii.eqb "/") (basename key) = false.
Proof.
  destruct (split_last_spec (Ascii.eqb "/") key) as (dir & Heq & Hno & Hdir).
  fold (display_name key) in Heq, Hno.
  assert (Hb : basename key = display_name key).
  { rewrite Heq at 1. apply basename_of_parts; [exact Hno |].
    destruct Hdir as [[_ ->] | [_ (d0 & c & Hc & ->)]]; [now left |].
    right. exists d0. apply Ascii.eqb_eq in Hc. now subst c. }
  split; [now symmetry | now rewrite Hb].
Qed.

(** X18.  The text the index shows for a key, [key.split("/")[-1]], is
    [os.path.basename(key)], the name the downloader derives from a path;
    that name never holds a slash, and the key is a directory part, empty or
    ending with a slash, followed by it. *)
Theorem display_name_is_basename (key : string) :
  display_name key = basename key
  ∧ has_char (Ascii.eqb "/") (basename key) = false
  ∧ ∃ dir, key = dir ++ basename key ∧ (dir = EmptyString ∨ ∃ d0, dir = d0 ++ "/").
Proof.
  destruct (display_name_is_basename_aux key) as [Heq Hno].
  split; [exact Heq |]. split; [exact Hno |].
  destruct (display_name_spec key) as (dir & Hkey & _ & Hdir).
  exists dir. split; [now rewrite <- Heq | exact Hdir].
Qed.





End NamesFacts.

(* ===================================================================== *)
(** * The index page and the listing; the JSON and CSV files *)
(* ===================================================================== *)

Module FormatFacts.
Import PyStr OsPath Py Soup Files Scraper Index MoreVocabulary
       PyStrFacts PyStrMore IndexFacts.

Lemma object_items_of_items (objs : list S3Entry) :
  object_items (map object_item objs) = map object_item objs.
Proof.
  induction objs as [|o objs IH]; [reflexivity |].
  change (object_items (map object_item (o :: objs)))
    with (object_item o :: object_items (map object_item objs)).
  now rewrite IH.
Qed.

(** X20.  The page depends on the listing only through the sequence of its
    objects: how they are cut into pages does not matter, and a page with no
    [Contents] adds nothing.  Its list items are the lines of the objects
    whose key does not end with a slash, and nothing else. *)
Theorem index_depends_on_objects (pages : list Page) :
  index_lines pages = index_lines [ {| Contents := Some (listed_objects pages) |} ]
  ∧ object_items (index_lines pages)
    = map object_item (List.filter (fun o => negb (is_folder o)) (listed_objects pages))
  ∧ (listed_objects pages = [] ->
     index_lines pages
     = ["<html><body>"; "<h1>Processed Dataset</h1>"; jsonl_line;
        "<h1>Unprocessed National Archive Files</h1><ul>"; "</ul></body></html>"]).
Proof.
  split; [| split].
  - unfold index_lines. rewrite !pages_loop_spec.
    unfold listed_objects at 2. simpl flat_map. now rewrite app_nil_r.
  - unfold index_lines. rewrite pages_loop_spec.
    unfold object_items. rewrite !List.filter_app.
    fold (object_items (map object_item
            (List.filter (fun o => negb (is_folder o)) (listed_objects pages)))).
    rewrite object_items_of_items. simpl. now rewrite app_nil_r.
  - intros Hnone. unfold index_lines. rewrite pages_loop_spec, Hnone. reflexivity.
Qed.

Lemma index_depends_on_objects_witness :
  index_lines Samples.plain_listing
  = index_lines [ {| Contents := Some [ {| Key := "mlk-archive/104-10001.pdf" |};
                                        {| Key := "mlk-archive/audio/tape.mp3" |} ] |} ].
Proof. exact (proj1 (index_depends_on_objects Samples.plain_listing)). Defined.

(** ** JSON strings *)

Lemma has_char_app (p : ascii -> bool) (a b : string) :
  has_char p (a ++ b) = has_char p a || has_char p b.
Proof.
  induction a as [|c a IH]; [reflexivity |].
  rewrite append_cons. simpl. now rewrite IH, orb_assoc.
Qed.

Lemma json_escape_char_clean (c : ascii) :
  has_char is_control (json_escape_char c) = false.
Proof. destruct c as [[] [] [] [] [] [] [] []]; reflexivity. Qed.

Lemma json_escape_char_plain (c : ascii) :
  json_special c = false -> json_escape_char c = chr c.
Proof.
  destruct c as [[] [] [] [] [] [] [] []]; intros H;
    first [discriminate H | reflexivity].
Qed.

(** X21.  A string of the JSON file holds no raw control character (no line
    break, no tab): those are written as escapes.  A string with no control
    character, no double quote and no backslash is written as it stands,
    between double quotes. *)
Theorem json_string_is_clean (s : string) :
  has_char is_control (json_string s) = false
  ∧ (has_char json_special s = false ->
     json_string s = chr DQUOTE ++ s ++ chr DQUOTE).
Proof.
  split.
  - unfold json_string. rewrite !has_char_app.
    replace (has_char is_control (json_escape s)) with false; [reflexivity |].
    symmetry. induction s as [|c s IH]; [reflexivity |].
    simpl json_escape. now rewrite has_char_app, json_escape_char_clean, IH.
  - intros H. unfold json_string. f_equal. f_equal.
    induction s as [|c s IH]; [reflexivity |].
    simpl in H. apply orb_false_iff in H as [Hc Hs].
    simpl json_escape. now rewrite (json_escape_char_plain c Hc), (IH Hs).
Qed.

Lemma json_string_is_clean_witness :
  json_string "104-10001.pdf"
  = chr DQUOTE ++ "104-10001.pdf" ++ chr DQUOTE.
Proof. exact (proj2 (json_string_is_clean "104-10001.pdf") eq_refl). Defined.

End FormatFacts.

(* ===================================================================== *)
(** * The scraper: tables within tables, a table with no rows; CSV lines *)
(* ===================================================================== *)

Module ScraperMoreFacts.
Import PyStr OsPath Py Soup Files Scraper PyStrFacts PyStrMore ScraperFacts.

(** Induction over a tree, with the property known of every child. *)
Lemma node_induction (P : node -> Prop) :
  (∀ s, P (NavigableString s)) ->
  (∀ name attrs cs, Forall P cs -> P (Tag name attrs cs)) ->
  ∀ n, P n.
Proof.
  intros Hs Ht. fix IH 1.
  intros [s | name attrs cs]; [apply Hs | apply Ht].
  induction cs as [|c cs IHcs]; constructor; [apply IH | exact IHcs].
Qed.

Lemma descendants_tag_cons (name : string) (attrs : gmap string string)
    (c : node) (cs : list node) :
  descendants (Tag name attrs (c :: cs))
  = (c :: descendants c ++ descendants (Tag name attrs cs))%list.
Proof. reflexivity. Qed.

(** The nodes below a node [t] of a tree stand together in the tree's list
    of nodes, right after [t]. *)
Lemma descendants_split (n t : node) :
  In t (descendants n) ->
  ∃ l1 l2, descendants n = (l1 ++ t :: descendants t ++ l2)%list.
Proof.
  induction n as [s | name attrs cs IH] using node_induction; [intros [] |].
  induction IH as [|c cs Hc _ IHcs]; [intros [] |].
  rewrite descendants_tag_cons. intros [-> | Hin].
  - exists [], (descendants (Tag name attrs cs)). reflexivity.
  - apply in_app_or in Hin as [Hin | Hin].
    + destruct (Hc Hin) as (l1 & l2 & ->).
      exists (c :: l1), (l2 ++ descendants (Tag name attrs cs))%list.
      simpl. f_equal. rewrite <- app_assoc. simpl. now rewrite <- app_assoc.
    + destruct (IHcs Hin) as (l1 & l2 & ->).
      exists (c :: descendants c ++ l1)%list, l2.
      simpl. f_equal. now rewrite <- app_assoc.
Qed.

Lemma find_all_below (names : list string) (n t x : node) :
  In t (descendants n) -> In x (find_all names t) -> In x (find_all names n).
Proof.
  intros Ht Hx. destruct (descendants_split n t Ht) as (l1 & l2 & Hsplit).
  unfold find_all in *.
  apply List.filter_In in Hx as [Hx Hf]. apply List.filter_In.
  split; [| exact Hf].
  rewrite Hsplit. apply in_or_app. right. right. apply in_or_app. now left.
Qed.

Lemma filter_twice {A : Type} (f g : A -> bool) (l : list A) :
  List.filter g (List.filter f l) = List.filter (fun x => f x && g x) l.
Proof.
  induction l as [|x l IH]; [reflexivity |].
  simpl. destruct (f x); simpl; [destruct (g x) |]; now rewrite IH.
Qed.

Lemma filter_length_mid {A : Type} (f : A -> bool) (a : list A) (x : A) (b c : list A) :
  (length (List.filter f b) <= length (List.filter f (a ++ x :: b ++ c)))%nat.
Proof.
  rewrite List.filter_app, List.length_app. simpl.
  destruct (f x); simpl; rewrite List.filter_app, List.length_app; lia.
Qed.

(** X22.  Header cells and links are searched at any depth: a table that
    encloses a table with the two headers has them too, and a table that
    encloses a table with more than ten PDF links has more than ten too. *)
Theorem enclosing_table_qualifies (outer inner : node) :
  In inner (descendants outer) ->
  (has_record_headers inner -> has_record_headers outer)
  ∧ (has_many_pdf_links inner -> has_many_pdf_links outer).
Proof.
  intros Hin. split.
  - assert (Hsub : ∀ h, h ∈ header_texts inner -> h ∈ header_texts outer).
    { intros h Hh. unfold header_texts in *.
      apply list_elem_of_In, in_map_iff in Hh as (th & <- & Hth).
      apply list_elem_of_In, in_map_iff. exists th. split; [reflexivity |].
      now apply (find_all_below ["th"] outer inner). }
    intros [H1 H2]. split; now apply Hsub.
  - unfold has_many_pdf_links, find_all_href.
    destruct (descendants_split outer inner Hin) as (l1 & l2 & ->).
    rewrite !filter_twice.
    pose proof (filter_length_mid
                  (fun x => (is_tag_in ["a"] x && bool_decide (is_Some (attr "href" x)))
                            && is_pdf_link x)
                  l1 inner (descendants inner) l2).
    lia.
Qed.

Lemma enclosing_table_qualifies_witness :
  has_record_headers MoreSamples.layout_table.
Proof.
  refine (proj1 (enclosing_table_qualifies MoreSamples.layout_table Samples.records_table _)
            records_table_has_headers).
  vm_compute. tauto.
Defined.

Section ScrapePage.

Variable urljoin : string -> string -> parsed string.
Variable urlparse_path : string -> parsed string.

(** X23.  Once a table with the two headers is found the links of the page
    are not looked at: when that table has its header row only, the page
    gives no record, whatever document links it holds elsewhere. *)
Theorem header_only_table_gives_nothing (soup t : node) :
  first_such has_record_headers (find_all ["table"] soup) t ->
  (length (find_all ["tr"] t) <= 1)%nat ->
  scrape_page urljoin urlparse_path soup = inr [].
Proof.
  intros Hfirst Hrows.
  rewrite (scrape_page_table urljoin urlparse_path soup t)
    by (left; now apply find_records_table_first).
  unfold table_records.
  destruct (find_all ["tr"] t) as [|row [|row' rows]]; [reflexivity | reflexivity |].
  simpl in Hrows. lia.
Qed.

End ScrapePage.

Lemma header_only_table_gives_nothing_witness :
  scrape_page Samples.sample_urljoin Samples.sample_urlparse_path
    MoreSamples.header_only_soup = inr []
  ∧ List.filter is_document_link (find_all_href ["a"] MoreSamples.header_only_soup) ≠ [].
Proof.
  split.
  - apply (header_only_table_gives_nothing Samples.sample_urljoin
             Samples.sample_urlparse_path MoreSamples.header_only_soup
             MoreSamples.header_only_table).
    + exists [], []. split; [reflexivity |]. split; [constructor |].
      split; apply (bool_decide_unpack _); vm_compute; exact I.
    + vm_compute. lia.
  - vm_compute. discriminate.
Defined.

(** ** CSV lines *)

Lemma csv_plain_chars (field : string) (t : ascii) :
  csv_needs_quotes field = false -> csv_special t = true ->
  has_char (Ascii.eqb t) field = false.
Proof.
  intros Hf Ht.
  induction field as [|c s IH]; [reflexivity |].
  simpl in *. apply orb_false_iff in Hf as [Hc Hs].
  rewrite (IH Hs), orb_false_r.
  destruct (Ascii.eqb_spec t c) as [-> | _]; [congruence | reflexivity].
Qed.

(** Two strings without [t], each followed by [t]: the strings are equal, and
    so is what follows. *)
Lemma terminated_inj (t : ascii) (a b x y : string) :
  has_char (Ascii.eqb t) a = false -> has_char (Ascii.eqb t) b = false ->
  a ++ String t x = b ++ String t y -> a = b ∧ x = y.
Proof.
  revert b.
  induction a as [|c a IH]; intros [|d b] Ha Hb H.
  - rewrite !append_nil_l in H. injection H as ->. now split.
  - rewrite append_nil_l, append_cons in H. injection H as <- _.
    simpl in Hb. now rewrite Ascii.eqb_refl in Hb.
  - rewrite append_nil_l, append_cons in H. injection H as -> _.
    simpl in Ha. now rewrite Ascii.eqb_refl in Ha.
  - rewrite !append_cons in H. injection H as -> H.
    simpl in Ha, Hb. apply orb_false_iff in Ha as [_ Ha], Hb as [_ Hb].
    destruct (IH b Ha Hb H) as [-> ->]. now split.
Qed.

(** The same for quoted fields: the closing quote is the first quote that is
    not doubled. *)
Lemma quoted_inj (t : ascii) (a b x y : string) :
  t ≠ DQUOTE ->
  csv_double_quotes a ++ String DQUOTE (String t x)
  = csv_double_quotes b ++ String DQUOTE (String t y) ->
  a = b ∧ x = y.
Proof.
  intros Ht. revert b.
  induction a as [|c a IH]; intros [|d b] H.
  - simpl in H. rewrite !append_nil_l in H. injection H as ->. now split.
  - simpl in H. rewrite append_nil_l in H.
    destruct (Ascii.eqb_spec d DQUOTE) as [-> | Hd].
    + rewrite !append_cons in H. injection H as H _. congruence.
    + rewrite append_cons in H. injection H as H _. congruence.
  - simpl in H. rewrite append_nil_l in H.
    destruct (Ascii.eqb_spec c DQUOTE) as [-> | Hc].
    + rewrite !append_cons in H. injection H as H _. congruence.
    + rewrite append_cons in H. injection H as H _. congruence.
  - simpl in H.
    destruct (Ascii.eqb_spec c DQUOTE) as [-> | Hc];
      destruct (Ascii.eqb_spec d DQUOTE) as [-> | Hd];
      rewrite !append_cons in H.
    + injection H as H. destruct (IH b H) as [-> ->]. now split.
    + injection H as H _. congruence.
    + injection H as H _. congruence.
    + injection H as -> H. destruct (IH b H) as [-> ->]. now split.
Qed.

Lemma csv_field_inj (t : ascii) (a b x y : string) :
  csv_special t = true -> t ≠ DQUOTE ->
  csv_field a ++ String t x = csv_field b ++ String t y -> a = b ∧ x = y.
Proof.
  intros Hsp Ht H. unfold csv_field in H.
  assert (Hraw : ∀ f rest z,
            csv_needs_quotes f = false ->
            f ++ String t z ≠ (chr DQUOTE ++ rest)).
  { intros f rest z Hf Heq.
    pose proof (csv_plain_chars f DQUOTE Hf eq_refl) as Hq.
    destruct f as [|c f].
    - rewrite append_nil_l in Heq. injection Heq as Heq _. congruence.
    - rewrite append_cons in Heq. injection Heq as -> _.
      simpl in Hq. rewrite ?Ascii.eqb_refl in Hq. discriminate Hq. }
  destruct (csv_needs_quotes a) eqn:Ea, (csv_needs_quotes b) eqn:Eb.
  - rewrite !append_assoc in H. injection H as H.
    apply (quoted_inj t); [exact Ht | exact H].
  - symmetry in H. rewrite !append_assoc in H. now apply Hraw in H.
  - rewrite !append_assoc in H. now apply Hraw in H.
  - apply (terminated_inj t); [now apply csv_plain_chars.. | exact H].
Qed.

(** X24.  No two records are written as the same CSV line: the quoting keeps
    the three fields apart, commas, quotes and line breaks in them
    notwithstanding. *)
Theorem csv_record_injective (r1 r2 : record) :
  r1 ≠ r2 -> csv_record r1 ≠ csv_record r2.
Proof.
  intros Hne Heq. apply Hne. clear Hne.
  change (csv_record r1)
    with ((csv_field (filename r1) ++ "," ++ csv_field (url r1) ++ ","
           ++ csv_field (release_date r1)) ++ csv_lineterminator) in Heq.
  change (csv_record r2)
    with ((csv_field (filename r2) ++ "," ++ csv_field (url r2) ++ ","
           ++ csv_field (release_date r2)) ++ csv_lineterminator) in Heq.
  rewrite !append_assoc in Heq.
  apply (csv_field_inj "," _ _ _ _ eq_refl ltac:(discriminate)) in Heq as [H1 Heq].
  apply (csv_field_inj "," _ _ _ _ eq_refl ltac:(discriminate)) in Heq as [H2 Heq].
  apply (csv_field_inj CR _ _ _ _ eq_refl ltac:(discriminate)) in Heq as [H3 _].
  destruct r1, r2. simpl in *. congruence.
Qed.

Lemma csv_record_injective_witness :
  csv_record MoreSamples.comma_in_name ≠ csv_record MoreSamples.comma_in_url.
Proof.
  apply (csv_record_injective MoreSamples.comma_in_name MoreSamples.comma_in_url).
  discriminate.
Defined.

End ScraperMoreFacts.

(* ===================================================================== *)
(** * From the scraper's URL file to the downloader's results *)
(* ===================================================================== *)

Module PipelineFacts.
Import PyStr OsPath Py Files Scraper Downloader DownloaderProgram
       PyStrFacts PyStrMore FilesFacts ScraperFacts DownloaderFacts UrlFileFacts.






End PipelineFacts.

(* ===================================================================== *)
(** * Two URLs with one name *)
(* ===================================================================== *)

Module SameNameFacts.
Import PyStr OsPath Py ContentType Files Downloader DownloaderProgram
       PyStrFacts DownloaderFacts DownloaderRuns.

(** A run that uploaded names its own file. *)
Lemma download_uploaded_name (E : Env) (url filename p : string) (st st1 : State)
    (name : string) :
  download_as E url filename p st = ((true, name, None), st1) -> name = filename.
Proof.
  intros H. apply download_inv in H.
  destruct H as [[[=] _] | [(response & _ & _ & [= ->] & _) | (msg & st0 & [=] & _)]].
  reflexivity.
Qed.

(** X26.  The key keeps the name of the file only, not its directory: when
    two URLs are both uploaded under one name, their paths end with that
    name, the second upload replaces the first in the bucket, while both are
    counted as downloaded and both add to the total size. *)
Theorem same_name_overwrites (E : Env) (url1 url2 p name : string)
    (st st1 st2 : State) :
  download_and_upload_file E url1 p st = (Some (true, name, None), st1) ->
  download_and_upload_file E url2 p st1 = (Some (true, name, None), st2) ->
  ∃ path1 path2 response1 response2,
    urlparse_path E url1 = inr path1
    ∧ urlparse_path E url2 = inr path2
    ∧ basename path1 = name
    ∧ basename path2 = name
    ∧ session_get E url1 = inr response1
    ∧ session_get E url2 = inr response2
    ∧ bucket st2
      = <[p ++ name := stored_object url2 name (strftime E (clock st1))
                         (content response2)]> (bucket st)
    ∧ clock st1 = S (clock st)
    ∧ downloaded_count st2 = downloaded_count st + 2
    ∧ total_size st2
      = total_size st + len (content response1) + len (content response2).
Proof.
  intros H1 H2.
  apply download_returned in H1 as (path1 & Hpath1 & H1).
  apply download_returned in H2 as (path2 & Hpath2 & H2).
  pose proof (download_uploaded_name _ _ _ _ _ _ _ H1) as Hn1.
  pose proof (download_uploaded_name _ _ _ _ _ _ _ H2) as Hn2.
  rewrite <- Hn1 in H1. rewrite <- Hn2 in H2.
  apply download_uploaded_inv in H1 as (response1 & Hget1 & _ & _ & _ & ->).
  apply download_uploaded_inv in H2 as (response2 & Hget2 & _ & _ & _ & ->).
  exists path1, path2, response1, response2.
  repeat split; try assumption; try (now symmetry);
    simpl; first [apply insert_insert_eq | lia].
Qed.

Lemma same_name_overwrites_witness :
  Body <$> (bucket (snd (run_pool MoreSamples.env_echo
                           [MoreSamples.url_1964; MoreSamples.url_1968]
                           (new_downloader ∅))) !! "mlk-archive/report.pdf")
  = Some MoreSamples.url_1968
  ∧ downloaded_count (snd (run_pool MoreSamples.env_echo
                             [MoreSamples.url_1964; MoreSamples.url_1968]
                             (new_downloader ∅))) = 2.
Proof.
  destruct (same_name_overwrites MoreSamples.env_echo
              MoreSamples.url_1964 MoreSamples.url_1968 "mlk-archive/" "report.pdf"
              (new_downloader ∅)
              (snd (download_and_upload_file MoreSamples.env_echo MoreSamples.url_1964
                      "mlk-archive/" (new_downloader ∅)))
              (snd (run_pool MoreSamples.env_echo
                      [MoreSamples.url_1964; MoreSamples.url_1968] (new_downloader ∅))))
    as (path1 & path2 & r1 & r2 & _ & _ & _ & _ & H1 & H2 & Hb & _ & Hd & _).
  - vm_compute. reflexivity.
  - vm_compute. reflexivity.
  - injection H2 as <-. rewrite Hb, Hd. split.
    + rewrite lookup_insert_eq. reflexivity.
    + reflexivity.
Defined.

End SameNameFacts.
